(** * A shallow embedding of the file-hosting worker ([src/_worker.js])

    The worker is a request-driven edge function: every handler receives a
    request and the [config] object, talks to a relational store (three
    tables), an object-store bucket and the chat platform, and answers with
    an HTTP response.  The embedding follows that shape:

    - rows of the three tables are records kept in lists, in table order;
    - the bucket and the in-memory caches are finite maps ([gmap]);
    - handlers are written in a small state-and-exception monad over the
      [World] they act on; every statement sent to the relational store and
      every call to the bucket or to the chat platform is also appended to
      a trace, so that "no read", "no write" and "nothing attempted" can be
      stated;
    - behaviour of the outside world that the code cannot control (clock,
      failures of remote calls, answers of the chat platform) is an input,
      the record [Ext];
    - the relational store keeps the constraints the tables are declared
      with: [UNIQUE], [NOT NULL] and [DEFAULT] of a column, and the two
      foreign keys to [categories]; a batch of statements is one
      transaction;
    - the entry point [fetch] acts on a [Site], the world together with
      the structure of the three tables, and gives every request new,
      empty caches, as the [config] object it builds does.

    JavaScript strings are modelled as Rocq strings, one [ascii] per code
    unit (so only the Latin-1 part of a text is represented exactly). *)

From Stdlib Require Import ZArith Lia Ascii String List DecimalString.
From stdpp Require Import base gmap strings list.

Local Open Scope string_scope.
Local Open Scope list_scope.
Local Open Scope Z_scope.

(** ** JavaScript values and string helpers *)

Module Js.

(** [v ? a : b] on a nullable string: [null], [undefined] and the empty
    string are falsy. *)
Definition truthy (o : option string) : bool :=
  match o with
  | Some s => negb (String.eqb s "")
  | None => false
  end.

(** [o || d] on a nullable string. *)
Definition or_else (o : option string) (d : string) : string :=
  match o with
  | Some s => if String.eqb s "" then d else s
  | None => d
  end.

(** A nullable number is truthy when present and non-zero. *)
Definition truthyZ (o : option Z) : bool :=
  match o with
  | Some n => negb (Z.eqb n 0)
  | None => false
  end.

Definition opt_eqb (o : option string) (s : string) : bool :=
  match o with
  | Some t => String.eqb t s
  | None => false
  end.

Definition optZ_eqb (o : option Z) (n : Z) : bool :=
  match o with
  | Some m => Z.eqb m n
  | None => false
  end.

(** [s.split(sep)] for a one-character separator: never the empty array. *)
Fixpoint split (sep : ascii) (s : string) : list string :=
  match s with
  | EmptyString => [EmptyString]
  | String c s' =>
      if Ascii.eqb c sep then EmptyString :: split sep s'
      else match split sep s' with
           | [] => [String c EmptyString]
           | h :: t => String c h :: t
           end
  end.

(** [a.pop()] read as a value: the last element. *)
Definition pop (l : list string) : string := List.last l "".

Definition startsWith (s p : string) : bool := String.prefix p s.

(** [s.includes(sub)] *)
Fixpoint includes (s sub : string) : bool :=
  String.prefix sub s ||
  match s with
  | EmptyString => false
  | String _ s' => includes s' sub
  end.

Definition is_space (c : ascii) : bool :=
  let n := N_of_ascii c in
  ((9 <=? n) && (n <=? 13) || (n =? 32) || (n =? 160))%N.

Fixpoint trimStart (s : string) : string :=
  match s with
  | String c s' => if is_space c then trimStart s' else s
  | EmptyString => EmptyString
  end.

Definition rev_string (s : string) : string :=
  string_of_list_ascii (List.rev (list_ascii_of_string s)).

(** [s.trim()] *)
Definition trim (s : string) : string :=
  rev_string (trimStart (rev_string (trimStart s))).

Definition lower_ascii (c : ascii) : ascii :=
  let n := N_of_ascii c in
  if ((65 <=? n) && (n <=? 90))%N then ascii_of_N (n + 32) else c.

Definition upper_ascii (c : ascii) : ascii :=
  let n := N_of_ascii c in
  if ((97 <=? n) && (n <=? 122))%N then ascii_of_N (n - 32) else c.

Fixpoint map_string (f : ascii -> ascii) (s : string) : string :=
  match s with
  | EmptyString => EmptyString
  | String c s' => String (f c) (map_string f s')
  end.

(** [toLowerCase] and [toUpperCase], on the ASCII letters. *)
Definition toLowerCase : string -> string := map_string lower_ascii.
Definition toUpperCase : string -> string := map_string upper_ascii.

(** [new URL(url).pathname] for the URLs the worker builds and receives:
    an [http] or [https] scheme, an authority, then the path up to the
    first [?] or [#].  Anything without such a scheme makes the
    constructor throw ([None]). *)
Fixpoint until_query (s : string) : string :=
  match s with
  | EmptyString => EmptyString
  | String c s' =>
      if Ascii.eqb c "?" || Ascii.eqb c "#" then EmptyString
      else String c (until_query s')
  end.

Fixpoint from_slash (s : string) : string :=
  match s with
  | EmptyString => "/"
  | String c s' => if Ascii.eqb c "/" then s else from_slash s'
  end.

Definition after_scheme (url : string) : option string :=
  if String.prefix "https://" url then Some (String.substring 8 (String.length url - 8)%nat url)
  else if String.prefix "http://" url then Some (String.substring 7 (String.length url - 7)%nat url)
  else None.

Definition url_pathname (url : string) : option string :=
  match after_scheme url with
  | Some rest => Some (from_slash (until_query rest))
  | None => None
  end.

End Js.

(** SQLite's [LIKE]: [%] matches any run of characters, [_] any single
    one, everything else itself, ASCII letters without regard to case. *)
Module Sql.

Fixpoint like_chars (p : list ascii) : list ascii -> bool :=
  match p with
  | [] => fun s => match s with [] => true | _ :: _ => false end
  | c :: p' =>
      if Ascii.eqb c "%" then
        fix any (s : list ascii) : bool :=
          like_chars p' s ||
          match s with
          | [] => false
          | _ :: s' => any s'
          end
      else if Ascii.eqb c "_" then
        fun s => match s with [] => false | _ :: s' => like_chars p' s' end
      else
        fun s =>
          match s with
          | [] => false
          | d :: s' =>
              Ascii.eqb (Js.lower_ascii c) (Js.lower_ascii d) && like_chars p' s'
          end
  end.

Definition like (s pattern : string) : bool :=
  like_chars (list_ascii_of_string pattern) (list_ascii_of_string s).

End Sql.

(** ** The relational store

    Three tables, as created by [recreateAllTables].  A nullable column is
    an [option]; rows are kept in table (rowid) order, which is the order a
    [SELECT] without [ORDER BY] scans them in.  The store enforces the
    constraints the [CREATE TABLE] statements declare: [UNIQUE] on
    [categories.name] and [user_settings.chat_id], and the two foreign
    keys, [files.category_id] and [user_settings.current_category_id],
    which both name [categories(id)]. *)

Module Category.
Record t := mk {
  id : Z;
  name : string;
  created_at : option Z
}.
End Category.

Module UserSetting.
Record t := mk {
  chat_id : string;
  storage_type : option string;
  current_category_id : option Z;
  waiting_for : option string;
  editing_file_id : option Z
}.

Definition with_storage_type (v : option string) (u : t) : t :=
  mk (chat_id u) v (current_category_id u) (waiting_for u) (editing_file_id u).
Definition with_current_category_id (v : option Z) (u : t) : t :=
  mk (chat_id u) (storage_type u) v (waiting_for u) (editing_file_id u).
Definition with_waiting_for (v : option string) (u : t) : t :=
  mk (chat_id u) (storage_type u) (current_category_id u) v (editing_file_id u).
Definition with_editing_file_id (v : option Z) (u : t) : t :=
  mk (chat_id u) (storage_type u) (current_category_id u) (waiting_for u) v.
End UserSetting.

Module File.
Record t := mk {
  id : Z;
  url : string;
  fileId : option string;
  message_id : option Z;
  created_at : Z;
  file_name : option string;
  file_size : option Z;
  mime_type : option string;
  storage_type : option string;
  category_id : option Z;
  chat_id : option string;
  remark : option string
}.

Definition with_url (v : string) (f : t) : t :=
  mk (id f) v (fileId f) (message_id f) (created_at f) (file_name f)
     (file_size f) (mime_type f) (storage_type f) (category_id f) (chat_id f) (remark f).
Definition with_fileId (v : option string) (f : t) : t :=
  mk (id f) (url f) v (message_id f) (created_at f) (file_name f)
     (file_size f) (mime_type f) (storage_type f) (category_id f) (chat_id f) (remark f).
Definition with_file_name (v : option string) (f : t) : t :=
  mk (id f) (url f) (fileId f) (message_id f) (created_at f) v
     (file_size f) (mime_type f) (storage_type f) (category_id f) (chat_id f) (remark f).
Definition with_category_id (v : option Z) (f : t) : t :=
  mk (id f) (url f) (fileId f) (message_id f) (created_at f) (file_name f)
     (file_size f) (mime_type f) (storage_type f) v (chat_id f) (remark f).
Definition with_remark (v : option string) (f : t) : t :=
  mk (id f) (url f) (fileId f) (message_id f) (created_at f) (file_name f)
     (file_size f) (mime_type f) (storage_type f) (category_id f) (chat_id f) v.
End File.

Record Db := mkDb {
  categories : list Category.t;
  user_settings : list UserSetting.t;
  files : list File.t
}.

Definition set_categories (v : list Category.t) (d : Db) : Db :=
  mkDb v (user_settings d) (files d).
Definition set_user_settings (v : list UserSetting.t) (d : Db) : Db :=
  mkDb (categories d) v (files d).
Definition set_files (v : list File.t) (d : Db) : Db :=
  mkDb (categories d) (user_settings d) v.

(** The name of the category that must always exist. *)
Definition default_category_name : string := "默认分类".

(** Errors a handler can throw or catch, one constructor per message the
    source builds or tests for. *)
Inductive Err :=
| ENoFile                 (* 未找到文件 *)
| ETooLarge (mb : Z)      (* 文件超过<maxSizeMB>MB限制 *)
| ETelegramUpload         (* Telegram文件上传失败 *)
| ETelegramParam          (* Telegram参数配置错误: ... *)
| ENoFileId               (* 未获取到文件ID *)
| ENoMessageId            (* 未获取到tg消息ID *)
| ERetryNoId              (* 重试上传后仍未获取到有效的文件ID *)
| EGetFilePath            (* 获取文件路径失败 *)
| EDownload               (* 获取文件内容失败 *)
| ENoStorageConfig        (* 未配置Telegram存储参数 *)
| ETelegramStore          (* Telegram存储失败 *)
| ER2 (op : string)       (* a rejected bucket call *)
| ENoSuchTable (table : string)           (* no such table: <table> *)
| ENoColumn (table column : string)       (* table <table> has no column named <column> *)
| EDuplicateColumn (column : string)      (* duplicate column name: <column> *)
| EUnique (what : string)                 (* UNIQUE constraint failed: <what> *)
| ENotNull (what : string)                (* NOT NULL constraint failed: <what> *)
| EForeignKey                             (* FOREIGN KEY constraint failed *)
| EStructure              (* 数据库结构验证失败 *)
| ENoDefault              (* 无法创建默认分类 / 默认分类仍然不存在 *)
| EInit                   (* 数据库初始化失败 (3 次尝试) *)
| ETypeError.             (* a property read on null or undefined *)

(** ** A state-and-exception monad

    [await]-ed calls run in sequence, a rejected promise is a [Throw], and
    what was written before a throw stays written. *)

Inductive result (A : Type) : Type :=
| Ok (a : A)
| Throw (e : Err).
Arguments Ok {A} a.
Arguments Throw {A} e.

Definition M (S A : Type) : Type := S -> result A * S.

Definition ret {S A} (a : A) : M S A := fun s => (Ok a, s).

Definition bind {S A B} (m : M S A) (k : A -> M S B) : M S B :=
  fun s =>
    match m s with
    | (Ok a, s') => k a s'
    | (Throw e, s') => (Throw e, s')
    end.

Definition throw {S A} (e : Err) : M S A := fun s => (Throw e, s).

(** [try { m } catch (e) { h e }] *)
Definition try_catch {S A} (m : M S A) (h : Err -> M S A) : M S A :=
  fun s =>
    match m s with
    | (Ok a, s') => (Ok a, s')
    | (Throw e, s') => h e s'
    end.

Definition get {S} : M S S := fun s => (Ok s, s).
Definition modify {S} (f : S -> S) : M S unit := fun s => (Ok tt, f s).

Notation "x <- m ;; k" := (bind m (fun x => k))
  (at level 100, m at next level, right associativity, only parsing).
Notation "m1 ;; m2" := (bind m1 (fun _ => m2))
  (at level 100, right associativity, only parsing).

(** [for (const x of xs) { body x }] *)
Fixpoint for_each {S A} (xs : list A) (body : A -> M S unit) : M S unit :=
  match xs with
  | [] => ret tt
  | x :: xs' => body x ;; for_each xs' body
  end.

(** ** The SQL statements of the worker, as functions on the rows *)

Module Query.

(** The next [AUTOINCREMENT] key: one more than the largest key in use. *)
Definition next_id (ids : list Z) : Z := 1 + fold_right Z.max 0 ids.

(** A foreign key is checked when a statement writes the referring
    column of a row: the value must be [NULL] or the key of a category.
    A statement that would break the rule fails and changes nothing. *)
Definition category_exists (id : Z) (d : Db) : bool :=
  existsb (fun c => Z.eqb (Category.id c) id) (categories d).

Definition refers_to_category (o : option Z) (d : Db) : bool :=
  match o with
  | Some id => category_exists id d
  | None => true
  end.

(** [SELECT ... FROM categories WHERE name = ?] *)
Definition find_category (name : string) (d : Db) : option Category.t :=
  find (fun c => String.eqb (Category.name c) name) (categories d).

(** [SELECT name FROM categories WHERE id = ?] *)
Definition find_category_by_id (id : Z) (d : Db) : option Category.t :=
  find (fun c => Z.eqb (Category.id c) id) (categories d).

(** [SELECT id FROM categories WHERE id = ? AND name = ?] *)
Definition find_category_by_id_and_name (id : Z) (name : string) (d : Db) : option Category.t :=
  find (fun c => Z.eqb (Category.id c) id && String.eqb (Category.name c) name) (categories d).

Definition insert_category_row (name : string) (created_at : option Z) (d : Db) : Z * Db :=
  let new_id := next_id (map Category.id (categories d)) in
  (new_id, set_categories (categories d ++ [Category.mk new_id name created_at]) d).

(** [INSERT INTO categories (name, created_at) VALUES (?, ?)], answering
    [last_row_id]; [name] is [UNIQUE]. *)
Definition insert_category (name : string) (created_at : Z) (d : Db) : result Z * Db :=
  match find_category name d with
  | Some _ => (Throw (EUnique "categories.name"), d)
  | None =>
      let '(new_id, d') := insert_category_row name (Some created_at) d in
      (Ok new_id, d')
  end.

(** [DELETE FROM categories WHERE id = ?]: refused while a file or a
    user setting still refers to the category. *)
Definition delete_category (id : Z) (d : Db) : result unit * Db :=
  if category_exists id d
     && (existsb (fun r => Js.optZ_eqb (File.category_id r) id) (files d)
         || existsb (fun u => Js.optZ_eqb (UserSetting.current_category_id u) id)
                    (user_settings d))
  then (Throw EForeignKey, d)
  else
    (Ok tt,
     set_categories (filter (fun c => negb (Z.eqb (Category.id c) id)) (categories d)) d).

(** [SELECT * FROM user_settings WHERE chat_id = ?] *)
Definition find_user_setting (chatId : string) (d : Db) : option UserSetting.t :=
  find (fun u => String.eqb (UserSetting.chat_id u) chatId) (user_settings d).

(** [INSERT INTO user_settings (chat_id, storage_type, current_category_id)
    VALUES (?, ?, ?)]; [chat_id] is [UNIQUE]. *)
Definition insert_user_setting (chatId : string) (storage : string) (category : option Z)
    (d : Db) : result unit * Db :=
  match find_user_setting chatId d with
  | Some _ => (Throw (EUnique "user_settings.chat_id"), d)
  | None =>
      if negb (refers_to_category category d) then (Throw EForeignKey, d)
      else
        (Ok tt,
         set_user_settings
           (user_settings d ++ [UserSetting.mk chatId (Some storage) category None None]) d)
  end.

(** [UPDATE user_settings SET ... WHERE chat_id = ?] *)
Definition update_user_setting (chatId : string) (f : UserSetting.t -> UserSetting.t) (d : Db) : Db :=
  set_user_settings
    (map (fun u => if String.eqb (UserSetting.chat_id u) chatId then f u else u)
         (user_settings d)) d.

(** [UPDATE user_settings SET current_category_id = ?, ... WHERE chat_id = ?];
    [f] sets the other columns. *)
Definition point_user_setting (chatId : string) (category : option Z)
    (f : UserSetting.t -> UserSetting.t) (d : Db) : result unit * Db :=
  if existsb (fun u => String.eqb (UserSetting.chat_id u) chatId) (user_settings d)
     && negb (refers_to_category category d)
  then (Throw EForeignKey, d)
  else
    (Ok tt,
     update_user_setting chatId (fun u => UserSetting.with_current_category_id category (f u)) d).

(** [UPDATE user_settings SET current_category_id = ? WHERE current_category_id = ?] *)
Definition repoint_user_settings (to : option Z) (from : Z) (d : Db) : result unit * Db :=
  if existsb (fun u => Js.optZ_eqb (UserSetting.current_category_id u) from) (user_settings d)
     && negb (refers_to_category to d)
  then (Throw EForeignKey, d)
  else
    (Ok tt,
     set_user_settings
       (map (fun u => if Js.optZ_eqb (UserSetting.current_category_id u) from
                      then UserSetting.with_current_category_id to u else u)
            (user_settings d)) d).

(** [SELECT * FROM files WHERE url = ?] *)
Definition find_file_by_url (url : string) (d : Db) : option File.t :=
  find (fun f => String.eqb (File.url f) url) (files d).

(** [SELECT * FROM files WHERE fileId = ?] *)
Definition find_file_by_fileId (fileId : string) (d : Db) : option File.t :=
  find (fun f => Js.opt_eqb (File.fileId f) fileId) (files d).

(** [SELECT * FROM files WHERE file_name = ?] *)
Definition find_file_by_file_name (fileName : string) (d : Db) : option File.t :=
  find (fun f => Js.opt_eqb (File.file_name f) fileName) (files d).

(** [SELECT * FROM files WHERE id = ?] *)
Definition find_file_by_id (id : Z) (d : Db) : option File.t :=
  find (fun f => Z.eqb (File.id f) id) (files d).

(** [SELECT * FROM files WHERE fileId = ? AND id != ?] *)
Definition find_other_file_by_fileId (fileId : string) (id : Z) (d : Db) : option File.t :=
  find (fun f => Js.opt_eqb (File.fileId f) fileId && negb (Z.eqb (File.id f) id)) (files d).

(** [SELECT * FROM files WHERE url = ? AND id != ?] *)
Definition find_other_file_by_url (url : string) (id : Z) (d : Db) : option File.t :=
  find (fun f => String.eqb (File.url f) url && negb (Z.eqb (File.id f) id)) (files d).

(** [SELECT ... FROM files WHERE url = ? AND chat_id = ?] *)
Definition find_file_by_url_of_chat (url chatId : string) (d : Db) : option File.t :=
  find (fun f => String.eqb (File.url f) url && Js.opt_eqb (File.chat_id f) chatId) (files d).

(** [ORDER BY created_at DESC LIMIT 1]: a row with the largest
    [created_at]; among equals, the first in table order. *)
Fixpoint newest (rows : list File.t) : option File.t :=
  match rows with
  | [] => None
  | f :: rest =>
      match newest rest with
      | Some g => if File.created_at f <? File.created_at g then Some g else Some f
      | None => Some f
      end
  end.

(** [SELECT ... FROM files WHERE (file_name = ? OR url LIKE ?) AND chat_id = ?
    ORDER BY created_at DESC LIMIT 1], bound to [fileName], [%/fileName]
    and [chatId]. *)
Definition find_newest_by_name_of_chat (fileName chatId : string) (d : Db) : option File.t :=
  newest
    (filter (fun f =>
               (Js.opt_eqb (File.file_name f) fileName ||
                Sql.like (File.url f) ("%/" +:+ fileName)) &&
               Js.opt_eqb (File.chat_id f) chatId)
            (files d)).

(** [UPDATE files SET ... WHERE id = ?] *)
Definition update_file (id : Z) (f : File.t -> File.t) (d : Db) : Db :=
  set_files (map (fun r => if Z.eqb (File.id r) id then f r else r) (files d)) d.

(** [UPDATE files SET ... WHERE url = ?] *)
Definition update_files_by_url (url : string) (f : File.t -> File.t) (d : Db) : Db :=
  set_files (map (fun r => if String.eqb (File.url r) url then f r else r) (files d)) d.

(** [UPDATE files SET category_id = ? WHERE url = ?] *)
Definition set_category_by_url (url : string) (category : option Z) (d : Db)
    : result unit * Db :=
  if existsb (fun r => String.eqb (File.url r) url) (files d)
     && negb (refers_to_category category d)
  then (Throw EForeignKey, d)
  else (Ok tt, update_files_by_url url (File.with_category_id category) d).

(** [UPDATE files SET category_id = ? WHERE category_id = ?] *)
Definition repoint_files (to : option Z) (from : Z) (d : Db) : result unit * Db :=
  if existsb (fun r => Js.optZ_eqb (File.category_id r) from) (files d)
     && negb (refers_to_category to d)
  then (Throw EForeignKey, d)
  else
    (Ok tt,
     set_files
       (map (fun r => if Js.optZ_eqb (File.category_id r) from
                      then File.with_category_id to r else r)
            (files d)) d).

(** [DELETE FROM files WHERE id = ?] *)
Definition delete_file (id : Z) (d : Db) : Db :=
  set_files (filter (fun r => negb (Z.eqb (File.id r) id)) (files d)) d.

(** [INSERT INTO files (...) VALUES (...)]; the key is generated. *)
Definition insert_file (row : Z -> File.t) (d : Db) : result unit * Db :=
  let new_row := row (next_id (map File.id (files d))) in
  if negb (refers_to_category (File.category_id new_row) d) then (Throw EForeignKey, d)
  else (Ok tt, set_files (files d ++ [new_row]) d).

(** [SELECT COUNT( * ) as total_files, SUM(file_size) as total_size
    FROM files WHERE chat_id = ?] *)
Definition stats_of_chat (chatId : string) (d : Db) : Z * Z :=
  let mine := filter (fun f => Js.opt_eqb (File.chat_id f) chatId) (files d) in
  (Z.of_nat (length mine),
   fold_right Z.add 0 (map (fun f => default 0 (File.file_size f)) mine)).

End Query.

(** ** Schema initialisation ([initDatabase], [validateDatabaseStructure],
       [recreateAllTables])

    The state is the store with its structure: each of the three tables is
    missing or has a list of columns (what [PRAGMA table_info] reports of
    a column: its name, its declared type, whether it is [NOT NULL] and
    whether it has a [DEFAULT]).  A statement fails when its table or a
    column it names is missing; [ALTER TABLE ... ADD COLUMN] fails when the
    column exists; an [INSERT] fails when it gives no value for a column
    that is [NOT NULL] and has no [DEFAULT], and [INSERT OR IGNORE] then
    inserts nothing.  [id] is the key every [CREATE TABLE] of the source
    declares ([INTEGER PRIMARY KEY AUTOINCREMENT]) and [categories.name]
    is [UNIQUE], so [INSERT OR IGNORE] of a name that is present inserts
    nothing. *)

Module Schema.

Inductive Tbl := Categories | UserSettings | Files.

Definition tbl_name (t : Tbl) : string :=
  match t with
  | Categories => "categories"
  | UserSettings => "user_settings"
  | Files => "files"
  end.

Record Column := mkColumn {
  col_name : string;
  col_type : string;
  col_notnull : bool;     (* declared NOT NULL *)
  col_dflt : bool         (* declared with a DEFAULT *)
}.

(** [name type], with no constraint: an entry of [tableStructures] and the
    column [ALTER TABLE ... ADD COLUMN name type] adds. *)
Definition plain (name type : string) : Column := mkColumn name type false false.

Record Store := mkStore {
  t_categories : option (list Column);
  t_user_settings : option (list Column);
  t_files : option (list Column);
  rows : Db
}.

Definition table_of (t : Tbl) (s : Store) : option (list Column) :=
  match t with
  | Categories => t_categories s
  | UserSettings => t_user_settings s
  | Files => t_files s
  end.

Definition set_table (t : Tbl) (v : option (list Column)) (s : Store) : Store :=
  match t with
  | Categories => mkStore v (t_user_settings s) (t_files s) (rows s)
  | UserSettings => mkStore (t_categories s) v (t_files s) (rows s)
  | Files => mkStore (t_categories s) (t_user_settings s) v (rows s)
  end.

Definition set_rows (d : Db) (s : Store) : Store :=
  mkStore (t_categories s) (t_user_settings s) (t_files s) d.

Definition clear_rows (t : Tbl) (d : Db) : Db :=
  match t with
  | Categories => set_categories [] d
  | UserSettings => set_user_settings [] d
  | Files => set_files [] d
  end.

(** The columns of the three [CREATE TABLE IF NOT EXISTS] statements. *)
Definition created_columns (t : Tbl) : list Column :=
  match t with
  | Categories =>
      [ plain "id" "INTEGER";
        mkColumn "name" "TEXT" true false;                (* NOT NULL UNIQUE *)
        mkColumn "created_at" "DATETIME" false true ]     (* DEFAULT CURRENT_TIMESTAMP *)
  | UserSettings =>
      [ plain "id" "INTEGER";
        mkColumn "chat_id" "TEXT" true false;             (* NOT NULL UNIQUE *)
        mkColumn "storage_type" "TEXT" false true;        (* DEFAULT 'telegram' *)
        plain "current_category_id" "INTEGER";
        plain "waiting_for" "TEXT"; plain "editing_file_id" "TEXT" ]
  | Files =>
      [ plain "id" "INTEGER";
        mkColumn "url" "TEXT" true false;                 (* NOT NULL *)
        plain "fileId" "TEXT"; plain "message_id" "INTEGER";
        mkColumn "created_at" "DATETIME" false true;      (* DEFAULT CURRENT_TIMESTAMP *)
        plain "file_name" "TEXT"; plain "file_size" "INTEGER";
        plain "mime_type" "TEXT";
        mkColumn "storage_type" "TEXT" false true;        (* DEFAULT 'telegram' *)
        plain "category_id" "INTEGER"; plain "chat_id" "TEXT";
        plain "remark" "TEXT" ]
  end.

(** [tableStructures] of [validateDatabaseStructure]: the name and the
    type expected of each column. *)
Definition tableStructures : list (Tbl * list Column) :=
  [ (Categories,
      [ plain "id" "INTEGER"; plain "name" "TEXT"; plain "created_at" "DATETIME" ]);
    (UserSettings,
      [ plain "id" "INTEGER"; plain "chat_id" "TEXT";
        plain "storage_type" "TEXT"; plain "current_category_id" "INTEGER";
        plain "waiting_for" "TEXT"; plain "editing_file_id" "TEXT" ]);
    (Files,
      [ plain "id" "INTEGER"; plain "url" "TEXT"; plain "fileId" "TEXT";
        plain "message_id" "INTEGER"; plain "created_at" "DATETIME";
        plain "file_name" "TEXT"; plain "file_size" "INTEGER";
        plain "mime_type" "TEXT"; plain "storage_type" "TEXT";
        plain "category_id" "INTEGER"; plain "chat_id" "TEXT";
        plain "remark" "TEXT" ]) ].

(** [CREATE TABLE IF NOT EXISTS t (...)] *)
Definition create_table_if_not_exists (t : Tbl) : M Store unit :=
  modify (fun s =>
    match table_of t s with
    | Some _ => s
    | None => set_rows (clear_rows t (rows s)) (set_table t (Some (created_columns t)) s)
    end).

(** A statement that reads or writes table [t]. *)
Definition on_table {A} (t : Tbl) (m : M Store A) : M Store A :=
  fun s =>
    match table_of t s with
    | Some _ => m s
    | None => (Throw (ENoSuchTable (tbl_name t)), s)
    end.

(** Column names are compared without regard to case. *)
Definition same_name (a b : string) : bool :=
  String.eqb (Js.toLowerCase a) (Js.toLowerCase b).

Definition has_column (cols : list Column) (name : string) : bool :=
  existsb (fun col => same_name (col_name col) name) cols.

(** A statement on table [t] that names the columns [names]. *)
Definition needs (t : Tbl) (names : list string) : M Store unit :=
  fun s =>
    match table_of t s with
    | None => (Throw (ENoSuchTable (tbl_name t)), s)
    | Some cols =>
        match find (fun name => negb (has_column cols name)) names with
        | Some name => (Throw (ENoColumn (tbl_name t) name), s)
        | None => (Ok tt, s)
        end
    end.

(** An [INSERT] that gives values for [provided] leaves the other columns
    to the table: each of them must be nullable or have a [DEFAULT]. *)
Definition unprovided_ok (provided : list string) (cols : list Column) : bool :=
  forallb (fun col =>
             existsb (same_name (col_name col)) provided
             || negb (col_notnull col) || col_dflt col)
          cols.

(** The [created_at] of a row inserted without one: the time of the call
    when the column has a [DEFAULT] (it is [CURRENT_TIMESTAMP] wherever
    the source declares one), [NULL] otherwise. *)
Definition default_created_at (cols : list Column) (now : Z) : option Z :=
  if existsb (fun col => same_name (col_name col) "created_at" && col_dflt col) cols
  then Some now else None.

(** [INSERT OR IGNORE INTO categories (name) VALUES ('默认分类')] *)
Definition insert_or_ignore_default (now : Z) : M Store unit :=
  needs Categories ["name"] ;;
  modify (fun s =>
    let cols := default [] (table_of Categories s) in
    match Query.find_category default_category_name (rows s) with
    | Some _ => s
    | None =>
        if unprovided_ok ["name"] cols then
          set_rows
            (snd (Query.insert_category_row default_category_name
                    (default_created_at cols now) (rows s))) s
        else s
    end).

Definition recreateAllTables (now : Z) : M Store bool :=
  try_catch
    (create_table_if_not_exists Categories ;;
     create_table_if_not_exists UserSettings ;;
     create_table_if_not_exists Files ;;
     insert_or_ignore_default now ;;
     ret true)
    (fun error => throw error).

(** The first loop of [validateDatabaseStructure]: probe each table; at
    the first one that is missing recreate all and report it ([true]),
    which makes the caller return at once. *)
Fixpoint probe_tables (now : Z) (tables : list Tbl) : M Store bool :=
  match tables with
  | [] => ret false
  | table :: rest =>
      recreated <-
        try_catch (on_table table (ret false))
          (fun error =>
             match error with
             | ENoSuchTable _ => recreateAllTables now ;; ret true
             | _ => throw error
             end) ;;
      if recreated then ret true else probe_tables now rest
  end.

(** [actualColumns.some(col => ...)] *)
Definition found (actualColumns : list Column) (expectedColumn : Column) : bool :=
  existsb (fun col =>
             same_name (col_name col) (col_name expectedColumn) &&
             Js.includes (Js.toUpperCase (col_type col)) (col_type expectedColumn))
          actualColumns.

(** [ALTER TABLE t ADD COLUMN name type] *)
Definition alter_table_add_column (t : Tbl) (c : Column) : M Store unit :=
  fun s =>
    match table_of t s with
    | None => (Throw (ENoSuchTable (tbl_name t)), s)
    | Some cols =>
        if has_column cols (col_name c) then (Throw (EDuplicateColumn (col_name c)), s)
        else (Ok tt, set_table t (Some (cols ++ [c])) s)
    end.

(** [PRAGMA table_info(t)]: no rows for a table that does not exist. *)
Definition table_info (t : Tbl) : M Store (list Column) :=
  fun s => (Ok (default [] (table_of t s)), s).

(** One turn of the loop over the expected columns: a column that is not
    found is added, and "duplicate column name" counts as done. *)
Definition add_column_step (t : Tbl) (actualColumns : list Column)
    (expectedColumn : Column) : M Store unit :=
  if found actualColumns expectedColumn then ret tt
  else
    try_catch (alter_table_add_column t expectedColumn)
      (fun error =>
         match error with
         | EDuplicateColumn _ => ret tt
         | _ => throw error
         end).

Definition add_missing_columns (t : Tbl) (expectedColumns : list Column) : M Store unit :=
  actualColumns <- table_info t ;;
  for_each expectedColumns (add_column_step t actualColumns).

Definition is_null {A} (o : option A) : bool :=
  match o with
  | None => true
  | Some _ => false
  end.

(** [UPDATE files SET category_id = ? WHERE category_id IS NULL], run when
    the count of such rows is positive. *)
Definition adopt_orphan_files (newDefaultId : Z) : M Store unit :=
  needs Files ["category_id"] ;;
  n <- (fun s => (Ok (length (filter (fun f => is_null (File.category_id f)) (files (rows s)))), s)) ;;
  if (0 <? n)%nat then
    on_table Files
      (modify (fun s =>
         set_rows
           (set_files
              (map (fun f => if is_null (File.category_id f)
                             then File.with_category_id (Some newDefaultId) f else f)
                   (files (rows s)))
              (rows s)) s))
  else ret tt.

Definition adopt_orphan_settings (newDefaultId : Z) : M Store unit :=
  needs UserSettings ["current_category_id"] ;;
  n <- (fun s => (Ok (length (filter (fun u => is_null (UserSetting.current_category_id u))
                                     (user_settings (rows s)))), s)) ;;
  if (0 <? n)%nat then
    on_table UserSettings
      (modify (fun s =>
         set_rows
           (set_user_settings
              (map (fun u => if is_null (UserSetting.current_category_id u)
                             then UserSetting.with_current_category_id (Some newDefaultId) u else u)
                   (user_settings (rows s)))
              (rows s)) s))
  else ret tt.

(** [SELECT id FROM categories WHERE name = '默认分类'] *)
Definition select_default : M Store (option Z) :=
  needs Categories ["id"; "name"] ;;
  fun s => (Ok (Category.id <$> Query.find_category default_category_name (rows s)), s).

(** [INSERT INTO categories (name, created_at) VALUES (?, ?)], answering
    [last_row_id]. *)
Definition insert_category (name : string) (now : Z) : M Store Z :=
  needs Categories ["name"; "created_at"] ;;
  fun s =>
    if negb (unprovided_ok ["name"; "created_at"] (default [] (table_of Categories s)))
    then (Throw (ENotNull "categories"), s)
    else
      match Query.find_category name (rows s) with
      | Some _ => (Throw (EUnique "categories.name"), s)
      | None =>
          let '(new_id, d) := Query.insert_category_row name (Some now) (rows s) in
          (Ok new_id, set_rows d s)
      end.

Definition ensure_default_category (now : Z) : M Store unit :=
  defaultCategory <- select_default ;;
  match defaultCategory with
  | None =>
      try_catch
        (newDefaultId <- insert_category default_category_name now ;;
         if negb (Z.eqb newDefaultId 0) then
           adopt_orphan_files newDefaultId ;;
           adopt_orphan_settings newDefaultId
         else ret tt)
        (fun _ => throw ENoDefault)
  | Some _ => ret tt
  end.

Definition validateDatabaseStructure (now : Z) : M Store bool :=
  try_catch
    (recreated <- probe_tables now [Categories; UserSettings; Files] ;;
     if recreated then ret true
     else
       for_each tableStructures (fun '(table, expectedColumns) =>
         add_missing_columns table expectedColumns) ;;
       ensure_default_category now ;;
       checkAgain <- select_default ;;
       match checkAgain with
       | None => throw ENoDefault
       | Some _ => ret true
       end)
    (fun _ => ret false).

(** One turn of the retry loop of [initDatabase]; the pause between two
    attempts is not modelled. *)
Fixpoint initDatabase_attempts (remaining : nat) (now : Z) : M Store bool :=
  match remaining with
  | O => throw EInit
  | S remaining' =>
      try_catch
        (structureValid <- validateDatabaseStructure now ;;
         if structureValid then ret true else throw EStructure)
        (fun error =>
           recovered <-
             match error with
             | ENoSuchTable _ =>
                 try_catch (recreateAllTables now) (fun _ => ret false)
             | _ => ret false
             end ;;
           if recovered then ret true else initDatabase_attempts remaining' now)
  end.

Definition initDatabase (now : Z) : M Store bool := initDatabase_attempts 3 now.

(** How many categories bear the default name. *)
Definition default_count (s : Store) : nat :=
  length (filter (fun c => String.eqb (Category.name c) default_category_name)
                 (categories (rows s))).

Definition structure (s : Store) : option (list Column) * option (list Column) * option (list Column) :=
  (t_categories s, t_user_settings s, t_files s).

(** The store after [n] calls in sequence ([None] once a call has failed). *)
Fixpoint after_calls (n : nat) (now : Z) (s : Store) : option Store :=
  match n with
  | O => Some s
  | S n' =>
      match after_calls n' now s with
      | Some s' =>
          match initDatabase now s' with
          | (Ok true, s'') => Some s''
          | _ => None
          end
      | None => None
      end
  end.

(** The column names [tableStructures] expects of [t]. *)
Definition expected_of (t : Tbl) : list Column :=
  default [] (snd <$> find (fun '(t', _) => bool_decide (tbl_name t' = tbl_name t)) tableStructures).

(** Every table exists and has, by name, every column expected of it. *)
Definition complete (s : Store) : Prop :=
  forall t, exists cols,
    table_of t s = Some cols
    /\ forall e, e ∈ expected_of t -> has_column cols (col_name e) = true.

(** A category bears the default name. *)
Definition has_default (s : Store) : Prop :=
  exists cat, Query.find_category default_category_name (rows s) = Some cat.

End Schema.

(** ** The world a handler acts on *)

(** Texts the bot sends to a chat, one constructor per message template. *)
Inductive Notice :=
| Unauthorized                       (* 你无权使用 请联系管理员授权 *)
| CategoryExists (name : string)     (* ⚠️ 分类"<name>"已存在 *)
| CategoryCreated (name : string)    (* ✅ 分类"<name>"创建成功并已设为当前分类 *)
| CategoryFailed (e : Err)           (* ❌ 创建分类失败: ... *)
| FileGone                           (* ⚠️ 文件不存在或已被删除 *)
| Renamed (fileUrl : string)         (* ✅ 重命名成功！ 新链接：<fileUrl> *)
| RenameFailed                       (* ❌ 重命名失败，请稍后重试 *)
| RenameError (e : Err)              (* ❌ 重命名失败: ... *)
| NeedFullName                       (* ⚠️ 请输入完整的文件名称（包含扩展名）或完整URL *)
| NoMatch                            (* ⚠️ 未找到匹配的文件，请输入完整的文件名称或URL *)
| Deleted (fileName : string)        (* ✅ 文件已成功删除: <fileName> *)
| DeleteError (e : Err)              (* ❌ 删除文件时出错: ... *)
| Unrecognized                       (* ❌ 无法识别的文件类型 *)
| FoundFile (fileName : string)      (* 📝 找到文件: <fileName> ... 请回复此消息，输入文件的新名称 *)
| ProcessError (e : Err)             (* ❌ 处理失败: ... *)
| SendMediaHint                      (* 请发送图片或文件进行上传，或使用 /start 查看主菜单 *)
| Processing                         (* ⏳ 正在处理您的文件，请稍候... *)
| TooLarge (maxSizeMB : Z)           (* ❌ 文件超过<maxSizeMB>MB限制 *)
| UploadFailed (e : Err).            (* ❌ 上传失败: ... *)

(** Texts of the JSON answers. *)
Inductive Msg :=
| MUnauthorized             (* 未授权 *)
| MUnauthorizedAccess       (* 未授权访问 *)
| MInvalidCategoryId        (* 分类ID无效 *)
| MDefaultNotDeletable      (* 默认分类不能删除 *)
| MNoCategory               (* 分类不存在 *)
| MCategoryDeleted (name : string) (moved : bool)
                            (* 分类 "<name>" 删除成功[，相关文件已移至默认分类] *)
| MCategoryDeleteFailed (e : Err)   (* 删除分类失败：... *)
| MUploadOk                 (* ✔ 上传成功 *)
| MUploadFailed (e : Err)   (* ✘ 上传失败, error: ... *)
| MInvalidUrls              (* 无效的URL列表 / 无效的文件列表 / 无效的请求参数 *)
| MBulkDone                 (* 批量删除处理完成 *)
| MNoRecord                 (* 未找到文件记录 *)
| MFailure (e : Err)        (* the message of a caught error *)
| MMissingId                (* 缺少文件标识信息 *)
| MNoFile                   (* 文件不存在 *)
| MDeleted                  (* 删除成功 *)
| MEmptyRename              (* 文件链接和新名称不能为空 *)
| MNoRecordFor              (* 未找到对应的文件记录 *)
| MNameTaken                (* 文件名已存在，无法修改 *)
| MUrlTaken                 (* 该URL已被使用，请尝试其他名称 *)
| MRenamed                  (* 重命名成功 *)
| MRemarkUpdated            (* 备注更新成功 *)
| MCategoryChanged.         (* 分类更换成功 *)

(** Bodies of HTTP responses. [Json] is [{status, msg}] (the text under the
    key [msg], [message] or [error]), [JsonUrl] adds [url], [newUrl] or
    [redirect], [JsonBulk] is the answer of [/delete-multiple] with its
    per-item lists, [JsonConfig] the answer of [/config]. *)
Inductive Body :=
| Text (s : string)
| Json (status : Z) (msg : Msg)
| JsonUrl (status : Z) (msg : Msg) (url : string)
| JsonBulk (status : Z) (msg : Msg) (success : list string) (failed : list (string * Msg))
| JsonConfig (maxSizeMB : Z)
| Stream (content : string) (content_type : string)
| Redirect (location : string).

Record Response := mkResponse { http_status : Z; body : Body }.

(** What the main menu shows (the notice of the day, fetched from
    elsewhere, is left out). *)
Record Menu := mkMenu {
  menu_chat : string;
  menu_r2 : bool;               (* storageText: R2 or Telegram *)
  menu_category : option string; (* None: 未选择分类 *)
  menu_total_files : Z;
  menu_total_size : Z
}.

Inductive Event :=
| DbRead (table : string)
| DbWrite (table : string)
| R2Get (key : string)
| R2Put (key : string)
| R2Delete (key : string)
| TgUpload (method : string) (fileName : string)
| TgDeleteMessage (chat : string) (message_id : Z)
| TgGetFile (file_id : string)
| TgDownload (file_path : string)
| TgEditMessage (chat : string)
| TgSendQr (chat : string) (finalUrl : string)
| TgSetWebhook (webhookUrl : string)
| SendMessage (chat : string) (text : Notice)
| SendMenu (chat : string) (menu : Menu).

Record R2Object := mkR2 { r2_body : string; contentType : option string }.

(** A message of the storage chat with the file attached to it. *)
Record Stored := mkStored {
  stored_message_id : Z;
  stored_file_id : string;
  stored_content : string
}.

Record CacheEntry := mkCacheEntry { cached_response : Response; cached_at : Z }.

Record World := mkWorld {
  db : Db;
  bucket : gmap string R2Object;
  chat_store : list Stored;
  fileCache : gmap string CacheEntry;
  menuCache : gmap string (Menu * Z);
  trace : list Event
}.

Definition set_db (v : Db) (w : World) : World :=
  mkWorld v (bucket w) (chat_store w) (fileCache w) (menuCache w) (trace w).
Definition set_bucket (v : gmap string R2Object) (w : World) : World :=
  mkWorld (db w) v (chat_store w) (fileCache w) (menuCache w) (trace w).
Definition set_chat_store (v : list Stored) (w : World) : World :=
  mkWorld (db w) (bucket w) v (fileCache w) (menuCache w) (trace w).
Definition set_fileCache (v : gmap string CacheEntry) (w : World) : World :=
  mkWorld (db w) (bucket w) (chat_store w) v (menuCache w) (trace w).
Definition set_menuCache (v : gmap string (Menu * Z)) (w : World) : World :=
  mkWorld (db w) (bucket w) (chat_store w) (fileCache w) v (trace w).
Definition set_trace (v : list Event) (w : World) : World :=
  mkWorld (db w) (bucket w) (chat_store w) (fileCache w) (menuCache w) v.

(** The configuration object built by [fetch] from the environment; the
    bucket and the caches it carries are in the [World]. *)
Record Config := mkConfig {
  domain : string;
  username : string;
  password : string;
  enableAuth : bool;
  tgBotToken : string;
  tgChatId : list string;
  tgStorageChatId : string;
  maxSizeMB : Z;
  has_bucket : bool;          (* config.bucket is bound *)
  fileCacheTTL : Z;
  menuCacheTTL : Z
}.

(** [Number(env.MAX_SIZE_MB) || 20]: the ceiling when the variable is
    unset, not a number ([None]) or zero. *)
Definition maxSizeMB_of_env (MAX_SIZE_MB : option Z) : Z :=
  match MAX_SIZE_MB with
  | Some n => if Z.eqb n 0 then 20 else n
  | None => 20
  end.

(** What the outside world does during one request.  The clock is read
    once. *)
Record Ext := mkExt {
  now : Z;                               (* Date.now() *)
  r2_get_fails : bool;                   (* bucket.get rejects *)
  r2_put_fails : bool;                   (* bucket.put rejects *)
  r2_delete_fails : bool;                (* bucket.delete rejects *)
  tg_upload_ok : bool;                   (* the upload call answers ok *)
  tg_retry_ok : bool;                    (* the sendDocument retry answers ok *)
  tg_result_message_id : option Z;       (* result.message_id *)
  tg_result_file_id : option string;     (* result.<kind>.file_id *)
  tg_delete_ok : bool;                   (* deleteMessage answers ok *)
  tg_file_path : option string;          (* getFile: result.file_path when ok *)
  tg_download : option (option Z * string);
                                         (* the download, when ok: its
                                            content-length header read as a
                                            number, and its bytes *)
  tg_menu_ok : bool;                     (* sending a memoized menu answers ok *)
  tg_processing_message_id : option Z    (* message_id of the "processing" note *)
}.

Abbreviation Handler := (M World).

Definition emit (e : Event) : Handler unit :=
  modify (fun w => set_trace (trace w ++ [e]) w).

(** A [SELECT] on [table]. *)
Definition db_read {A} (table : string) (q : Db -> A) : Handler A :=
  emit (DbRead table) ;;
  w <- get ;;
  ret (q (db w)).

(** An [INSERT], [UPDATE] or [DELETE] on [table]. *)
Definition db_write (table : string) (u : Db -> Db) : Handler unit :=
  emit (DbWrite table) ;;
  modify (fun w => set_db (u (db w)) w).

(** A write that answers a value or fails on a constraint. *)
Definition db_write_result {A} (table : string) (u : Db -> result A * Db) : Handler A :=
  emit (DbWrite table) ;;
  fun w => let '(r, d) := u (db w) in (r, set_db d w).

Definition sendMessage (chatId : string) (text : Notice) : Handler unit :=
  emit (SendMessage chatId text).

(** ** Helpers of the worker *)

(** [`${n}`] for an integer, and the reading of a decimal text the
    relational store does when it compares a text with an integer key. *)
Definition string_of_Z (n : Z) : string :=
  DecimalString.NilZero.string_of_int (Z.to_int n).

Definition Z_of_string (s : string) : option Z :=
  Z.of_int <$> DecimalString.NilZero.int_of_string s.

Definition getFileName (url : string) : string :=
  match Js.url_pathname url with
  | Some pathname => Js.pop (Js.split "/" pathname)
  | None => Js.or_else (Some (Js.pop (Js.split "/" url))) url
  end.

(** The object literal [types] of [getContentType], in source order; a
    key written twice keeps its last value. *)
Definition types : list (string * string) :=
  [ ("jpg", "image/jpeg"); ("jpeg", "image/jpeg"); ("png", "image/png");
    ("gif", "image/gif"); ("webp", "image/webp"); ("svg", "image/svg+xml");
    ("avif", "image/avif"); ("ico", "image/x-icon"); ("icon", "image/x-icon");
    ("bmp", "image/bmp"); ("tiff", "image/tiff"); ("tif", "image/tiff");
    ("mp4", "video/mp4"); ("webm", "video/webm"); ("ogg", "video/ogg");
    ("ogv", "video/ogg"); ("avi", "video/x-msvideo"); ("mov", "video/quicktime");
    ("wmv", "video/x-ms-wmv"); ("flv", "video/x-flv"); ("mkv", "video/x-matroska");
    ("m4v", "video/x-m4v"); ("ts", "video/mp2t"); ("mp3", "audio/mpeg");
    ("wav", "audio/wav"); ("ogg", "audio/ogg"); ("m4a", "audio/mp4");
    ("aac", "audio/aac"); ("flac", "audio/flac"); ("wma", "audio/x-ms-wma");
    ("pdf", "application/pdf"); ("doc", "application/msword");
    ("docx", "application/vnd.openxmlformats-officedocument.wordprocessingml.document");
    ("xls", "application/vnd.ms-excel");
    ("xlsx", "application/vnd.openxmlformats-officedocument.spreadsheetml.sheet");
    ("ppt", "application/vnd.ms-powerpoint");
    ("pptx", "application/vnd.openxmlformats-officedocument.presentationml.presentation");
    ("rtf", "application/rtf"); ("txt", "text/plain"); ("md", "text/markdown");
    ("csv", "text/csv"); ("html", "text/html"); ("htm", "text/html");
    ("css", "text/css"); ("js", "application/javascript"); ("xml", "application/xml");
    ("json", "application/json"); ("zip", "application/zip");
    ("rar", "application/x-rar-compressed"); ("7z", "application/x-7z-compressed");
    ("tar", "application/x-tar"); ("gz", "application/gzip");
    ("swf", "application/x-shockwave-flash"); ("ttf", "font/ttf"); ("otf", "font/otf");
    ("woff", "font/woff"); ("woff2", "font/woff2");
    ("eot", "application/vnd.ms-fontobject"); ("ini", "text/plain");
    ("yml", "application/yaml"); ("yaml", "application/yaml"); ("toml", "text/plain");
    ("py", "text/x-python"); ("java", "text/x-java"); ("c", "text/x-c");
    ("cpp", "text/x-c++"); ("cs", "text/x-csharp"); ("php", "application/x-php");
    ("rb", "text/x-ruby"); ("go", "text/x-go"); ("rs", "text/x-rust");
    ("sh", "application/x-sh"); ("bat", "application/x-bat"); ("sql", "application/sql") ].

Definition lookup_last (table : list (string * string)) (key : string) : option string :=
  fold_left (fun acc '(k, v) => if String.eqb k key then Some v else acc) table None.

Definition getContentType (ext : string) : string :=
  let lowerExt := Js.toLowerCase ext in
  Js.or_else (lookup_last types lowerExt) "application/octet-stream".

(** [mimeMap] of [getExtensionFromMime]. *)
Definition mimeMap : list (string * string) :=
  [ ("image/jpeg", "jpg"); ("image/jpg", "jpg"); ("image/png", "png");
    ("image/gif", "gif"); ("image/webp", "webp"); ("image/svg+xml", "svg");
    ("image/bmp", "bmp"); ("image/avif", "avif"); ("image/tiff", "tiff");
    ("image/x-icon", "ico"); ("video/mp4", "mp4"); ("video/webm", "webm");
    ("video/ogg", "ogv"); ("video/x-msvideo", "avi"); ("video/quicktime", "mov");
    ("video/x-ms-wmv", "wmv"); ("video/x-flv", "flv"); ("video/x-matroska", "mkv");
    ("video/x-m4v", "m4v"); ("video/mp2t", "ts"); ("audio/mpeg", "mp3");
    ("audio/mp3", "mp3"); ("audio/ogg", "ogg"); ("audio/wav", "wav");
    ("audio/mp4", "m4a"); ("audio/aac", "aac"); ("audio/flac", "flac");
    ("audio/x-ms-wma", "wma"); ("application/pdf", "pdf"); ("application/msword", "doc");
    ("application/vnd.openxmlformats-officedocument.wordprocessingml.document", "docx");
    ("application/vnd.ms-excel", "xls");
    ("application/vnd.openxmlformats-officedocument.spreadsheetml.sheet", "xlsx");
    ("application/vnd.ms-powerpoint", "ppt");
    ("application/vnd.openxmlformats-officedocument.presentationml.presentation", "pptx");
    ("application/rtf", "rtf"); ("application/zip", "zip");
    ("application/x-rar-compressed", "rar"); ("application/x-7z-compressed", "7z");
    ("application/x-tar", "tar"); ("application/gzip", "gz"); ("text/plain", "txt");
    ("text/markdown", "md"); ("text/csv", "csv"); ("text/html", "html");
    ("text/css", "css"); ("text/javascript", "js"); ("application/javascript", "js");
    ("application/json", "json"); ("application/xml", "xml"); ("font/ttf", "ttf");
    ("font/otf", "otf"); ("font/woff", "woff"); ("font/woff2", "woff2");
    ("application/vnd.ms-fontobject", "eot"); ("application/octet-stream", "bin");
    ("application/x-shockwave-flash", "swf") ].

Definition getExtensionFromMime (mimeType : option string) : string :=
  match mimeType with
  | Some m => if String.eqb m "" then "jpg" else Js.or_else (lookup_last mimeMap m) "bin"
  | None => "jpg"
  end.

(** [fileName.replace(/[^a-zA-Z0-9\-\_\.]/g, '_')] *)
Definition keeps (c : ascii) : bool :=
  let n := N_of_ascii c in
  ((97 <=? n) && (n <=? 122) || (65 <=? n) && (n <=? 90) || (48 <=? n) && (n <=? 57)
   || (n =? 45) || (n =? 95) || (n =? 46))%N.

Definition sanitize (fileName : string) : string :=
  Js.map_string (fun c => if keeps c then c else "_"%char) fileName.

(** The decoded [auth_token] cookie of a request: the user name and the
    expiration it carries ([None]: no cookie, or one that does not decode). *)
Definition Token : Type := option (string * Z).

Definition authenticate (token : Token) (ext : Ext) (config : Config) : bool :=
  if negb (enableAuth config) then true
  else if String.eqb (username config) "" || String.eqb (password config) "" then false
  else
    match token with
    | None => false
    | Some (tokenUser, expiration) =>
        if expiration <? now ext then false
        else if negb (String.eqb tokenUser (username config)) then false
        else true
    end.

(** *** The bucket *)

Definition bucket_get (ext : Ext) (key : string) : Handler (option R2Object) :=
  emit (R2Get key) ;;
  if r2_get_fails ext then throw (ER2 "get")
  else (w <- get ;; ret (bucket w !! key)).

Definition bucket_put (ext : Ext) (key : string) (o : R2Object) : Handler unit :=
  emit (R2Put key) ;;
  if r2_put_fails ext then throw (ER2 "put")
  else modify (fun w => set_bucket (<[key := o]> (bucket w)) w).

Definition bucket_delete (ext : Ext) (key : string) : Handler unit :=
  emit (R2Delete key) ;;
  if r2_delete_fails ext then throw (ER2 "delete")
  else modify (fun w => set_bucket (delete key (bucket w)) w).

(** *** The storage chat *)

(** Posting a file to the storage chat with [method]; when the platform
    answers ok the message is in the chat, under the identifiers the
    answer carries. *)
Definition tg_upload (ext : Ext) (ok : bool) (method fileName content : string) : Handler bool :=
  emit (TgUpload method fileName) ;;
  if ok then
    modify (fun w =>
      set_chat_store
        (chat_store w ++
           [mkStored (default 0 (tg_result_message_id ext))
                     (default "" (tg_result_file_id ext)) content]) w) ;;
    ret true
  else ret false.

(** [deleteMessage] on the storage chat. *)
Definition tg_delete_message (ext : Ext) (config : Config) (message_id : Z) : Handler bool :=
  emit (TgDeleteMessage (tgStorageChatId config) message_id) ;;
  if tg_delete_ok ext then
    modify (fun w =>
      set_chat_store
        (filter (fun m => negb (Z.eqb (stored_message_id m) message_id)) (chat_store w)) w) ;;
    ret true
  else ret false.

Definition getTelegramFileUrl (ext : Ext) (config : Config) (fileId : string) : Handler string :=
  emit (TgGetFile fileId) ;;
  match tg_file_path ext with
  | None => throw EGetFilePath
  | Some filePath =>
      let fileName := Js.pop (Js.split "/" filePath) in
      let fileExt := Js.pop (Js.split "." fileName) in
      let newFileName := string_of_Z (now ext) +:+ "." +:+ fileExt in
      if negb (String.eqb (domain config) "") then
        ret ("https://" +:+ domain config +:+ "/" +:+ newFileName)
      else
        ret ("https://api.telegram.org/file/bot" +:+ tgBotToken config +:+ "/" +:+ filePath)
  end.

Definition storeFileInTelegram (ext : Ext) (config : Config)
    (content fileName : string) (mimeType : option string) : Handler string :=
  if String.eqb (tgBotToken config) "" || String.eqb (tgStorageChatId config) "" then
    throw ENoStorageConfig
  else
    ok <- tg_upload ext (tg_upload_ok ext) "sendDocument" fileName content ;;
    if ok then getTelegramFileUrl ext config (default "" (tg_result_file_id ext))
    else throw ETelegramStore.

Definition storeFile (ext : Ext) (config : Config)
    (content fileName : string) (mimeType : option string) : Handler string :=
  if has_bucket config then
    try_catch
      (bucket_put ext fileName
         (mkR2 content (Some (Js.or_else mimeType "application/octet-stream"))) ;;
       ret ("https://" +:+ domain config +:+ "/" +:+ fileName))
      (fun _ => storeFileInTelegram ext config content fileName mimeType)
  else storeFileInTelegram ext config content fileName mimeType.

(** [deleteFile]; a [fileId] that is [NULL] is a call the bucket rejects. *)
Definition deleteFile (ext : Ext) (config : Config) (fileId : option string) : Handler bool :=
  if has_bucket config then
    match fileId with
    | Some key => try_catch (bucket_delete ext key ;; ret true) (fun _ => ret false)
    | None => ret false
    end
  else ret true.

(** *** The main menu *)

Definition generateMainMenu (chatId : string) (userSetting : UserSetting.t) : Handler Menu :=
  categoryResult <-
    (if Js.truthyZ (UserSetting.current_category_id userSetting) then
       db_read "categories"
         (Query.find_category_by_id (default 0 (UserSetting.current_category_id userSetting)))
     else ret None) ;;
  stats <- db_read "files" (Query.stats_of_chat chatId) ;;
  ret (mkMenu chatId
         (Js.opt_eqb (UserSetting.storage_type userSetting) "r2")
         (Category.name <$> categoryResult)
         (fst stats) (snd stats)).

Definition sendPanel (ext : Ext) (config : Config) (chatId : string)
    (userSetting : UserSetting.t) : Handler unit :=
  try_catch
    (let cacheKey :=
       "menu:" +:+ chatId +:+ ":" +:+ Js.or_else (UserSetting.storage_type userSetting) "default" in
     w <- get ;;
     sent <-
       match menuCache w !! cacheKey with
       | Some (menuData, timestamp) =>
           if now ext - timestamp <? menuCacheTTL config then
             emit (SendMenu chatId menuData) ;;
             if tg_menu_ok ext then ret true
             else modify (fun w => set_menuCache (delete cacheKey (menuCache w)) w) ;; ret false
           else modify (fun w => set_menuCache (delete cacheKey (menuCache w)) w) ;; ret false
       | None => ret false
       end ;;
     if sent then ret tt
     else
       menuData <- generateMainMenu chatId userSetting ;;
       modify (fun w => set_menuCache (<[cacheKey := (menuData, now ext)]> (menuCache w)) w) ;;
       emit (SendMenu chatId menuData))
    (fun _ => ret tt).

(** ** The admin endpoints *)

Definition json (status : Z) (msg : Msg) : Response := mkResponse 200 (Json status msg).

Definition new_name (suffix originalFileName : string) : string :=
  suffix +:+ "." +:+ Js.pop (Js.split "." originalFileName).

Definition url_of (config : Config) (fileName : string) : string :=
  "https://" +:+ domain config +:+ "/" +:+ fileName.

(** The row a rename is about: the one with this [url], else the one
    whose [fileId] is the last segment of the URL. *)
Definition lookup_for_rename (url : string) : Handler (option File.t) :=
  fileRecord <- db_read "files" (Query.find_file_by_url url) ;;
  match fileRecord with
  | Some r => ret (Some r)
  | None => db_read "files" (Query.find_file_by_fileId (getFileName url))
  end.

(** [handleUpdateSuffixRequest]: the body is [{url, suffix}]. *)
Definition handleUpdateSuffixRequest (ext : Ext) (config : Config)
    (url suffix : option string) : Handler Response :=
  try_catch
    (match url, suffix with
     | Some url, Some suffix =>
         if String.eqb url "" || String.eqb suffix "" then ret (json 0 MEmptyRename)
         else
           let originalFileName := getFileName url in
           found <- lookup_for_rename url ;;
           match found with
           | None => ret (json 0 MNoRecordFor)
           | Some fileRecord =>
               let newFileName := new_name suffix originalFileName in
               let fileUrl := url_of config newFileName in
               existingFile <-
                 db_read "files" (Query.find_other_file_by_fileId newFileName (File.id fileRecord)) ;;
               match existingFile with
               | Some _ => ret (json 0 MNameTaken)
               | None =>
                   existingUrl <-
                     db_read "files" (Query.find_other_file_by_url fileUrl (File.id fileRecord)) ;;
                   match existingUrl with
                   | Some _ => ret (json 0 MUrlTaken)
                   | None =>
                       let set_url_and_name :=
                         db_write "files"
                           (Query.update_file (File.id fileRecord)
                              (fun r => File.with_file_name (Some newFileName)
                                          (File.with_url fileUrl r))) in
                       (if Js.opt_eqb (File.storage_type fileRecord) "telegram" then
                          set_url_and_name
                        else if has_bucket config then
                          try_catch
                            (let fileId := Js.or_else (File.fileId fileRecord) originalFileName in
                             file <- bucket_get ext fileId ;;
                             match file with
                             | Some file =>
                                 storeFile ext config (r2_body file) newFileName (contentType file) ;;
                                 deleteFile ext config (Some fileId) ;;
                                 db_write "files"
                                   (Query.update_file (File.id fileRecord)
                                      (fun r => File.with_file_name (Some newFileName)
                                                  (File.with_url fileUrl
                                                     (File.with_fileId (Some newFileName) r))))
                             | None => set_url_and_name
                             end)
                            (fun _ => set_url_and_name)
                        else set_url_and_name) ;;
                       ret (mkResponse 200 (JsonUrl 1 MRenamed fileUrl))
                   end
               end
           end
     | _, _ => ret (json 0 MEmptyRename)
     end)
    (fun error => ret (json 0 (MFailure error))).

(** The row a delete is about: [id] is a URL when it starts with [http],
    a key otherwise; [fileId] is tried when [id] found nothing. *)
Definition lookup_for_delete (id fileId : option string) : Handler (option File.t) :=
  file <-
    (if Js.truthy id && Js.startsWith (default "" id) "http" then
       db_read "files" (Query.find_file_by_url (default "" id))
     else if Js.truthy id then
       db_read "files"
         (fun d => match Z_of_string (default "" id) with
                   | Some n => Query.find_file_by_id n d
                   | None => None
                   end)
     else ret None) ;;
  match file with
  | Some r => ret (Some r)
  | None =>
      if Js.truthy fileId then
        db_read "files" (Query.find_file_by_fileId (default "" fileId))
      else ret None
  end.

(** [handleDeleteRequest]: the body is [{id, fileId}]. *)
Definition handleDeleteRequest (ext : Ext) (config : Config) (token : Token)
    (id fileId : option string) : Handler Response :=
  if enableAuth config && negb (authenticate token ext config) then
    ret (mkResponse 302 (Redirect "/"))
  else
    try_catch
      (if negb (Js.truthy id) && negb (Js.truthy fileId) then ret (json 0 MMissingId)
       else
         file <- lookup_for_delete id fileId ;;
         match file with
         | None => ret (json 0 MNoFile)
         | Some file =>
             (if Js.opt_eqb (File.storage_type file) "r2" && has_bucket config then
                deleteFile ext config (File.fileId file) ;; ret tt
              else ret tt) ;;
             db_write "files" (Query.delete_file (File.id file)) ;;
             ret (json 1 MDeleted)
         end)
      (fun error => ret (json 0 (MFailure error))).

(** One turn of the loop of [handleDeleteMultipleRequest]; it answers
    whether the URL goes to [success] or, with its reason, to [failed]. *)
Definition delete_one (ext : Ext) (config : Config) (url : string) : Handler (option Msg) :=
  try_catch
    (let fileName := Js.pop (Js.split "/" url) in
     byUrl <- db_read "files" (Query.find_file_by_url url) ;;
     file <-
       match byUrl with
       | Some r => ret (Some r)
       | None =>
           if negb (String.eqb fileName "") then
             db_read "files" (Query.find_file_by_fileId fileName)
           else ret None
       end ;;
     match file with
     | Some file =>
         (if Js.opt_eqb (File.storage_type file) "telegram" && Js.truthyZ (File.message_id file) then
            tg_delete_message ext config (default 0 (File.message_id file)) ;; ret tt
          else if Js.opt_eqb (File.storage_type file) "r2" && Js.truthy (File.fileId file)
                  && has_bucket config then
            try_catch (bucket_delete ext (default "" (File.fileId file))) (fun _ => ret tt)
          else ret tt) ;;
         db_write "files" (Query.delete_file (File.id file)) ;;
         ret None
     | None => ret (Some MNoRecord)
     end)
    (fun error => ret (Some (MFailure error))).

Fixpoint delete_each (ext : Ext) (config : Config) (urls : list string)
    (success : list string) (failed : list (string * Msg))
    : Handler (list string * list (string * Msg)) :=
  match urls with
  | [] => ret (success, failed)
  | url :: rest =>
      outcome <- delete_one ext config url ;;
      match outcome with
      | None => delete_each ext config rest (success ++ [url]) failed
      | Some reason => delete_each ext config rest success (failed ++ [(url, reason)])
      end
  end.

(** [handleDeleteMultipleRequest]: the body is [{urls}]; [None] stands for
    a value that is not an array. *)
Definition handleDeleteMultipleRequest (ext : Ext) (config : Config) (token : Token)
    (urls : option (list string)) : Handler Response :=
  if enableAuth config && negb (authenticate token ext config) then
    ret (mkResponse 302 (Redirect "/"))
  else
    try_catch
      (match urls with
       | None | Some [] => ret (mkResponse 400 (Json 0 MInvalidUrls))
       | Some urls =>
           results <- delete_each ext config urls [] [] ;;
           ret (mkResponse 200 (JsonBulk 1 MBulkDone (fst results) (snd results)))
       end)
      (fun error => ret (mkResponse 500 (Json 0 (MFailure error)))).

(** [config.database.batch(statements)]: the statements are sent together
    and run in order as one transaction; when one of them fails the batch
    is rejected and none of them has changed a row. *)
Fixpoint run_all (statements : list (Db -> result unit * Db)) (d : Db) : result unit * Db :=
  match statements with
  | [] => (Ok tt, d)
  | statement :: rest =>
      match statement d with
      | (Ok _, d') => run_all rest d'
      | (Throw e, d') => (Throw e, d')
      end
  end.

Definition batch (table : string) (statements : list (Db -> result unit * Db))
    : Handler unit :=
  for_each statements (fun _ => emit (DbWrite table)) ;;
  fun w =>
    match run_all statements (db w) with
    | (Ok _, d) => (Ok tt, set_db d w)
    | (Throw e, _) => (Throw e, w)
    end.

(** [handleUpdateRemarkRequest]: the body is [{urls, remark}]. *)
Definition handleUpdateRemarkRequest (ext : Ext) (config : Config) (token : Token)
    (urls : option (list string)) (remark : option string) : Handler Response :=
  if enableAuth config && negb (authenticate token ext config) then
    ret (mkResponse 401 (Json 0 MUnauthorized))
  else
    try_catch
      (match urls with
       | None | Some [] => ret (mkResponse 400 (Json 0 MInvalidUrls))
       | Some urls =>
           let statements :=
             map (fun url d => (Ok tt, Query.update_files_by_url url (File.with_remark remark) d))
                 urls in
           batch "files" statements ;;
           ret (json 1 MRemarkUpdated)
       end)
      (fun error => ret (mkResponse 500 (Json 0 (MFailure error)))).

(** [handleChangeCategoryRequest]: the body is [{urls, categoryId}];
    [categoryId] is [None] when undefined, [Some None] when falsy, and
    [Some (Some n)] when [parseInt] reads [n] from it. *)
Definition handleChangeCategoryRequest (ext : Ext) (config : Config) (token : Token)
    (urls : option (list string)) (categoryId : option (option Z)) : Handler Response :=
  if enableAuth config && negb (authenticate token ext config) then
    ret (mkResponse 401 (Json 0 MUnauthorized))
  else
    try_catch
      (match urls, categoryId with
       | Some (url :: rest), Some newCategoryId =>
           let statements :=
             map (fun url => Query.set_category_by_url url newCategoryId) (url :: rest) in
           batch "files" statements ;;
           ret (json 1 MCategoryChanged)
       | _, _ => ret (mkResponse 400 (Json 0 MInvalidUrls))
       end)
      (fun error => ret (mkResponse 500 (Json 0 (MFailure error)))).

(** [handleDeleteCategoryRequest]: the body is [{id}]; [None] stands for
    an [id] that is missing or not a number. *)
Definition handleDeleteCategoryRequest (ext : Ext) (config : Config) (token : Token)
    (id : option Z) : Handler Response :=
  if enableAuth config && negb (authenticate token ext config) then
    ret (mkResponse 401 (Json 0 MUnauthorized))
  else
    try_catch
      (match id with
       | None => ret (mkResponse 400 (Json 0 MInvalidCategoryId))
       | Some id =>
           if Z.eqb id 0 then ret (mkResponse 400 (Json 0 MInvalidCategoryId))
           else
             isDefaultCategory <-
               db_read "categories" (Query.find_category_by_id_and_name id default_category_name) ;;
             match isDefaultCategory with
             | Some _ => ret (mkResponse 403 (Json 0 MDefaultNotDeletable))
             | None =>
                 category <- db_read "categories" (Query.find_category_by_id id) ;;
                 match category with
                 | None => ret (mkResponse 404 (Json 0 MNoCategory))
                 | Some category =>
                     defaultCategory <-
                       db_read "categories" (Query.find_category default_category_name) ;;
                     defaultCategoryId <-
                       match defaultCategory with
                       | None =>
                           last_row_id <-
                             db_write_result "categories"
                               (Query.insert_category default_category_name (now ext)) ;;
                           ret (if Z.eqb last_row_id 0 then None else Some last_row_id)
                       | Some c => ret (Some (Category.id c))
                       end ;;
                     (if Js.truthyZ defaultCategoryId then
                        db_write_result "files" (Query.repoint_files defaultCategoryId id) ;;
                        db_write_result "user_settings"
                          (Query.repoint_user_settings defaultCategoryId id)
                      else
                        db_write_result "files" (Query.repoint_files None id) ;;
                        db_write_result "user_settings" (Query.repoint_user_settings None id)) ;;
                     db_write_result "categories" (Query.delete_category id) ;;
                     ret (json 1 (MCategoryDeleted (Category.name category)
                                    (Js.truthyZ defaultCategoryId)))
                 end
             end
       end)
      (fun error => ret (mkResponse 500 (Json 0 (MCategoryDeleteFailed error)))).

(** ** Serving a file: [handleFileRequest]

    [path] is the decoded path of the request without its leading slash. *)

Definition cacheAndReturnResponse (ext : Ext) (cacheKey : string) (response : Response)
    : Handler Response :=
  modify (fun w =>
    set_fileCache (<[cacheKey := mkCacheEntry response (now ext)]> (fileCache w)) w) ;;
  ret response.

(** [getFile] and the download that follows it, for a file of the storage
    chat. *)
Definition tg_fetch (fileId : string) : Handler (option string) :=
  emit (TgGetFile fileId) ;;
  w <- get ;;
  match find (fun m => String.eqb (stored_file_id m) fileId) (chat_store w) with
  | Some m => emit (TgDownload fileId) ;; ret (Some (stored_content m))
  | None => ret None
  end.

(** The row a path is served from: by [url], else by [fileId], else by
    [file_name]. *)
Definition lookup_for_serving (config : Config) (path : string) : Handler (option File.t) :=
  let urlPattern := url_of config path in
  file <- db_read "files" (Query.find_file_by_url urlPattern) ;;
  file <-
    match file with
    | Some r => ret (Some r)
    | None => db_read "files" (Query.find_file_by_fileId path)
    end ;;
  match file with
  | Some r => ret (Some r)
  | None =>
      let fileName := Js.pop (Js.split "/" path) in
      db_read "files" (Query.find_file_by_file_name fileName)
  end.

Definition handleFileRequest (ext : Ext) (config : Config) (path : string) : Handler Response :=
  try_catch
    (if String.eqb path "" then ret (mkResponse 404 (Text "Not Found"))
     else
       let cacheKey := "file:" +:+ path in
       w <- get ;;
       hit <-
         match fileCache w !! cacheKey with
         | Some cachedData =>
             if now ext - cached_at cachedData <? fileCacheTTL config then
               ret (Some (cached_response cachedData))
             else
               modify (fun w => set_fileCache (delete cacheKey (fileCache w)) w) ;;
               ret None
         | None => ret None
         end ;;
       match hit with
       | Some response => ret response
       | None =>
           let ext_of_path := Js.pop (Js.split "." path) in
           direct <-
             (if has_bucket config then
                try_catch
                  (object <- bucket_get ext path ;;
                   match object with
                   | Some object =>
                       let contentType :=
                         Js.or_else (contentType object) (getContentType ext_of_path) in
                       r <- cacheAndReturnResponse ext cacheKey
                              (mkResponse 200 (Stream (r2_body object) contentType)) ;;
                       ret (Some r)
                   | None => ret None
                   end)
                  (fun _ => ret None)
              else ret None) ;;
           match direct with
           | Some response => ret response
           | None =>
               let urlPattern := url_of config path in
               file <- lookup_for_serving config path ;;
               match file with
               | None => ret (mkResponse 404 (Text "File not found"))
               | Some file =>
                   if Js.opt_eqb (File.storage_type file) "telegram" then
                     try_catch
                       (if negb (Js.truthy (File.fileId file)) then
                          ret (mkResponse 500 (Text "Missing Telegram file ID"))
                        else
                          content <- tg_fetch (default "" (File.fileId file)) ;;
                          match content with
                          | None => ret (mkResponse 500 (Text "Failed to get file from Telegram"))
                          | Some content =>
                              let contentType :=
                                Js.or_else (File.mime_type file) (getContentType ext_of_path) in
                              cacheAndReturnResponse ext cacheKey
                                (mkResponse 200 (Stream content contentType))
                          end)
                       (fun _ => ret (mkResponse 500 (Text "Error processing Telegram file")))
                   else
                     stored <-
                       (if Js.opt_eqb (File.storage_type file) "r2" && has_bucket config then
                          try_catch
                            (object <-
                               match File.fileId file with
                               | Some key => bucket_get ext key
                               | None => throw ETypeError
                               end ;;
                             match object with
                             | Some object =>
                                 let contentType :=
                                   Js.or_else (contentType object)
                                     (Js.or_else (File.mime_type file) (getContentType ext_of_path)) in
                                 r <- cacheAndReturnResponse ext cacheKey
                                        (mkResponse 200 (Stream (r2_body object) contentType)) ;;
                                 ret (Some r)
                             | None => ret None
                             end)
                            (fun _ => ret None)
                        else ret None) ;;
                     match stored with
                     | Some response => ret response
                     | None =>
                         if negb (String.eqb (File.url file) "")
                            && negb (String.eqb (File.url file) urlPattern) then
                           ret (mkResponse 302 (Redirect (File.url file)))
                         else ret (mkResponse 404 (Text "File not available"))
                     end
               end
           end
       end)
    (fun _ => ret (mkResponse 500 (Text "Internal Server Error"))).

(** ** Uploads *)

(** The chat-platform call an upload of MIME type [mainType/subType] uses;
    [no_photo] lists the image sub-types sent as documents. *)
Definition upload_method (no_photo : list string) (mainType subType : string) : string :=
  if String.eqb mainType "image" && negb (existsb (String.eqb subType) no_photo) then "sendPhoto"
  else if String.eqb mainType "video" then "sendVideo"
  else if String.eqb mainType "audio" then "sendAudio"
  else "sendDocument".

(** Sending [content] to the storage chat with [method], with one retry as
    a document; the answer is [(fileId, messageId)] as read from the
    result. [checked] is the extra test the bot does after its retry. *)
Definition upload_to_chat (ext : Ext) (config : Config) (checked : bool)
    (method fileName content : string) : Handler (option string * option Z) :=
  ok <- tg_upload ext (tg_upload_ok ext) method fileName content ;;
  if ok then ret (tg_result_file_id ext, tg_result_message_id ext)
  else if negb (String.eqb method "sendDocument") then
    retried <- tg_upload ext (tg_retry_ok ext) "sendDocument" fileName content ;;
    if retried then
      if checked && (negb (Js.truthy (tg_result_file_id ext))
                     || negb (Js.truthyZ (tg_result_message_id ext)))
      then throw ERetryNoId
      else ret (tg_result_file_id ext, tg_result_message_id ext)
    else throw ETelegramUpload
  else throw ETelegramParam.

Record UploadedFile := mkUploadedFile {
  upload_name : string;
  upload_size : Z;
  upload_type : option string;
  upload_content : string
}.

(** The form of a [POST] to [/upload]; [None] as request stands for a
    [GET]. *)
Record UploadForm := mkUploadForm {
  form_file : option UploadedFile;
  form_category : option Z;
  form_storage_type : option string
}.

Definition upload_status_code (error : Err) : Z :=
  match error with
  | ETooLarge _ => 400
  | ETelegramUpload | ETelegramParam => 502
  | _ => 500
  end.

(** [config.tgChatId[0]] bound to a statement: the store rejects
    [undefined]. *)
Definition first_chat (config : Config) : Handler string :=
  match tgChatId config with
  | chatId :: _ => ret chatId
  | [] => throw ETypeError
  end.

Definition handleUploadRequest (ext : Ext) (config : Config) (token : Token)
    (request : option UploadForm) : Handler Response :=
  if enableAuth config && negb (authenticate token ext config) then
    ret (mkResponse 302 (Redirect "/"))
  else
    match request with
    | None =>
        db_read "categories" categories ;;
        chatId <- first_chat config ;;
        userSetting <- db_read "user_settings" (Query.find_user_setting chatId) ;;
        match userSetting with
        | Some _ => ret (mkResponse 200 (Text "upload page"))
        | None =>
            defaultCategory <- db_read "categories" (Query.find_category default_category_name) ;;
            match defaultCategory with
            | None => throw ETypeError
            | Some c =>
                db_write_result "user_settings"
                  (Query.insert_user_setting chatId "telegram" (Some (Category.id c))) ;;
                ret (mkResponse 200 (Text "upload page"))
            end
        end
    | Some formData =>
        try_catch
          (match form_file formData with
           | None => throw ENoFile
           | Some file =>
               let categoryId := form_category formData in
               let storageType := form_storage_type formData in
               if maxSizeMB config * 1024 * 1024 <? upload_size file
               then throw (ETooLarge (maxSizeMB config))
               else
                 found <- db_read "categories" (Query.find_category default_category_name) ;;
                 defaultCategory <-
                   match found with
                   | Some c => ret (Some (Some (Category.id c)))
                   | None =>
                       try_catch
                         (newDefaultId <-
                            db_write_result "categories"
                              (Query.insert_category default_category_name (now ext)) ;;
                          ret (if Z.eqb newDefaultId 0 then None else Some (Some newDefaultId)))
                         (fun _ => ret (Some categoryId))
                   end ;;
                 let finalCategoryId :=
                   match categoryId with
                   | Some c => Some c
                   | None => match defaultCategory with Some i => i | None => None end
                   end in
                 chatId <- first_chat config ;;
                 db_write_result "user_settings"
                   (Query.point_user_setting chatId finalCategoryId
                      (UserSetting.with_storage_type storageType)) ;;
                 let ext_ := Js.toLowerCase (Js.pop (Js.split "." (upload_name file))) in
                 let mimeType := getContentType ext_ in
                 let mainType := nth 0 (Js.split "/" mimeType) "" in
                 let subType := nth 1 (Js.split "/" mimeType) "" in
                 stored <-
                   (if Js.opt_eqb storageType "r2" then
                      let key := string_of_Z (now ext) +:+ "_" +:+ upload_name file in
                      (if has_bucket config then
                         bucket_put ext key (mkR2 (upload_content file) (Some mimeType))
                       else throw ETypeError) ;;
                      ret (url_of config key, Some key, Some (-1))
                    else
                      let method := upload_method ["svg+xml"; "x-icon"; "gif"] mainType subType in
                      ids <- upload_to_chat ext config false method (upload_name file)
                               (upload_content file) ;;
                      if negb (Js.truthy (fst ids)) then throw ENoFileId
                      else if negb (Js.truthyZ (snd ids)) then throw ENoMessageId
                      else
                        ret (url_of config (string_of_Z (now ext) +:+ "_" +:+ upload_name file),
                             fst ids, snd ids)) ;;
                 let '(finalUrl, dbFileId, dbMessageId) := stored in
                 db_write_result "files"
                   (Query.insert_file (fun id =>
                      File.mk id finalUrl dbFileId dbMessageId (now ext) (Some (upload_name file))
                        (Some (upload_size file))
                        (Some (Js.or_else (upload_type file) mimeType))
                        storageType finalCategoryId (Some chatId) None)) ;;
                 ret (mkResponse 200 (JsonUrl 1 MUploadOk finalUrl))
           end)
          (fun error => ret (mkResponse (upload_status_code error) (Json 0 (MUploadFailed error))))
    end.

(** A file object of an incoming chat message. *)
Module TgFile.
Record t := mk {
  file_id : string;
  file_name : option string;
  mime_type : option string;
  video_note : bool;
  voice : bool;
  audio : option (option string);   (* [file.audio], with its [title] *)
  video : bool
}.
End TgFile.

(** The default category an upload falls back to, created when absent. *)
Definition default_category_for_upload (ext : Ext) : Handler (option Z) :=
  defaultCategory <- db_read "categories" (Query.find_category default_category_name) ;;
  match defaultCategory with
  | Some c => ret (Some (Category.id c))
  | None =>
      try_catch
        (newDefaultId <-
           db_write_result "categories" (Query.insert_category default_category_name (now ext)) ;;
         ret (if Z.eqb newDefaultId 0 then None else Some newDefaultId))
        (fun _ => ret None)
  end.

Definition remove_processing_note (ext : Ext) (chatId : string) : Handler unit :=
  match tg_processing_message_id ext with
  | Some processingMessageId =>
      if Z.eqb processingMessageId 0 then ret tt
      else emit (TgDeleteMessage chatId processingMessageId)
  | None => ret tt
  end.

(** [handleMediaUpload].  The look-up of the default category is started
    before the download and joined after the size test; it is run here
    where it is started. *)
Definition handleMediaUpload (ext : Ext) (config : Config) (chatId : string)
    (file : TgFile.t) (userSetting : UserSetting.t) : Handler unit :=
  sendMessage chatId Processing ;;
  try_catch
    (emit (TgGetFile (TgFile.file_id file)) ;;
     pending <-
       (if Js.truthyZ (UserSetting.current_category_id userSetting) then ret None
        else c <- default_category_for_upload ext ;; ret (Some c)) ;;
     match tg_file_path ext with
     | None => throw EGetFilePath
     | Some file_path =>
         emit (TgDownload file_path) ;;
         match tg_download ext with
         | None => throw EDownload
         | Some (contentLength, content) =>
             if match contentLength with
                | Some n => maxSizeMB config * 1024 * 1024 <? n
                | None => false
                end
             then
               remove_processing_note ext chatId ;;
               sendMessage chatId (TooLarge (maxSizeMB config))
             else
               emit (TgEditMessage chatId) ;;
               let categoryId :=
                 match pending with
                 | None => UserSetting.current_category_id userSetting
                 | Some c => c
                 end in
               let mimeType0 := Js.or_else (TgFile.mime_type file) "application/octet-stream" in
               let filePathExt := Js.toLowerCase (Js.pop (Js.split "." file_path)) in
               let named := Js.truthy (TgFile.file_name file) in
               let ext_ :=
                 if named then
                   Js.toLowerCase (Js.pop (Js.split "." (default "" (TgFile.file_name file))))
                 else if negb (String.eqb filePathExt "")
                         && negb (String.eqb filePathExt (Js.toLowerCase file_path))
                 then filePathExt
                 else getExtensionFromMime (Some mimeType0) in
               let stamp := string_of_Z (now ext) in
               let fileName :=
                 if named then default "" (TgFile.file_name file)
                 else if TgFile.video_note file then "video_note_" +:+ stamp +:+ "." +:+ ext_
                 else if TgFile.voice file then "voice_message_" +:+ stamp +:+ "." +:+ ext_
                 else match TgFile.audio file with
                      | Some title => Js.or_else title ("audio_" +:+ stamp) +:+ "." +:+ ext_
                      | None =>
                          if TgFile.video file then "video_" +:+ stamp +:+ "." +:+ ext_
                          else "file_" +:+ stamp +:+ "." +:+ ext_
                      end in
               let mimeType :=
                 if String.eqb mimeType0 "application/octet-stream" then getContentType ext_
                 else mimeType0 in
               let mainType := nth 0 (Js.split "/" mimeType) "" in
               let subType := nth 1 (Js.split "/" mimeType) "" in
               let storageType :=
                 Js.or_else (UserSetting.storage_type userSetting) "r2" in
               let key := stamp +:+ "_" +:+ sanitize fileName in
               stored <-
                 (if String.eqb storageType "r2" && has_bucket config then
                    bucket_put ext key (mkR2 content (Some mimeType)) ;;
                    ret (Some key, Some (-1))
                  else
                    let method := upload_method ["svg+xml"; "x-icon"] mainType subType in
                    ids <- upload_to_chat ext config true method fileName content ;;
                    if negb (Js.truthy (fst ids)) then throw ENoFileId
                    else if negb (Js.truthyZ (snd ids)) then throw ENoMessageId
                    else ret ids) ;;
               let finalUrl := url_of config key in
               emit (TgEditMessage chatId) ;;
               db_write_result "files"
                 (Query.insert_file (fun id =>
                    File.mk id finalUrl (fst stored) (snd stored) (now ext) (Some fileName)
                      contentLength (Some mimeType) (Some storageType) categoryId
                      (Some chatId) None)) ;;
               remove_processing_note ext chatId ;;
               emit (TgSendQr chatId finalUrl)
         end
     end)
    (fun error =>
       remove_processing_note ext chatId ;;
       sendMessage chatId (UploadFailed error)).

(** ** The bot: [handleTelegramWebhook] *)

Module Message.
Record t := mk {
  chat_id : string;                 (* chat.id.toString() *)
  chat_type : string;
  text : option string;
  photo : option (list TgFile.t);
  document : option TgFile.t;
  video : option TgFile.t;
  audio : option TgFile.t;
  voice : option TgFile.t;
  video_note : option TgFile.t;
  other_file : option TgFile.t      (* the first other field that is an
                                       object with a [file_id] *)
}.
End Message.

Inductive Update :=
| UMessage (message : Message.t)
| UCallback (from_id : string) (data : string)
| UOther.

Definition OK : Response := mkResponse 200 (Text "OK").

Definition clear_waiting (chatId : string) : Handler unit :=
  db_write "user_settings"
    (Query.update_user_setting chatId
       (fun u => UserSetting.with_editing_file_id None (UserSetting.with_waiting_for None u))).

Definition forget (userSetting : UserSetting.t) : UserSetting.t :=
  UserSetting.with_editing_file_id None (UserSetting.with_waiting_for None userSetting).

(** The reply to the prompt for a category name
    ([waiting_for === 'new_category']). *)
Definition on_new_category (ext : Ext) (config : Config) (chatId text : string)
    (userSetting : UserSetting.t) : Handler Response :=
  let categoryName := Js.trim text in
  try_catch
    (existingCategory <- db_read "categories" (Query.find_category categoryName) ;;
     match existingCategory with
     | Some _ => sendMessage chatId (CategoryExists categoryName)
     | None =>
         db_write_result "categories" (Query.insert_category categoryName (now ext)) ;;
         newCategory <- db_read "categories" (Query.find_category categoryName) ;;
         match newCategory with
         | None => throw ETypeError
         | Some newCategory =>
             db_write_result "user_settings"
               (Query.point_user_setting chatId (Some (Category.id newCategory))
                  (UserSetting.with_waiting_for None)) ;;
             sendMessage chatId (CategoryCreated categoryName)
         end
     end)
    (fun error => sendMessage chatId (CategoryFailed error)) ;;
  db_write "user_settings"
    (Query.update_user_setting chatId (UserSetting.with_waiting_for None)) ;;
  let userSetting := UserSetting.with_waiting_for None userSetting in
  userSetting <-
    (if negb (String.eqb categoryName "") then
       newCategory <- db_read "categories" (Query.find_category categoryName) ;;
       match newCategory with
       | Some newCategory =>
           ret (UserSetting.with_current_category_id (Some (Category.id newCategory)) userSetting)
       | None => ret userSetting
       end
     else ret userSetting) ;;
  sendPanel ext config chatId userSetting ;;
  ret OK.

(** The reply that carries the new name of a file.  The source has this
    block twice: for [waiting_for === 'new_suffix'], where the statements
    set [url] (and [fileId]), and for [waiting_for === 'edit_suffix_input_new'],
    where they also set [file_name]; [sets_file_name] tells them apart. *)
Definition rename_by_reply (sets_file_name : bool) (ext : Ext) (config : Config)
    (chatId text : string) (userSetting : UserSetting.t) : Handler Response :=
  let newSuffix := Js.trim text in
  let fileId := default 0 (UserSetting.editing_file_id userSetting) in
  try_catch
    (file <- db_read "files" (Query.find_file_by_id fileId) ;;
     match file with
     | None => sendMessage chatId FileGone
     | Some file =>
         let originalFileName := getFileName (File.url file) in
         let newFileName := new_name newSuffix originalFileName in
         let fileUrl := url_of config newFileName in
         let named (r : File.t) : File.t :=
           if sets_file_name then File.with_file_name (Some newFileName) r else r in
         let set_url :=
           db_write "files"
             (Query.update_file (File.id file) (fun r => named (File.with_url fileUrl r))) in
         (if Js.opt_eqb (File.storage_type file) "telegram" then set_url
          else if Js.opt_eqb (File.storage_type file) "r2" && has_bucket config then
            try_catch
              (let fileId := Js.or_else (File.fileId file) originalFileName in
               r2File <- bucket_get ext fileId ;;
               match r2File with
               | Some r2File =>
                   storeFile ext config (r2_body r2File) newFileName (contentType r2File) ;;
                   deleteFile ext config (Some fileId) ;;
                   db_write "files"
                     (Query.update_file (File.id file)
                        (fun r => named (File.with_url fileUrl
                                           (File.with_fileId (Some newFileName) r))))
               | None => set_url
               end)
              (fun _ => set_url)
          else set_url) ;;
         sendMessage chatId (Renamed fileUrl)
     end)
    (fun error => sendMessage chatId (RenameError error)) ;;
  clear_waiting chatId ;;
  sendPanel ext config chatId (forget userSetting) ;;
  ret OK.

(** Resolving what the user typed to one of the chat's files, as the
    delete and the rename prompts do: a text that starts with [http://] or
    [https://] is matched against [url]; any other text must contain a dot
    and is matched against [file_name] and the end of [url], the most
    recently created match winning.  [None] is the answer for a text
    without a dot. *)
Definition resolve_input (chatId userInput : string) : Handler (option (option File.t)) :=
  if Js.startsWith userInput "http://" || Js.startsWith userInput "https://" then
    r <- db_read "files" (Query.find_file_by_url_of_chat userInput chatId) ;;
    ret (Some r)
  else if negb (Js.includes userInput ".") then ret None
  else
    r <- db_read "files" (Query.find_newest_by_name_of_chat userInput chatId) ;;
    ret (Some r).

(** The reply to the prompt for a file to delete
    ([waiting_for === 'delete_file_input']). *)
Definition on_delete_file_input (ext : Ext) (config : Config) (chatId text : string)
    (userSetting : UserSetting.t) : Handler Response :=
  let cleared := UserSetting.with_waiting_for None userSetting in
  try_catch
    (db_write "user_settings"
       (Query.update_user_setting chatId (UserSetting.with_waiting_for None)) ;;
     let userInput := Js.trim text in
     resolved <- resolve_input chatId userInput ;;
     match resolved with
     | None =>
         sendMessage chatId NeedFullName ;;
         sendPanel ext config chatId cleared ;;
         ret OK
     | Some None =>
         sendMessage chatId NoMatch ;;
         sendPanel ext config chatId cleared ;;
         ret OK
     | Some (Some fileToDelete) =>
         let fileName :=
           Js.or_else (File.file_name fileToDelete) (getFileName (File.url fileToDelete)) in
         (if Js.opt_eqb (File.storage_type fileToDelete) "r2" && has_bucket config
             && Js.truthy (File.fileId fileToDelete) then
            try_catch (bucket_delete ext (default "" (File.fileId fileToDelete))) (fun _ => ret tt)
          else if Js.opt_eqb (File.storage_type fileToDelete) "telegram"
                  && Js.truthyZ (File.message_id fileToDelete)
                  && negb (Js.optZ_eqb (File.message_id fileToDelete) (-1)) then
            tg_delete_message ext config (default 0 (File.message_id fileToDelete)) ;; ret tt
          else ret tt) ;;
         db_write "files" (Query.delete_file (File.id fileToDelete)) ;;
         let cacheKey := "file:" +:+ fileName in
         modify (fun w => set_fileCache (delete cacheKey (fileCache w)) w) ;;
         sendMessage chatId (Deleted fileName) ;;
         sendPanel ext config chatId cleared ;;
         ret OK
     end)
    (fun error =>
       sendMessage chatId (DeleteError error) ;;
       sendPanel ext config chatId cleared ;;
       ret OK).

(** The reply to the prompt for a file to rename
    ([waiting_for === 'edit_suffix_input_file']). *)
Definition on_edit_suffix_input_file (ext : Ext) (config : Config) (chatId text : string)
    (userSetting : UserSetting.t) : Handler Response :=
  let start_over :=
    clear_waiting chatId ;;
    sendPanel ext config chatId (forget userSetting) ;;
    ret OK in
  try_catch
    (let userInput := Js.trim text in
     resolved <- resolve_input chatId userInput ;;
     match resolved with
     | None => sendMessage chatId NeedFullName ;; start_over
     | Some None => sendMessage chatId NoMatch ;; start_over
     | Some (Some fileToEdit) =>
         let fileName :=
           Js.or_else (File.file_name fileToEdit) (getFileName (File.url fileToEdit)) in
         db_write "user_settings"
           (Query.update_user_setting chatId
              (fun u => UserSetting.with_editing_file_id (Some (File.id fileToEdit))
                          (UserSetting.with_waiting_for (Some "edit_suffix_input_new") u))) ;;
         sendMessage chatId (FoundFile fileName) ;;
         ret OK
     end)
    (fun error => sendMessage chatId (ProcessError error) ;; start_over).

(** The file of a media message, [None] when there is none to take. *)
Definition media_of (m : Message.t) : option (option TgFile.t) :=
  match Message.document m, Message.video m, Message.audio m,
        Message.voice m, Message.video_note m, Message.photo m with
  | Some f, _, _, _, _, _ => Some (Some f)
  | None, Some f, _, _, _, _ => Some (Some f)
  | None, None, Some f, _, _, _ => Some (Some f)
  | None, None, None, Some f, _, _ => Some (Some f)
  | None, None, None, None, Some f, _ => Some (Some f)
  | None, None, None, None, None, Some photos => Some (last photos)
  | None, None, None, None, None, None => None
  end.

Section Webhook.

(** [handleCallbackQuery], the handler of the menu buttons, is taken as it
    is: nothing stated below depends on what a button does. *)
Variable handleCallbackQuery :
  Ext -> Config -> string -> string -> UserSetting.t -> Handler unit.

(** A message of an allowed chat, once its settings are read. *)
Definition on_message (ext : Ext) (config : Config) (chatId : string)
    (message : Message.t) (userSetting : UserSetting.t) : Handler Response :=
  let waiting_for := UserSetting.waiting_for userSetting in
  let has_text := Js.truthy (Message.text message) in
  let text := default "" (Message.text message) in
  if Js.opt_eqb waiting_for "new_category" && has_text then
    on_new_category ext config chatId text userSetting
  else if Js.opt_eqb waiting_for "new_suffix" && has_text
          && bool_decide (is_Some (UserSetting.editing_file_id userSetting)) then
    rename_by_reply false ext config chatId text userSetting
  else if Js.opt_eqb waiting_for "delete_file_input" && has_text then
    on_delete_file_input ext config chatId text userSetting
  else if Js.opt_eqb (Message.text message) "/start" then
    sendPanel ext config chatId userSetting ;;
    ret OK
  else
    match media_of message with
    | Some (Some file) =>
        handleMediaUpload ext config chatId file userSetting ;;
        ret OK
    | Some None =>
        sendMessage chatId Unrecognized ;;
        ret OK
    | None =>
        match Message.other_file message with
        | Some file =>
            handleMediaUpload ext config chatId file userSetting ;;
            ret OK
        | None =>
            if Js.opt_eqb waiting_for "edit_suffix_input_file" && has_text then
              on_edit_suffix_input_file ext config chatId text userSetting
            else if Js.opt_eqb waiting_for "edit_suffix_input_new" && has_text
                    && bool_decide (is_Some (UserSetting.editing_file_id userSetting)) then
              rename_by_reply true ext config chatId text userSetting
            else if has_text && negb (String.eqb text "/start") then
              sendMessage chatId SendMediaHint ;;
              ret OK
            else ret OK
        end
    end.

(** The settings of a chat, created at its first contact. *)
Definition settings_of (ext : Ext) (chatId : string) : Handler UserSetting.t :=
  userSetting <- db_read "user_settings" (Query.find_user_setting chatId) ;;
  match userSetting with
  | Some userSetting => ret userSetting
  | None =>
      defaultCategory <- db_read "categories" (Query.find_category default_category_name) ;;
      defaultCategoryId <-
        match defaultCategory with
        | None =>
            try_catch
              (last_row_id <-
                 db_write_result "categories"
                   (Query.insert_category default_category_name (now ext)) ;;
               ret (Some last_row_id))
              (fun _ => ret None)
        | Some c => ret (Some (Category.id c))
        end ;;
      db_write_result "user_settings" (Query.insert_user_setting chatId "r2" defaultCategoryId) ;;
      ret (UserSetting.mk chatId (Some "r2") defaultCategoryId None None)
  end.

Definition handleTelegramWebhook (ext : Ext) (config : Config) (update : Update)
    : Handler Response :=
  try_catch
    (let sender :=
       match update with
       | UMessage message =>
           if String.eqb (Message.chat_type message) "group"
              || String.eqb (Message.chat_type message) "supergroup"
           then None
           else Some (Message.chat_id message)
       | UCallback from_id _ => Some from_id
       | UOther => None
       end in
     match sender with
     | None => ret OK
     | Some chatId =>
         if negb (bool_decide (tgChatId config = []))
            && negb (existsb (String.eqb chatId) (tgChatId config)) then
           (if negb (String.eqb (tgBotToken config) "") then sendMessage chatId Unauthorized
            else ret tt) ;;
           ret OK
         else
           userSetting <- settings_of ext chatId ;;
           match update with
           | UMessage message => on_message ext config chatId message userSetting
           | UCallback _ data =>
               handleCallbackQuery ext config chatId data userSetting ;;
               ret OK
           | UOther => ret OK
           end
     end)
    (fun _ => ret (mkResponse 500 (Text "Error processing webhook"))).

End Webhook.

(** ** The entry point: [fetch]

    Every request builds its own [config] from the environment, with new,
    empty maps for [fileCache], [menuCache] and the other memos: nothing a
    request has memoized is there for the next one.  The store a request
    finds has its structure, which [initDatabase] works on, and the world
    the handlers act on. *)

Record Env := mkEnv {
  DATABASE : bool;                      (* env.DATABASE is bound *)
  DOMAIN : option string;
  USERNAME : option string;
  PASSWORD : option string;
  ENABLE_AUTH : option string;
  TG_BOT_TOKEN : option string;
  TG_CHAT_ID : option string;
  TG_STORAGE_CHAT_ID : option string;
  MAX_SIZE_MB : option Z;               (* Number(env.MAX_SIZE_MB), when a number *)
  BUCKET : bool                         (* env.BUCKET is bound *)
}.

(** The body of a request as the handlers read it: a form or a JSON
    object, each field [None] when it is absent. *)
Record Payload := mkPayload {
  formData : UploadForm;
  p_id : option string;
  p_fileId : option string;
  p_urls : option (list string);
  p_remark : option string;
  p_categoryId : option (option Z);
  p_category : option Z;                (* [id] of /delete-category *)
  p_url : option string;
  p_suffix : option string;
  p_update : Update
}.

Record Request := mkRequest {
  method : string;
  host : option string;                 (* the Host header *)
  origin : string;                      (* new URL(request.url).origin *)
  pathname : string;
  search : string;
  accept : option string;               (* the Accept header *)
  token : Token;                        (* the auth_token cookie *)
  redirect : option string;             (* searchParams.get('redirect') *)
  payload : Payload
}.

Definition config_of_env (env : Env) (request : Request) : Config :=
  mkConfig
    (Js.or_else (DOMAIN env) (Js.or_else (host request) ""))
    (Js.or_else (USERNAME env) "")
    (Js.or_else (PASSWORD env) "")
    (Js.opt_eqb (ENABLE_AUTH env) "true")
    (Js.or_else (TG_BOT_TOKEN env) "")
    (if Js.truthy (TG_CHAT_ID env) then Js.split "," (default "" (TG_CHAT_ID env)) else [])
    (Js.or_else (TG_STORAGE_CHAT_ID env) (Js.or_else (TG_CHAT_ID env) ""))
    (maxSizeMB_of_env (MAX_SIZE_MB env))
    (BUCKET env)
    3600000
    300000.

(** [fileCache: new Map()], [menuCache: new Map()] *)
Definition new_maps (w : World) : World := set_fileCache ∅ (set_menuCache ∅ w).

Definition protectedPaths : list string :=
  [ "/"; "/upload"; "/admin"; "/create-category"; "/delete-category"; "/update-suffix";
    "/delete"; "/delete-multiple"; "/search"; "/update-remark"; "/change-category" ].

(** How the chat platform answers one [setWebhook] call. *)
Inductive HookAnswer :=
| HookSet             (* the response and its result are ok *)
| HookHttpError       (* the response is not ok *)
| HookRateLimited     (* error_code 429 *)
| HookRefused         (* the result is not ok, for another reason *)
| HookNoAnswer.       (* the call is rejected *)

(** The loop of [setWebhook]; the pauses between two calls are not
    modelled. *)
Fixpoint setWebhook_attempts (remaining : nat) (webhookUrl : string)
    (answers : nat -> HookAnswer) (attempt : nat) : Handler bool :=
  match remaining with
  | O => ret false
  | S remaining' =>
      emit (TgSetWebhook webhookUrl) ;;
      match answers attempt with
      | HookSet => ret true
      | HookRefused => ret false
      | HookHttpError | HookRateLimited | HookNoAnswer =>
          setWebhook_attempts remaining' webhookUrl answers (S attempt)
      end
  end.

Definition setWebhook (answers : nat -> HookAnswer) (webhookUrl botToken : string)
    : Handler bool :=
  if String.eqb botToken "" then ret true
  else setWebhook_attempts 3 webhookUrl answers 0.

(** The store with its structure. *)
Record Site := mkSite {
  site_categories : option (list Schema.Column);
  site_user_settings : option (list Schema.Column);
  site_files : option (list Schema.Column);
  world : World
}.

Definition store_of (site : Site) : Schema.Store :=
  Schema.mkStore (site_categories site) (site_user_settings site) (site_files site)
    (db (world site)).

Definition put_store (store : Schema.Store) (site : Site) : Site :=
  mkSite (Schema.t_categories store) (Schema.t_user_settings store) (Schema.t_files store)
    (set_db (Schema.rows store) (world site)).

Definition put_world (w : World) (site : Site) : Site :=
  mkSite (site_categories site) (site_user_settings site) (site_files site) w.

Definition in_store {A} (m : M Schema.Store A) : M Site A :=
  fun site => let '(r, store) := m (store_of site) in (r, put_store store site).

Definition in_world {A} (m : Handler A) : M Site A :=
  fun site => let '(r, w) := m (world site) in (r, put_world w site).

Section Fetch.

(** The handlers of [/login], [/admin], [/search], [/create-category] and
    [/bing] answer pages and listings; they are taken as they are, and so
    are the two codecs of the platform. *)
Variable page : string -> Request -> Config -> Handler Response.
Variable handleCallbackQuery :
  Ext -> Config -> string -> string -> UserSetting.t -> Handler unit.
Variable encodeURIComponent : string -> string.
Variable decodeURIComponent : string -> option string.   (* [None]: it throws *)

(** [routes[pathname]] *)
Definition routes (ext : Ext) (config : Config) (request : Request)
    : option (Handler Response) :=
  let body := payload request in
  let upload :=
    handleUploadRequest ext config (token request)
      (if String.eqb (method request) "GET" then None else Some (formData body)) in
  let path := pathname request in
  if String.eqb path "/" then Some upload
  else if String.eqb path "/login" then Some (page path request config)
  else if String.eqb path "/upload" then Some upload
  else if String.eqb path "/admin" then Some (page path request config)
  else if String.eqb path "/delete" then
    Some (handleDeleteRequest ext config (token request) (p_id body) (p_fileId body))
  else if String.eqb path "/delete-multiple" then
    Some (handleDeleteMultipleRequest ext config (token request) (p_urls body))
  else if String.eqb path "/search" then Some (page path request config)
  else if String.eqb path "/create-category" then Some (page path request config)
  else if String.eqb path "/delete-category" then
    Some (handleDeleteCategoryRequest ext config (token request) (p_category body))
  else if String.eqb path "/update-suffix" then
    Some (handleUpdateSuffixRequest ext config (p_url body) (p_suffix body))
  else if String.eqb path "/update-remark" then
    Some (handleUpdateRemarkRequest ext config (token request) (p_urls body) (p_remark body))
  else if String.eqb path "/change-category" then
    Some (handleChangeCategoryRequest ext config (token request) (p_urls body)
            (p_categoryId body))
  else if String.eqb path "/config" then
    Some (ret (mkResponse 200 (JsonConfig (maxSizeMB config))))
  else if String.eqb path "/webhook" then
    Some (handleTelegramWebhook handleCallbackQuery ext config (p_update body))
  else if String.eqb path "/bing" then Some (page path request config)
  else None.

(** [fetch(request, env)].  The headers a response carries are not
    modelled.  The handlers name the columns of [tableStructures]; they
    are modelled for a store that has them. *)
Definition fetch (ext : Ext) (hook : nat -> HookAnswer) (env : Env) (request : Request)
    : M Site Response :=
  if negb (DATABASE env) then
    ret (mkResponse 500 (Text "缺少必要配置: DATABASE 环境变量未设置"))
  else
    let config := config_of_env env request in
    in_world (modify new_maps) ;;
    if enableAuth config
       && (String.eqb (username config) "" || String.eqb (password config) "") then
      ret (mkResponse 500 (Text "认证配置错误: 缺少USERNAME或PASSWORD环境变量"))
    else if String.eqb (pathname request) "/favicon.ico" then
      ret (mkResponse 204 (Text ""))
    else
      let isAuthEnabled := enableAuth config in
      let isAuthenticated := authenticate (token request) ext config in
      let isLoginPage := String.eqb (pathname request) "/login" in
      let isPublicApi :=
        String.eqb (pathname request) "/webhook" || String.eqb (pathname request) "/config"
        || String.eqb (pathname request) "/bing" in
      let requiresAuth :=
        isAuthEnabled && existsb (String.eqb (pathname request)) protectedPaths in
      if requiresAuth && negb isAuthenticated && negb isLoginPage then
        if String.eqb (method request) "POST"
           || match accept request with
              | Some a => Js.includes a "application/json"
              | None => false
              end
        then
          ret (mkResponse 401 (JsonUrl 0 MUnauthorizedAccess (origin request +:+ "/login")))
        else
          ret (mkResponse 302
                 (Redirect (origin request +:+ "/login?redirect=" +:+
                            encodeURIComponent (pathname request +:+ search request))))
      else if isAuthEnabled && isAuthenticated && isLoginPage then
        ret (mkResponse 302
               (Redirect (origin request +:+ Js.or_else (redirect request) "/upload")))
      else
        initialised <-
          (if negb isPublicApi && negb isLoginPage then
             try_catch (in_store (Schema.initDatabase (now ext)) ;; ret true)
               (fun _ => ret false)
           else ret true) ;;
        if negb initialised then ret (mkResponse 500 (Text "数据库初始化失败"))
        else
          (if negb (String.eqb (tgBotToken config) "") then
             in_world
               (setWebhook hook ("https://" +:+ domain config +:+ "/webhook")
                  (tgBotToken config)) ;;
             ret tt
           else ret tt) ;;
          match routes ext config request with
          | Some handler =>
              try_catch (in_world handler)
                (fun _ => ret (mkResponse 500 (Text "服务器内部错误")))
          | None =>
              match decodeURIComponent
                      (String.substring 1 (String.length (pathname request) - 1)
                         (pathname request)) with
              | Some path => in_world (handleFileRequest ext config path)
              | None => ret (mkResponse 500 (Text "Internal Server Error"))
              end
          end.

End Fetch.

(** ** Notions used to state properties *)

(** The chat an update comes from. *)
Definition chat_of (update : Update) : option string :=
  match update with
  | UMessage message => Some (Message.chat_id message)
  | UCallback from_id _ => Some from_id
  | UOther => None
  end.

(** An update that gets as far as the test of the allowed chats: a
    callback, or a message that does not come from a group. *)
Definition reaches_allow_list (update : Update) : bool :=
  match update with
  | UMessage message =>
      negb (String.eqb (Message.chat_type message) "group"
            || String.eqb (Message.chat_type message) "supergroup")
  | UCallback _ _ => true
  | UOther => false
  end.

(** What an update of a chat that is not allowed makes the bot send: the
    unauthorized notice, when the update gets to the test and there is a
    token to send with; nothing otherwise. *)
Definition refusal (config : Config) (update : Update) (chatId : string) : list Event :=
  if reaches_allow_list update && negb (String.eqb (tgBotToken config) "")
  then [SendMessage chatId Unauthorized]
  else [].

Definition is_db_event (e : Event) : bool :=
  match e with
  | DbRead _ | DbWrite _ => true
  | _ => false
  end.

Definition is_db_read (e : Event) : bool :=
  match e with
  | DbRead _ => true
  | _ => false
  end.

(** A write to a storage backend: a [put] on the bucket or a file sent to
    the storage chat. *)
Definition is_backend_write (e : Event) : bool :=
  match e with
  | R2Put _ | TgUpload _ _ => true
  | _ => false
  end.

(** The dialogue state of a chat, as stored. *)
Definition dialogue_state (chatId : string) (w : World) : option (option string * option Z) :=
  (fun u => (UserSetting.waiting_for u, UserSetting.editing_file_id u))
    <$> Query.find_user_setting chatId (db w).

Definition is_menu_for (chatId : string) (e : Event) : bool :=
  match e with
  | SendMenu chat _ => String.eqb chat chatId
  | _ => false
  end.

(** The row [/update-suffix] takes as the file to rename. *)
Definition rename_target (url : string) (d : Db) : option File.t :=
  match Query.find_file_by_url url d with
  | Some r => Some r
  | None => Query.find_file_by_fileId (getFileName url) d
  end.

(** Every [category_id] of a file names a category that exists. *)
Definition no_dangling (d : Db) : Prop :=
  forall f c, f ∈ files d -> File.category_id f = Some c ->
    exists cat, cat ∈ categories d /\ Category.id cat = c.

(** Re-pointing, row by row: a file of category [from] is moved to [to]
    and is otherwise as before, and a file of any other category (or of
    none) is kept as it is.  The same for the current category of a user
    setting. *)
Definition file_moved (from to : Z) (before after : File.t) : Prop :=
  (File.category_id before = Some from ->
     after = File.with_category_id (Some to) before)
  /\ (File.category_id before <> Some from -> after = before).

Definition setting_moved (from to : Z) (before after : UserSetting.t) : Prop :=
  (UserSetting.current_category_id before = Some from ->
     after = UserSetting.with_current_category_id (Some to) before)
  /\ (UserSetting.current_category_id before <> Some from -> after = before).

(** [id] is the key of a category that bears the default name. *)
Definition is_default_category (id : Z) (d : Db) : Prop :=
  exists cat, cat ∈ categories d /\ Category.id cat = id
              /\ Category.name cat = default_category_name.





(** What the bot matches a typed file name against: the rows of the chat
    whose [file_name] is the text or whose [url] ends with it. *)
Definition matches_name_of_chat (fileName chatId : string) (r : File.t) : bool :=
  (Js.opt_eqb (File.file_name r) fileName || Sql.like (File.url r) ("%/" +:+ fileName))
  && Js.opt_eqb (File.chat_id r) chatId.

(** [r] is the first row of [rows], in table order, that satisfies [p]. *)
Definition first_match (p : File.t -> bool) (rows : list File.t) (r : File.t) : Prop :=
  exists before after,
    rows = before ++ r :: after /\ p r = true /\ Forall (fun x => p x = false) before.

(** The three tables exist. *)
Definition all_tables_present (s : Schema.Store) : Prop :=
  forall t, is_Some (Schema.table_of t s).

(** The constraint [UNIQUE] on [categories.name]. *)
Definition unique_category_names (s : Schema.Store) : Prop :=
  NoDup (map Category.name (categories (Schema.rows s))).

(** The [categories] table, when there is one, takes the rows the worker
    inserts: it has a [name] column, and no column but [name] and
    [created_at] is [NOT NULL] without a [DEFAULT]. *)
Definition categories_take_rows (s : Schema.Store) : Prop :=
  match Schema.t_categories s with
  | Some cols =>
      Schema.has_column cols "name" = true
      /\ Schema.unprovided_ok ["name"; "created_at"] cols = true
  | None => True
  end.

(** A row that gives nothing but its [name] fits the [categories] table
    (a table that is still to be created takes it). *)
Definition named_row_fits (s : Schema.Store) : bool :=
  match Schema.t_categories s with
  | Some cols => Schema.unprovided_ok ["name"] cols
  | None => true
  end.

(** What the pass over the expected columns makes of the columns of a
    table: they are kept, the missing ones are added, and an [INSERT]
    needs to give no more than before. *)
Definition extends (cols cols' : list Schema.Column) : Prop :=
  (forall n, Schema.has_column cols n = true -> Schema.has_column cols' n = true)
  /\ (forall provided,
        Schema.unprovided_ok provided cols' = Schema.unprovided_ok provided cols).

(** The store after the three [CREATE TABLE IF NOT EXISTS] of
    [recreateAllTables]. *)
Definition created (s : Schema.Store) : Schema.Store :=
  let create t s0 :=
    match Schema.table_of t s0 with
    | Some _ => s0
    | None =>
        Schema.set_rows (Schema.clear_rows t (Schema.rows s0))
          (Schema.set_table t (Some (Schema.created_columns t)) s0)
    end in
  create Schema.Files (create Schema.UserSettings (create Schema.Categories s)).

(** Between [w] and [w'] the chat was sent [notice]. *)
Definition told (chatId : string) (notice : Notice) (w w' : World) : Prop :=
  exists before after,
    trace w' = trace w ++ before ++ SendMessage chatId notice :: after.

(** The reply to the [new_suffix] prompt, row by row: the row being edited
    gets the new [url] and keeps its key and its [file_name]; every other
    row is kept as it is. *)
Definition renamed_in_place (fileId : Z) (fileUrl : string) (before after : File.t) : Prop :=
  if Z.eqb (File.id before) fileId
  then File.id after = fileId
       /\ File.url after = fileUrl
       /\ File.file_name after = File.file_name before
  else after = before.

(** [m] leaves what [obs] reads of the state as it finds it. *)
Definition leaves {S X A : Type} (obs : S -> X) (m : M S A) : Prop :=
  forall s, obs (snd (m s)) = obs s.

(** The states in which the bot takes the next text, whatever it says, as
    the input it is waiting for, before it looks for [/start]. *)
Definition consumes_text (userSetting : UserSetting.t) : bool :=
  Js.opt_eqb (UserSetting.waiting_for userSetting) "new_category"
  || Js.opt_eqb (UserSetting.waiting_for userSetting) "new_suffix"
     && bool_decide (is_Some (UserSetting.editing_file_id userSetting))
  || Js.opt_eqb (UserSetting.waiting_for userSetting) "delete_file_input".

(** Rows whose key is not in [ids]. *)
Definition spared (ids : list Z) (r : File.t) : bool :=
  negb (existsb (Z.eqb (File.id r)) ids).


(** ** Further notions

    Names made of the characters that pass [sanitize] unchanged: letters,
    digits, [-], [_] and [.].  A URL built from such a name is read back
    by the URL parser as it was written. *)

Fixpoint all_chars (p : ascii -> bool) (s : string) : bool :=
  match s with
  | EmptyString => true
  | String c s' => p c && all_chars p s'
  end.

Definition plain_name (s : string) : Prop := all_chars keeps s = true.

(** The row [/delete] takes as the file to delete: [id] read as a URL when
    it starts with [http] and as a key otherwise, then [fileId]. *)
Definition admin_delete_target (id fileId : option string) (d : Db) : option File.t :=
  match (if Js.truthy id && Js.startsWith (default "" id) "http"
         then Query.find_file_by_url (default "" id) d
         else if Js.truthy id
         then match Z_of_string (default "" id) with
              | Some n => Query.find_file_by_id n d
              | None => None
              end
         else None) with
  | Some r => Some r
  | None =>
      if Js.truthy fileId then Query.find_file_by_fileId (default "" fileId) d else None
  end.

Definition is_chat_delete (e : Event) : bool :=
  match e with
  | TgDeleteMessage _ _ => true
  | _ => false
  end.

(** ** Sample data: one deployment, two categories, three files *)

Module Sample.

Definition config : Config :=
  mkConfig "img.example" "admin" "secret" false "bot-token" ["1001"] "-100200"
           20 true 3600000 300000.

Definition ext : Ext :=
  mkExt 1700000000000 false false false true true (Some 77) (Some "tg-file-77") true
        (Some "documents/file_9.png") (Some (Some 2048, "new-bytes")) true (Some 5).

(** A picture kept in the storage chat. *)
Definition photo : File.t :=
  File.mk 1 "https://img.example/1700_a.png" (Some "tg-file-1") (Some 11) 100
          (Some "a.png") (Some 10) (Some "image/png") (Some "telegram") (Some 2)
          (Some "1001") None.

(** Two documents kept in the bucket. *)
Definition report : File.t :=
  File.mk 2 "https://img.example/1701_report.pdf" (Some "1701_report.pdf") (Some (-1)) 200
          (Some "report.pdf") (Some 20) (Some "application/pdf") (Some "r2") (Some 2)
          (Some "1001") None.

Definition manual : File.t :=
  File.mk 3 "https://img.example/manual.pdf" (Some "manual.pdf") (Some (-1)) 300
          (Some "manual.pdf") (Some 30) (Some "application/pdf") (Some "r2") (Some 1)
          (Some "1001") None.

(** A later upload with the name of [photo]. *)
Definition photo_again : File.t :=
  File.mk 4 "https://img.example/1800_a.png" (Some "tg-file-4") (Some 14) 400
          (Some "a.png") (Some 10) (Some "image/png") (Some "telegram") (Some 2)
          (Some "1001") None.

Definition rows (waiting_for : option string) (editing_file_id : option Z)
    (files : list File.t) : Db :=
  mkDb [Category.mk 1 default_category_name (Some 1); Category.mk 2 "Photos" (Some 2)]
       [UserSetting.mk "1001" (Some "telegram") (Some 1) waiting_for editing_file_id]
       files.

Definition world_with (waiting_for : option string) (editing_file_id : option Z)
    (files : list File.t) : World :=
  mkWorld (rows waiting_for editing_file_id files)
          (<["1701_report.pdf" := mkR2 "report-bytes" (Some "application/pdf")]>
             (<["manual.pdf" := mkR2 "manual-bytes" (Some "application/pdf")]> ∅))
          [mkStored 11 "tg-file-1" "photo-bytes"; mkStored 14 "tg-file-4" "later-bytes"]
          ∅ ∅ [].

(** The chat is idle. *)
Definition world : World := world_with None None [photo; report; manual].

(** The chat was asked for a new file name, for [file]. *)
Definition renaming (waiting_for : string) (file : File.t) : World :=
  world_with (Some waiting_for) (Some (File.id file)) [photo; report; manual].

Definition text_from (chatId text : string) : Update :=
  UMessage (Message.mk chatId "private" (Some text) None None None None None None None).

Definition no_buttons : Ext -> Config -> string -> string -> UserSetting.t -> Handler unit :=
  fun _ _ _ _ _ => ret tt.

(** The columns of [CREATE TABLE user_settings] in
    [recreateUserSettingsTable]. *)
Definition user_settings_recreated : list Schema.Column :=
  [ Schema.plain "id" "INTEGER";
    Schema.mkColumn "chat_id" "TEXT" true false;
    Schema.mkColumn "storage_type" "TEXT" false true;
    Schema.plain "category_id" "INTEGER"; Schema.plain "custom_suffix" "TEXT";
    Schema.plain "waiting_for" "TEXT"; Schema.plain "editing_file_id" "TEXT";
    Schema.mkColumn "created_at" "DATETIME" false true ].

(** A store with the [user_settings] table as [recreateUserSettingsTable]
    lays it out (a [category_id] column, no [current_category_id]) and no
    [files] table yet. *)
Definition legacy_store : Schema.Store :=
  Schema.mkStore
    (Some (Schema.created_columns Schema.Categories))
    (Some user_settings_recreated)
    None
    (mkDb [Category.mk 1 default_category_name (Some 1)] [] []).

(** A store with the [categories] table as [recreateCategoriesTable] lays
    it out ([created_at INTEGER NOT NULL]), no category yet and no [files]
    table. *)
Definition bare_store : Schema.Store :=
  Schema.mkStore
    (Some [ Schema.plain "id" "INTEGER";
            Schema.mkColumn "name" "TEXT" true false;
            Schema.mkColumn "created_at" "INTEGER" true false ])
    (Some (Schema.created_columns Schema.UserSettings))
    None
    (mkDb [] [] []).

(** The bucket rejects [put]; the rest is as in [ext]. *)
Definition put_rejected : Ext :=
  mkExt 1700000000000 false true false true true (Some 77) (Some "tg-file-77") true
        (Some "documents/file_9.png") (Some (Some 2048, "new-bytes")) true (Some 5).

(** The deployment as [fetch] sees it: the environment [config] is built
    from, the store with the three tables as they are created, and
    requests with a JSON body. *)
Definition env : Env :=
  mkEnv true (Some "img.example") (Some "admin") (Some "secret") None (Some "bot-token")
        (Some "1001") (Some "-100200") (Some 20) true.

Definition site_of (w : World) : Site :=
  mkSite (Some (Schema.created_columns Schema.Categories))
         (Some (Schema.created_columns Schema.UserSettings))
         (Some (Schema.created_columns Schema.Files))
         w.

Definition no_payload : Payload :=
  mkPayload (mkUploadForm None None None) None None None None None None None None UOther.

Definition request_of (method pathname : string) (payload : Payload) : Request :=
  mkRequest method (Some "img.example") "https://img.example" pathname "" None None None
            payload.

Definition get_path (pathname : string) : Request := request_of "GET" pathname no_payload.

(** [POST /delete] with [{id}] and [POST /update-suffix] with
    [{url, suffix}]. *)
Definition post_delete (id : string) : Request :=
  request_of "POST" "/delete"
    (mkPayload (mkUploadForm None None None) (Some id) None None None None None None None
       UOther).

Definition post_update_suffix (url suffix : string) : Request :=
  request_of "POST" "/update-suffix"
    (mkPayload (mkUploadForm None None None) None None None None None None (Some url)
       (Some suffix) UOther).

Definition no_page : string -> Request -> Config -> Handler Response :=
  fun _ _ _ => ret (mkResponse 200 (Text "")).

(** One request to the deployment. *)
Definition serve (request : Request) : M Site Response :=
  fetch no_page no_buttons (fun s => s) Some ext (fun _ => HookSet) env request.

End Sample.

(** * Properties

    First the helpers on small inputs, then the tactics and lemmas the
    handlers share, then the claims one by one. *)

Example split_ext : Js.pop (Js.split "." "photo.tar.gz") = "gz".
Proof. reflexivity. Qed.

Example split_no_dot : Js.split "." "README" = ["README"].
Proof. reflexivity. Qed.

Example trim_both : Js.trim "  a b  " = "a b".
Proof. reflexivity. Qed.

Example pathname_plain : Js.url_pathname "https://img.example/a/b.png?x=1" = Some "/a/b.png".
Proof. reflexivity. Qed.

Example like_suffix : Sql.like "https://img.example/17_A.png" "%/17_a.png" = true.
Proof. reflexivity. Qed.

Example like_underscore : Sql.like "https://img.example/17xa.png" "%/17_a.png" = true.
Proof. reflexivity. Qed.

Example file_name_of_url : getFileName "https://img.example/1700_a.png" = "1700_a.png".
Proof. reflexivity. Qed.

Example file_name_of_plain_text : getFileName "a.png" = "a.png".
Proof. reflexivity. Qed.

Example new_name_keeps_extension : new_name "b" "1700_a.png" = "b.png".
Proof. reflexivity. Qed.

Example content_type_of_ogg : getContentType "OGG" = "audio/ogg".
Proof. reflexivity. Qed.

Example sanitized : sanitize "my file (1).png" = "my_file__1_.png".
Proof. reflexivity. Qed.

Example decimal_text : string_of_Z 1700 = "1700" /\ Z_of_string "12" = Some 12.
Proof. split; reflexivity. Qed.

(** Running a handler symbolically: unfold the monad and the primitives. *)
Ltac wsimpl :=
  cbn [fst snd db bucket chat_store fileCache menuCache trace
       set_db set_bucket set_chat_store set_fileCache set_menuCache set_trace].

(** Unfolding the updates of the world down to the record. *)
Ltac wopen :=
  unfold set_trace, set_db, set_bucket, set_chat_store, set_fileCache, set_menuCache;
  repeat progress wsimpl.

Ltac run :=
  cbv beta iota zeta delta
    [bind ret try_catch throw get modify emit db_read db_write db_write_result sendMessage];
  repeat progress wsimpl.

(** Destructing what a handler branches on, outermost scrutinee first. *)
Ltac branch :=
  match goal with
  | |- context [match ?x with _ => _ end] =>
      lazymatch x with
      | context [match _ with _ => _ end] => fail
      | _ => destruct x eqn:?
      end
  end.

Lemma existsb_eqb_false (x : string) (l : list string) :
  x ∉ l -> existsb (String.eqb x) l = false.
Proof.
  induction l as [|y l IH]; intros Hn; [reflexivity|].
  simpl. apply not_elem_of_cons in Hn as [Hxy Hl].
  rewrite IH by assumption.
  destruct (String.eqb_spec x y); [contradiction|reflexivity].
Qed.

Lemma find_is_Some {A} (p : A -> bool) (l : list A) (x : A) :
  x ∈ l -> p x = true -> exists y, find p l = Some y.
Proof.
  intros Hin Hp. destruct (find p l) as [y|] eqn:Hf; [eauto|].
  apply list_elem_of_In in Hin.
  pose proof (find_none p l Hf x Hin) as Hn. congruence.
Qed.

Lemma find_Some_elem {A} (p : A -> bool) (l : list A) (x : A) :
  find p l = Some x -> x ∈ l /\ p x = true.
Proof.
  intros Hf. apply find_some in Hf as [Hin Hp].
  split; [apply list_elem_of_In, Hin | exact Hp].
Qed.

Lemma find_None_elem {A} (p : A -> bool) (l : list A) (x : A) :
  find p l = None -> x ∈ l -> p x = false.
Proof.
  intros Hf Hin. apply (find_none p l Hf x). apply list_elem_of_In, Hin.
Qed.

Lemma next_id_above (ids : list Z) (i : Z) : i ∈ ids -> i < Query.next_id ids.
Proof.
  unfold Query.next_id. induction ids as [|j ids IH]; intros Hin.
  - inversion Hin.
  - simpl. apply elem_of_cons in Hin as [-> | Hin]; [lia|].
    specialize (IH Hin). lia.
Qed.

Lemma next_id_positive (ids : list Z) : 0 < Query.next_id ids.
Proof.
  unfold Query.next_id.
  assert (0 <= fold_right Z.max 0 ids); [|lia].
  induction ids as [|j ids IH]; simpl; lia.
Qed.

(** C9. An update from a chat that is not in the non-empty list of allowed
    chats: the handler answers OK and leaves the world as it was, but for
    what it sends.  It sends the unauthorized notice to the chat, and only
    that, whenever the bot token is configured and the update is a callback
    or a message that does not come from a group; otherwise it sends
    nothing.  No statement reaches the relational store: no settings row is
    created, no dialogue state changes, no file is stored. *)
Theorem C9_unlisted_chat_reaches_no_table
    (handleCallbackQuery : Ext -> Config -> string -> string -> UserSetting.t -> Handler unit)
    (ext : Ext) (config : Config) (update : Update) (chatId : string) (w : World) :
  chat_of update = Some chatId ->
  tgChatId config <> [] ->
  chatId ∉ tgChatId config ->
  handleTelegramWebhook handleCallbackQuery ext config update w
    = (Ok OK, set_trace (trace w ++ refusal config update chatId) w)
  /\ (reaches_allow_list update = true -> tgBotToken config <> "" ->
        refusal config update chatId = [SendMessage chatId Unauthorized])
  /\ (reaches_allow_list update = false \/ tgBotToken config = "" ->
        refusal config update chatId = [])
  /\ Forall (fun e => is_db_event e = false) (refusal config update chatId).
Proof.
  intros Hchat Hne Hnot.
  assert (Hgate : negb (bool_decide (tgChatId config = []))
                  && negb (existsb (String.eqb chatId) (tgChatId config)) = true).
  { rewrite existsb_eqb_false by assumption.
    rewrite bool_decide_eq_false_2 by assumption. reflexivity. }
  assert (Hid : set_trace (trace w ++ []) w = w).
  { rewrite app_nil_r. destruct w; reflexivity. }
  split; [|split; [|split]].
  - unfold handleTelegramWebhook, refusal, reaches_allow_list.
    destruct update as [message | from_id data | ]; simpl in Hchat; [| |discriminate].
    + injection Hchat as <-.
      destruct (String.eqb (Message.chat_type message) "group"
                || String.eqb (Message.chat_type message) "supergroup") eqn:Hgroup;
        cbn [negb andb].
      * run. rewrite Hid. reflexivity.
      * run. rewrite Hgate.
        destruct (String.eqb (tgBotToken config) "") eqn:Htok; cbn [negb andb]; run.
        -- rewrite Hid. reflexivity.
        -- reflexivity.
    + injection Hchat as <-.
      run. rewrite Hgate.
      destruct (String.eqb (tgBotToken config) "") eqn:Htok; cbn [negb andb]; run.
      * rewrite Hid. reflexivity.
      * reflexivity.
  - intros Hreach Htok. unfold refusal. rewrite Hreach.
    apply String.eqb_neq in Htok. rewrite Htok. reflexivity.
  - intros [Hreach | Htok]; unfold refusal.
    + rewrite Hreach. reflexivity.
    + rewrite Htok. cbn [String.eqb negb]. rewrite andb_false_r. reflexivity.
  - unfold refusal.
    destruct (reaches_allow_list update && negb (String.eqb (tgBotToken config) ""));
      repeat constructor.
Qed.

Lemma lookup_for_rename_run (url : string) (w : World) :
  exists reads,
    lookup_for_rename url w = (Ok (rename_target url (db w)), set_trace (trace w ++ reads) w)
    /\ Forall (fun e => is_db_read e = true) reads.
Proof.
  unfold lookup_for_rename, rename_target. run.
  destruct (Query.find_file_by_url url (db w)) as [r|].
  - exists [DbRead "files"]. split; [reflexivity | repeat constructor].
  - exists [DbRead "files"; DbRead "files"]. run. rewrite <- app_assoc.
    split; [reflexivity | repeat constructor].
Qed.

(** C10. A rename through [/update-suffix] whose new name is the [fileId]
    of another row, or whose new URL is the [url] of another row, is
    answered with status 0 and leaves every row, the bucket and the
    storage chat as they were: the handler has only read the [files]
    table. *)
Theorem C10_taken_name_rejects_rename
    (ext : Ext) (config : Config) (url suffix : string) (w : World)
    (fileRecord other : File.t) :
  url <> "" ->
  suffix <> "" ->
  rename_target url (db w) = Some fileRecord ->
  other ∈ files (db w) ->
  File.id other <> File.id fileRecord ->
  File.fileId other = Some (new_name suffix (getFileName url))
  \/ File.url other = url_of config (new_name suffix (getFileName url)) ->
  exists msg reads,
    handleUpdateSuffixRequest ext config (Some url) (Some suffix) w
      = (Ok (json 0 msg), set_trace (trace w ++ reads) w)
    /\ (msg = MNameTaken \/ msg = MUrlTaken)
    /\ Forall (fun e => is_db_read e = true) reads.
Proof.
  intros Hurl Hsuffix Htarget Hin Hid Htaken.
  unfold handleUpdateSuffixRequest.
  apply String.eqb_neq in Hurl, Hsuffix.
  destruct (lookup_for_rename_run url w) as (reads & Hlook & Hreads).
  unfold try_catch, bind at 1. rewrite Hurl, Hsuffix. cbn [orb].
  unfold bind at 1. rewrite Hlook, Htarget.
  assert (Hne : negb (File.id other =? File.id fileRecord) = true).
  { apply negb_true_iff, Z.eqb_neq, Hid. }
  set (newFileName := new_name suffix (getFileName url)) in *.
  run.
  destruct (Query.find_other_file_by_fileId newFileName (File.id fileRecord) (db w))
    as [taken|] eqn:Hname.
  - exists MNameTaken, (reads ++ [DbRead "files"]).
    split; [run; rewrite <- ?app_assoc; reflexivity|]. split; [left; reflexivity|].
    apply Forall_app; split; [assumption | repeat constructor].
  - destruct Htaken as [Hf | Hu].
    + exfalso. unfold Query.find_other_file_by_fileId in Hname.
      destruct (find_is_Some
                  (fun f => Js.opt_eqb (File.fileId f) newFileName
                            && negb (File.id f =? File.id fileRecord))
                  _ other Hin) as [y Hy].
      { rewrite Hf, Hne. simpl. rewrite String.eqb_refl. reflexivity. }
      congruence.
    + destruct (find_is_Some
                  (fun f => String.eqb (File.url f) (url_of config newFileName)
                            && negb (File.id f =? File.id fileRecord))
                  _ other Hin) as [y Hy].
      { rewrite Hu, Hne, String.eqb_refl. reflexivity. }
      run. unfold Query.find_other_file_by_url. rewrite Hy.
      exists MUrlTaken, (reads ++ [DbRead "files"; DbRead "files"]).
      split; [run; rewrite <- !app_assoc; reflexivity|]. split; [right; reflexivity|].
      apply Forall_app; split; [assumption | repeat constructor].
Qed.

Lemma insert_category_files (name : string) (t : Z) (d : Db) :
  files (snd (Query.insert_category name t d)) = files d.
Proof.
  unfold Query.insert_category. destruct (Query.find_category name d); reflexivity.
Qed.

Lemma insert_category_user_settings (name : string) (t : Z) (d : Db) :
  user_settings (snd (Query.insert_category name t d)) = user_settings d.
Proof.
  unfold Query.insert_category. destruct (Query.find_category name d); reflexivity.
Qed.

(** The category look-up of an upload touches neither a backend nor the
    [files] table. *)
Lemma default_category_for_upload_run (ext : Ext) (w : World) :
  exists c d evs,
    default_category_for_upload ext w = (Ok c, set_trace (trace w ++ evs) (set_db d w))
    /\ files d = files (db w)
    /\ Forall (fun e => is_backend_write e = false) evs.
Proof.
  unfold default_category_for_upload. run.
  destruct (Query.find_category default_category_name (db w)) as [c|] eqn:Hc; run.
  - exists (Some (Category.id c)), (db w), [DbRead "categories"].
    split; [reflexivity|]. split; [reflexivity | repeat constructor].
  - pose proof (insert_category_files default_category_name (now ext) (db w)) as Hfiles.
    destruct (Query.insert_category default_category_name (now ext) (db w)) as [[id|e] d] eqn:Hins;
      run; simpl in Hfiles.
    + eexists _, d, [DbRead "categories"; DbWrite "categories"].
      rewrite <- app_assoc.
      split; [reflexivity|]. split; [assumption | repeat constructor].
    + eexists _, d, [DbRead "categories"; DbWrite "categories"].
      rewrite <- app_assoc.
      split; [reflexivity|]. split; [assumption | repeat constructor].
Qed.

Lemma web_oversize_rejected (ext : Ext) (config : Config) (token : Token) (w : World)
    (formData : UploadForm) (file : UploadedFile) :
  enableAuth config && negb (authenticate token ext config) = false ->
  form_file formData = Some file ->
  maxSizeMB config * 1024 * 1024 < upload_size file ->
  handleUploadRequest ext config token (Some formData) w
    = (Ok (mkResponse 400 (Json 0 (MUploadFailed (ETooLarge (maxSizeMB config))))), w).
Proof.
  intros Hauth Hfile Hsize.
  unfold handleUploadRequest. rewrite Hauth, Hfile.
  apply Z.ltb_lt in Hsize. rewrite Hsize. reflexivity.
Qed.

Lemma bot_oversize_rejected (ext : Ext) (config : Config) (w : World)
    (chatId : string) (file : TgFile.t) (userSetting : UserSetting.t)
    (file_path content : string) (n : Z) :
  tg_file_path ext = Some file_path ->
  tg_download ext = Some (Some n, content) ->
  maxSizeMB config * 1024 * 1024 < n ->
  exists w' evs,
    handleMediaUpload ext config chatId file userSetting w = (Ok tt, w')
    /\ files (db w') = files (db w)
    /\ bucket w' = bucket w
    /\ chat_store w' = chat_store w
    /\ trace w' = trace w ++ evs ++ [SendMessage chatId (TooLarge (maxSizeMB config))]
    /\ Forall (fun e => is_backend_write e = false) evs.
Proof.
  intros Hpath Hdown Hsize. apply Z.ltb_lt in Hsize.
  unfold handleMediaUpload. rewrite Hpath, Hdown, Hsize.
  assert (Hnote : forall w0, exists evs0,
            remove_processing_note ext chatId w0 = (Ok tt, set_trace (trace w0 ++ evs0) w0)
            /\ Forall (fun e => is_backend_write e = false) evs0).
  { intros w0. unfold remove_processing_note.
    destruct (tg_processing_message_id ext) as [m|]; [destruct (Z.eqb m 0)|]; run.
    - exists []. rewrite app_nil_r. destruct w0. split; [reflexivity | constructor].
    - eexists [_]. split; [reflexivity | repeat constructor].
    - exists []. rewrite app_nil_r. destruct w0. split; [reflexivity | constructor]. }
  destruct (Js.truthyZ (UserSetting.current_category_id userSetting)); run.
  - match goal with
    | |- context [remove_processing_note ext chatId ?w0] =>
        destruct (Hnote w0) as (evs0 & Hrun & Hev); rewrite Hrun
    end.
    run.
    eexists _, ([SendMessage chatId Processing; TgGetFile (TgFile.file_id file);
                 TgDownload file_path] ++ evs0).
    split; [reflexivity|]. wsimpl. repeat split.
    + rewrite <- !app_assoc. reflexivity.
    + repeat constructor. assumption.
  - match goal with
    | |- context [default_category_for_upload ext ?w0] =>
        destruct (default_category_for_upload_run ext w0)
          as (c & d & evs1 & Hcat & Hfiles & Hev1); rewrite Hcat
    end.
    run.
    match goal with
    | |- context [remove_processing_note ext chatId ?w0] =>
        destruct (Hnote w0) as (evs0 & Hrun & Hev); rewrite Hrun
    end.
    run.
    eexists _, ([SendMessage chatId Processing; TgGetFile (TgFile.file_id file)]
                  ++ evs1 ++ [TgDownload file_path] ++ evs0).
    split; [reflexivity|]. wsimpl. repeat split.
    + assumption.
    + rewrite <- !app_assoc. reflexivity.
    + repeat constructor. apply Forall_app; split; [assumption|].
      repeat constructor. assumption.
Qed.

(** C4. An upload whose reported length is above [maxSizeMB] megabytes is
    refused before anything is written.  Through the web form the answer
    is [{status: 0}] (HTTP 400) and the world is untouched; through the bot
    the chat is told that the file is too large, no [put] and no send to
    the storage chat is attempted, and the [files] table, the bucket and
    the storage chat are as before.  The ceiling is 20 megabytes when none
    is configured. *)
Theorem C4_oversize_upload_refused_before_any_write
    (ext : Ext) (config : Config) (w : World) :
  (forall (token : Token) (formData : UploadForm) (file : UploadedFile),
      enableAuth config && negb (authenticate token ext config) = false ->
      form_file formData = Some file ->
      maxSizeMB config * 1024 * 1024 < upload_size file ->
      handleUploadRequest ext config token (Some formData) w
        = (Ok (mkResponse 400 (Json 0 (MUploadFailed (ETooLarge (maxSizeMB config))))), w))
  /\
  (forall (chatId : string) (file : TgFile.t) (userSetting : UserSetting.t)
          (file_path content : string) (n : Z),
      tg_file_path ext = Some file_path ->
      tg_download ext = Some (Some n, content) ->
      maxSizeMB config * 1024 * 1024 < n ->
      exists w' evs,
        handleMediaUpload ext config chatId file userSetting w = (Ok tt, w')
        /\ files (db w') = files (db w)
        /\ bucket w' = bucket w
        /\ chat_store w' = chat_store w
        /\ trace w' = trace w ++ evs ++ [SendMessage chatId (TooLarge (maxSizeMB config))]
        /\ Forall (fun e => is_backend_write e = false) evs)
  /\ maxSizeMB_of_env None = 20.
Proof.
  split; [|split].
  - intros. eapply web_oversize_rejected; eassumption.
  - intros. eapply bot_oversize_rejected; eassumption.
  - reflexivity.
Qed.
Lemma category_exists_elem (cat : Category.t) (d : Db) :
  cat ∈ categories d -> Query.category_exists (Category.id cat) d = true.
Proof.
  intros Hin. unfold Query.category_exists. apply existsb_exists.
  exists cat. split; [apply list_elem_of_In, Hin | apply Z.eqb_refl].
Qed.

Lemma optZ_eqb_spec (o : option Z) (n : Z) : Js.optZ_eqb o n = true <-> o = Some n.
Proof.
  destruct o as [m|]; simpl; [|split; discriminate].
  rewrite Z.eqb_eq. split; congruence.
Qed.

Lemma optZ_eqb_false (o : option Z) (n : Z) : Js.optZ_eqb o n = false <-> o <> Some n.
Proof.
  rewrite <- optZ_eqb_spec. destruct (Js.optZ_eqb o n); split; congruence.
Qed.

(** After the re-pointing no row refers to the category any more. *)
Lemma no_file_refers (from to : Z) (rows : list File.t) :
  to <> from ->
  existsb (fun r => Js.optZ_eqb (File.category_id r) from)
    (map (fun r => if Js.optZ_eqb (File.category_id r) from
                   then File.with_category_id (Some to) r else r) rows) = false.
Proof.
  intros Hne. induction rows as [|r rows IH]; [reflexivity|].
  simpl. rewrite IH, orb_false_r.
  destruct (Js.optZ_eqb (File.category_id r) from) eqn:Hr; [|exact Hr].
  simpl. apply Z.eqb_neq, Hne.
Qed.

Lemma no_setting_refers (from to : Z) (rows : list UserSetting.t) :
  to <> from ->
  existsb (fun u => Js.optZ_eqb (UserSetting.current_category_id u) from)
    (map (fun u => if Js.optZ_eqb (UserSetting.current_category_id u) from
                   then UserSetting.with_current_category_id (Some to) u else u) rows) = false.
Proof.
  intros Hne. induction rows as [|u rows IH]; [reflexivity|].
  simpl. rewrite IH, orb_false_r.
  destruct (Js.optZ_eqb (UserSetting.current_category_id u) from) eqn:Hu; [|exact Hu].
  simpl. apply Z.eqb_neq, Hne.
Qed.

Lemma files_moved (from to : Z) (rows : list File.t) :
  Forall2 (file_moved from to) rows
    (map (fun r => if Js.optZ_eqb (File.category_id r) from
                   then File.with_category_id (Some to) r else r) rows).
Proof.
  induction rows as [|r rows IH]; simpl; constructor; [|exact IH].
  unfold file_moved. destruct (Js.optZ_eqb (File.category_id r) from) eqn:Hr.
  - apply optZ_eqb_spec in Hr. split; [reflexivity | contradiction].
  - apply optZ_eqb_false in Hr. split; [contradiction | reflexivity].
Qed.

Lemma settings_moved (from to : Z) (rows : list UserSetting.t) :
  Forall2 (setting_moved from to) rows
    (map (fun u => if Js.optZ_eqb (UserSetting.current_category_id u) from
                   then UserSetting.with_current_category_id (Some to) u else u) rows).
Proof.
  induction rows as [|u rows IH]; simpl; constructor; [|exact IH].
  unfold setting_moved. destruct (Js.optZ_eqb (UserSetting.current_category_id u) from) eqn:Hu.
  - apply optZ_eqb_spec in Hu. split; [reflexivity | contradiction].
  - apply optZ_eqb_false in Hu. split; [contradiction | reflexivity].
Qed.

(** The three statements of a deletion, run on the rows [d] once a
    default category [dflt] other than the deleted one is there. *)
Lemma reparent_and_delete (id : Z) (dflt : Category.t) (d : Db) :
  dflt ∈ categories d ->
  Category.id dflt <> id ->
  exists d1 d2 d3,
    Query.repoint_files (Some (Category.id dflt)) id d = (Ok tt, d1)
    /\ Query.repoint_user_settings (Some (Category.id dflt)) id d1 = (Ok tt, d2)
    /\ Query.delete_category id d2 = (Ok tt, d3)
    /\ categories d3 = filter (fun c => negb (Category.id c =? id)) (categories d)
    /\ Forall2 (file_moved id (Category.id dflt)) (files d) (files d3)
    /\ Forall2 (setting_moved id (Category.id dflt)) (user_settings d) (user_settings d3).
Proof.
  intros Hin Hne.
  set (d1 := set_files
               (map (fun r => if Js.optZ_eqb (File.category_id r) id
                              then File.with_category_id (Some (Category.id dflt)) r else r)
                    (files d)) d).
  set (d2 := set_user_settings
               (map (fun u => if Js.optZ_eqb (UserSetting.current_category_id u) id
                              then UserSetting.with_current_category_id
                                     (Some (Category.id dflt)) u
                              else u)
                    (user_settings d1)) d1).
  exists d1, d2,
    (set_categories (filter (fun c => negb (Category.id c =? id)) (categories d2)) d2).
  assert (H1 : Query.category_exists (Category.id dflt) d = true)
    by (apply category_exists_elem; exact Hin).
  assert (H2 : Query.category_exists (Category.id dflt) d1 = true)
    by (apply category_exists_elem; exact Hin).
  split; [|split; [|split; [|split; [|split]]]].
  - unfold Query.repoint_files. cbn [Query.refers_to_category]. rewrite H1.
    cbn [negb]. rewrite andb_false_r. reflexivity.
  - unfold Query.repoint_user_settings. cbn [Query.refers_to_category]. rewrite H2.
    cbn [negb]. rewrite andb_false_r. reflexivity.
  - unfold Query.delete_category.
    replace (existsb (fun r => Js.optZ_eqb (File.category_id r) id) (files d2)) with false
      by (symmetry; apply no_file_refers; exact Hne).
    replace (existsb (fun u => Js.optZ_eqb (UserSetting.current_category_id u) id)
               (user_settings d2)) with false
      by (symmetry; apply no_setting_refers; exact Hne).
    cbn [orb]. rewrite andb_false_r. reflexivity.
  - reflexivity.
  - apply files_moved.
  - apply settings_moved.
Qed.

(** The two ways [handleDeleteCategoryRequest] ends: it refuses and leaves
    the rows as they are, or it re-parents to a default category [dflt]
    and deletes. *)
Lemma delete_category_outcome
    (ext : Ext) (config : Config) (token : Token) (id : Z) (w : World) :
  enableAuth config && negb (authenticate token ext config) = false ->
  Forall (fun cat => 0 < Category.id cat) (categories (db w)) ->
  exists response w',
    handleDeleteCategoryRequest ext config token (Some id) w = (Ok response, w')
    /\ ((db w' = db w
         /\ ((exists cat, Query.find_category_by_id_and_name id default_category_name (db w) = Some cat)
             /\ response = mkResponse 403 (Json 0 MDefaultNotDeletable)
             \/ Query.find_category_by_id_and_name id default_category_name (db w) = None
                /\ (id = 0 \/ Query.find_category_by_id id (db w) = None)))
        \/ (exists category dflt cats,
              Query.find_category_by_id_and_name id default_category_name (db w) = None
              /\ Query.find_category_by_id id (db w) = Some category
              /\ dflt ∈ cats
              /\ Category.name dflt = default_category_name
              /\ Category.id dflt <> id
              /\ (cats = categories (db w) \/ cats = categories (db w) ++ [dflt])
              /\ categories (db w') = filter (fun c => negb (Category.id c =? id)) cats
              /\ Forall2 (file_moved id (Category.id dflt)) (files (db w)) (files (db w'))
              /\ Forall2 (setting_moved id (Category.id dflt))
                         (user_settings (db w)) (user_settings (db w'))
              /\ response = json 1 (MCategoryDeleted (Category.name category) true))).
Proof.
  intros Hauth Hpos.
  unfold handleDeleteCategoryRequest. rewrite Hauth. run.
  destruct (Z.eqb id 0) eqn:Hzero; run.
  { apply Z.eqb_eq in Hzero. subst id.
    eexists _, _. split; [reflexivity|]. left. split; [reflexivity|].
    destruct (Query.find_category_by_id_and_name 0 default_category_name (db w)) as [cat|] eqn:Hd.
    - exfalso. apply find_Some_elem in Hd as [Hin Hp].
      apply andb_true_iff in Hp as [Hid _]. apply Z.eqb_eq in Hid.
      rewrite Forall_forall in Hpos. specialize (Hpos cat Hin). lia.
    - right. split; [reflexivity | left; reflexivity]. }
  destruct (Query.find_category_by_id_and_name id default_category_name (db w)) as [cat|] eqn:Hd; run.
  { eexists _, _. split; [reflexivity|]. left. split; [reflexivity|].
    left. split; [eauto | reflexivity]. }
  destruct (Query.find_category_by_id id (db w)) as [category|] eqn:Hcat; run.
  2:{ eexists _, _. split; [reflexivity|]. left. split; [reflexivity|].
      right. split; [reflexivity | right; reflexivity]. }
  assert (Hin_cat : category ∈ categories (db w) /\ Category.id category = id).
  { apply find_Some_elem in Hcat as [Hin Hp]. apply Z.eqb_eq in Hp. auto. }
  destruct Hin_cat as [Hin_cat Hid_cat].
  destruct (Query.find_category default_category_name (db w)) as [dflt|] eqn:Hdflt; run.
  - apply find_Some_elem in Hdflt as [Hin Hname]. apply String.eqb_eq in Hname.
    assert (Hne : Category.id dflt <> id).
    { intros Heq. pose proof (find_None_elem _ _ dflt Hd Hin) as Hf.
      simpl in Hf. rewrite Heq, Z.eqb_refl, Hname, String.eqb_refl in Hf. discriminate. }
    assert (Htruthy : Js.truthyZ (Some (Category.id dflt)) = true).
    { simpl. apply negb_true_iff, Z.eqb_neq.
      rewrite Forall_forall in Hpos. specialize (Hpos dflt Hin). lia. }
    rewrite Htruthy. run.
    destruct (reparent_and_delete id dflt (db w) Hin Hne)
      as (d1 & d2 & d3 & E1 & E2 & E3 & Hcats & Hfiles & Hus).
    rewrite E1. run. rewrite E2. run. rewrite E3. run.
    eexists _, _. split; [reflexivity|]. right.
    exists category, dflt, (categories (db w)). wsimpl.
    repeat split; try assumption; try (left; reflexivity).
  - unfold Query.insert_category. rewrite Hdflt.
    cbn [Query.insert_category_row]. run.
    set (new_id := Query.next_id (map Category.id (categories (db w)))).
    assert (Hnew : 0 < new_id) by apply next_id_positive.
    assert (Hz : Z.eqb new_id 0 = false) by (apply Z.eqb_neq; lia).
    rewrite Hz. unfold Js.truthyZ. rewrite Hz. cbn [negb]. run.
    set (dflt := Category.mk new_id default_category_name (Some (now ext))).
    assert (Hne : Category.id dflt <> id).
    { simpl. intros Heq.
      assert (id < new_id); [|lia].
      apply next_id_above. rewrite <- Hid_cat.
      apply list_elem_of_fmap. eauto. }
    assert (Hin : dflt ∈ categories (set_categories (categories (db w) ++ [dflt]) (db w))).
    { simpl. apply elem_of_app. right. apply list_elem_of_singleton. reflexivity. }
    destruct (reparent_and_delete id dflt _ Hin Hne)
      as (d1 & d2 & d3 & E1 & E2 & E3 & Hcats & Hfiles & Hus).
    change (Category.id dflt) with new_id in E1, E2.
    rewrite E1. run. rewrite E2. run. rewrite E3. run.
    eexists _, _. split; [reflexivity|]. right.
    exists category, dflt, (categories (db w) ++ [dflt]). wsimpl.
    repeat split; try assumption.
    right. reflexivity.
Qed.
Lemma is_default_found (id : Z) (d : Db) :
  is_default_category id d <->
  exists cat, Query.find_category_by_id_and_name id default_category_name d = Some cat.
Proof.
  unfold is_default_category, Query.find_category_by_id_and_name. split.
  - intros (cat & Hin & Hid & Hname).
    apply (find_is_Some _ _ cat Hin).
    rewrite Hid, Hname, Z.eqb_refl, String.eqb_refl. reflexivity.
  - intros (cat & Hf). apply find_Some_elem in Hf as [Hin Hp].
    apply andb_true_iff in Hp as [Hid Hname].
    apply Z.eqb_eq in Hid. apply String.eqb_eq in Hname. eauto.
Qed.

Lemma Forall2_elem_r {A B} (R : A -> B -> Prop) (l : list A) (k : list B) (y : B) :
  Forall2 R l k -> y ∈ k -> exists x, x ∈ l /\ R x y.
Proof.
  induction 1 as [|x y' l k Hxy _ IH]; intros Hy; [inversion Hy|].
  apply elem_of_cons in Hy as [-> | Hy].
  - exists x. split; [left | exact Hxy].
  - destruct (IH Hy) as (x' & Hin & HR). exists x'. split; [right; exact Hin | exact HR].
Qed.

Lemma file_moved_category (from to : Z) (f f' : File.t) :
  to <> from -> file_moved from to f f' ->
  File.category_id f' <> Some from
  /\ (File.category_id f' = File.category_id f \/ File.category_id f' = Some to).
Proof.
  intros Hne [Hmove Hkeep].
  destruct (decide (File.category_id f = Some from)) as [Heq | Hneq].
  - rewrite (Hmove Heq). simpl. split; [congruence | right; reflexivity].
  - rewrite (Hkeep Hneq). split; [exact Hneq | left; reflexivity].
Qed.

Lemma setting_moved_category (from to : Z) (u u' : UserSetting.t) :
  to <> from -> setting_moved from to u u' ->
  UserSetting.current_category_id u' <> Some from.
Proof.
  intros Hne [Hmove Hkeep].
  destruct (decide (UserSetting.current_category_id u = Some from)) as [Heq | Hneq].
  - rewrite (Hmove Heq). simpl. congruence.
  - rewrite (Hkeep Hneq). exact Hneq.
Qed.

(** C6. [/delete-category] on the key of the default category is refused
    (403) and changes no row, so the default category is never deleted.
    Deleting any other category that exists re-points to a category
    bearing the default name (created if it was missing) and then deletes:
    row by row, every file and every user setting of the deleted category
    is the same row with the default category in its place, and every
    other file and user setting is as it was; the categories are those
    there were, with the default one, less the deleted one.  No file is
    left with a [category_id] that names no category. *)
Theorem C6_delete_category_spares_default_and_reparents
    (ext : Ext) (config : Config) (token : Token) (id : Z) (w : World) :
  enableAuth config && negb (authenticate token ext config) = false ->
  Forall (fun cat => 0 < Category.id cat) (categories (db w)) ->
  exists response w',
    handleDeleteCategoryRequest ext config token (Some id) w = (Ok response, w')
    /\ (is_default_category id (db w) ->
          response = mkResponse 403 (Json 0 MDefaultNotDeletable) /\ db w' = db w)
    /\ (forall cat, cat ∈ categories (db w) ->
          Category.name cat = default_category_name -> cat ∈ categories (db w'))
    /\ (forall cat, Query.find_category_by_id id (db w) = Some cat ->
          ~ is_default_category id (db w) ->
          exists dflt,
            response = json 1 (MCategoryDeleted (Category.name cat) true)
            /\ dflt ∈ categories (db w')
            /\ Category.name dflt = default_category_name
            /\ Forall2 (file_moved id (Category.id dflt)) (files (db w)) (files (db w'))
            /\ Forall2 (setting_moved id (Category.id dflt))
                       (user_settings (db w)) (user_settings (db w'))
            /\ (forall c, c ∈ categories (db w') <->
                          (c ∈ categories (db w) \/ c = dflt) /\ Category.id c <> id)
            /\ (forall f, f ∈ files (db w') -> File.category_id f <> Some id)
            /\ (forall u, u ∈ user_settings (db w') ->
                          UserSetting.current_category_id u <> Some id))
    /\ (no_dangling (db w) -> no_dangling (db w')).
Proof.
  intros Hauth Hpos.
  destruct (delete_category_outcome ext config token id w Hauth Hpos)
    as (response & w' & Hrun & Hout).
  exists response, w'. split; [exact Hrun|].
  destruct Hout as [[Hdb Hwhy]
                   | (category & dflt & cats & Hd & Hcat & Hin & Hname & Hne & Hcats
                      & Hcats' & Hfiles & Hus & Hresp)].
  - rewrite Hdb. repeat split; try tauto.
    + destruct Hwhy as [[_ ->] | [Hnone _]]; [reflexivity|].
      apply is_default_found in H as [cat Hf]. congruence.
    + intros cat Hfound Hnd. exfalso.
      destruct Hwhy as [[Hex _] | [_ [-> | Hnone]]].
      * apply Hnd, is_default_found, Hex.
      * apply find_Some_elem in Hfound as [Hin Hid]. apply Z.eqb_eq in Hid.
        rewrite Forall_forall in Hpos. specialize (Hpos cat Hin). lia.
      * congruence.
  - assert (Hmem : forall c, c ∈ categories (db w') <-> c ∈ cats /\ Category.id c <> id).
    { intros c. rewrite Hcats', list_elem_of_filter.
      rewrite <- Z.eqb_neq, <- negb_true_iff, Is_true_true. tauto. }
    assert (Hsub : forall cat, cat ∈ categories (db w) -> cat ∈ cats).
    { intros cat Hc. destruct Hcats as [-> | ->]; [assumption|].
      apply elem_of_app. left. assumption. }
    assert (Hcats_iff : forall c, c ∈ cats <-> c ∈ categories (db w) \/ c = dflt).
    { intros c. destruct Hcats as [-> | ->].
      - split; [tauto|]. intros [Hc | ->]; assumption.
      - rewrite elem_of_app, list_elem_of_singleton. tauto. }
    split; [|split; [|split]].
    + intros Hdef. exfalso. apply is_default_found in Hdef as [cat Hf]. congruence.
    + intros cat Hc Hn. apply Hmem. split; [auto|].
      intros Hid. pose proof (find_None_elem _ _ cat Hd Hc) as Hf. simpl in Hf.
      rewrite Hid, Z.eqb_refl, Hn, String.eqb_refl in Hf. discriminate.
    + intros cat Hfound _. exists dflt.
      assert (cat = category) as -> by congruence.
      split; [exact Hresp|]. split; [apply Hmem; auto|].
      split; [exact Hname|]. split; [exact Hfiles|]. split; [exact Hus|].
      split; [|split].
      * intros c. rewrite Hmem, Hcats_iff. tauto.
      * intros f Hf. destruct (Forall2_elem_r _ _ _ f Hfiles Hf) as (f0 & _ & Hmoved).
        apply (file_moved_category id (Category.id dflt) f0 f Hne Hmoved).
      * intros u Hu. destruct (Forall2_elem_r _ _ _ u Hus Hu) as (u0 & _ & Hmoved).
        apply (setting_moved_category id (Category.id dflt) u0 u Hne Hmoved).
    + intros Hnd f c Hf Hc.
      destruct (Forall2_elem_r _ _ _ f Hfiles Hf) as (f0 & Hf0 & Hmoved).
      destruct (file_moved_category id (Category.id dflt) f0 f Hne Hmoved) as [Hnot [Hsame | Hto]].
      * rewrite Hsame in Hc. destruct (Hnd f0 c Hf0 Hc) as (cat & Hcat_in & Hid).
        exists cat. split; [|exact Hid]. apply Hmem. split; [auto|].
        rewrite Hid. intros ->. rewrite <- Hsame in Hc. contradiction.
      * exists dflt. split; [apply Hmem; auto | congruence].
Qed.








Lemma delete_file_spared (id : Z) (d : Db) :
  files (Query.delete_file id d) = filter (spared [id]) (files d).
Proof.
  unfold Query.delete_file, spared. simpl. apply list_filter_iff. intros r.
  rewrite orb_false_r. reflexivity.
Qed.








Lemma find_first_match (p : File.t -> bool) (rows : list File.t) (r : File.t) :
  find p rows = Some r <-> first_match p rows r.
Proof.
  split.
  - induction rows as [|x rows IH]; intros Hf; [discriminate|].
    simpl in Hf. destruct (p x) eqn:Hp.
    + injection Hf as ->. exists [], rows. repeat split; [assumption | constructor].
    + destruct (IH Hf) as (before & after & -> & Hr & Hall).
      exists (x :: before), after. repeat split; [assumption|]. constructor; assumption.
  - intros (before & after & -> & Hr & Hall).
    induction before as [|x before IH]; simpl.
    + rewrite Hr. reflexivity.
    + inversion Hall as [|? ? Hx Hrest]; subst. rewrite Hx. apply IH, Hrest.
Qed.

Lemma find_None_iff (p : File.t -> bool) (rows : list File.t) :
  find p rows = None <-> forall r, r ∈ rows -> p r = false.
Proof.
  split.
  - intros Hf r Hin. eapply find_None_elem; eassumption.
  - intros Hall. destruct (find p rows) as [r|] eqn:Hf; [|reflexivity].
    apply find_Some_elem in Hf as [Hin Hp]. rewrite (Hall r Hin) in Hp. discriminate.
Qed.

Lemma newest_spec (rows : list File.t) :
  match Query.newest rows with
  | Some r => r ∈ rows /\ forall r', r' ∈ rows -> File.created_at r' <= File.created_at r
  | None => rows = []
  end.
Proof.
  induction rows as [|f rows IH]; [reflexivity|].
  simpl. destruct (Query.newest rows) as [g|].
  - destruct IH as [Hg Hmax].
    destruct (File.created_at f <? File.created_at g) eqn:Hlt.
    + apply Z.ltb_lt in Hlt. split; [right; assumption|].
      intros r' Hr'. apply elem_of_cons in Hr' as [-> | Hr']; [lia | auto].
    + apply Z.ltb_ge in Hlt. split; [left|].
      intros r' Hr'. apply elem_of_cons in Hr' as [-> | Hr']; [lia|].
      specialize (Hmax r' Hr'). lia.
  - subst rows. split; [left|].
    intros r' Hr'. apply elem_of_cons in Hr' as [-> | Hr']; [lia | inversion Hr'].
Qed.

Lemma lookup_for_serving_run (config : Config) (path : string) (w : World) :
  exists reads,
    lookup_for_serving config path w
      = (Ok (match Query.find_file_by_url (url_of config path) (db w) with
             | Some r => Some r
             | None =>
                 match Query.find_file_by_fileId path (db w) with
                 | Some r => Some r
                 | None => Query.find_file_by_file_name (Js.pop (Js.split "/" path)) (db w)
                 end
             end),
         set_trace (trace w ++ reads) w)
    /\ Forall (fun e => is_db_read e = true) reads.
Proof.
  unfold lookup_for_serving. run.
  destruct (Query.find_file_by_url (url_of config path) (db w)); run.
  - exists [DbRead "files"]. split; [reflexivity | repeat constructor].
  - destruct (Query.find_file_by_fileId path (db w)); run.
    + exists [DbRead "files"; DbRead "files"]. rewrite <- app_assoc.
      split; [reflexivity | repeat constructor].
    + exists [DbRead "files"; DbRead "files"; DbRead "files"]. rewrite <- !app_assoc.
      split; [reflexivity | repeat constructor].
Qed.

Lemma lookup_for_delete_run (id fileId : option string) (w : World) :
  exists reads,
    lookup_for_delete id fileId w
      = (Ok (match (if Js.truthy id && Js.startsWith (default "" id) "http"
                    then Query.find_file_by_url (default "" id) (db w)
                    else if Js.truthy id
                    then match Z_of_string (default "" id) with
                         | Some n => Query.find_file_by_id n (db w)
                         | None => None
                         end
                    else None) with
             | Some r => Some r
             | None =>
                 if Js.truthy fileId
                 then Query.find_file_by_fileId (default "" fileId) (db w)
                 else None
             end),
         set_trace (trace w ++ reads) w)
    /\ Forall (fun e => is_db_read e = true) reads.
Proof.
  assert (Hid : set_trace (trace w ++ []) w = w).
  { rewrite app_nil_r. destruct w; reflexivity. }
  unfold lookup_for_delete. run.
  destruct (Js.truthy id && Js.startsWith (default "" id) "http"); run;
    [|destruct (Js.truthy id); run].
  1: destruct (Query.find_file_by_url (default "" id) (db w)); run.
  3: destruct (match Z_of_string (default "" id) with
               | Some n => Query.find_file_by_id n (db w)
               | None => None
               end); run.
  all: try (exists [DbRead "files"]; split; [reflexivity | repeat constructor]).
  all: destruct (Js.truthy fileId); run.
  all: try (exists [DbRead "files"; DbRead "files"]; rewrite <- app_assoc;
            split; [reflexivity | repeat constructor]).
  all: try (exists [DbRead "files"]; split; [reflexivity | repeat constructor]).
  all: exists []; rewrite Hid; split; [reflexivity | constructor].
Qed.

Lemma resolve_input_run (chatId userInput : string) (w : World) :
  exists reads,
    resolve_input chatId userInput w
      = (Ok (if Js.startsWith userInput "http://" || Js.startsWith userInput "https://"
             then Some (Query.find_file_by_url_of_chat userInput chatId (db w))
             else if negb (Js.includes userInput ".") then None
             else Some (Query.find_newest_by_name_of_chat userInput chatId (db w))),
         set_trace (trace w ++ reads) w)
    /\ Forall (fun e => is_db_read e = true) reads.
Proof.
  assert (Hid : set_trace (trace w ++ []) w = w).
  { rewrite app_nil_r. destruct w; reflexivity. }
  unfold resolve_input.
  destruct (Js.startsWith userInput "http://" || Js.startsWith userInput "https://"); run.
  - exists [DbRead "files"]. split; [reflexivity | repeat constructor].
  - destruct (negb (Js.includes userInput ".")); run.
    + exists []. rewrite Hid. split; [reflexivity | constructor].
    + exists [DbRead "files"]. split; [reflexivity | repeat constructor].
Qed.

Lemma first_or_none (p : File.t -> bool) (rows : list File.t) :
  match find p rows with
  | Some r => first_match p rows r
  | None => forall r, r ∈ rows -> p r = false
  end.
Proof.
  destruct (find p rows) as [r|] eqn:Hf.
  - apply find_first_match, Hf.
  - apply find_None_iff, Hf.
Qed.

(** C3 (as amended). Each path resolves a token in its own order.
    File serving tries the exact URL, then the raw [fileId], then the
    [file_name], and takes the first matching row in table order at each
    step.  The delete and rename prompts of the bot look only at the files
    of the chat: a text that starts with [http://] or [https://] by exact
    URL, any other text (it must contain a dot) by [file_name] or end of
    URL, the most recently created match winning.  The admin delete
    resolves by URL or key and then by [fileId], the admin rename by URL
    and then by [fileId]; neither falls back to the file name. *)
Theorem C3_lookup_order_of_each_path (config : Config) (w : World) :
  let rows := files (db w) in
  (forall path,
      let by_url r := String.eqb (File.url r) (url_of config path) in
      let by_ref r := Js.opt_eqb (File.fileId r) path in
      let by_name r := Js.opt_eqb (File.file_name r) (Js.pop (Js.split "/" path)) in
      exists result,
        fst (lookup_for_serving config path w) = Ok result
        /\ match result with
           | Some r =>
               first_match by_url rows r
               \/ (forall x, x ∈ rows -> by_url x = false) /\ first_match by_ref rows r
               \/ (forall x, x ∈ rows -> by_url x = false) /\ (forall x, x ∈ rows -> by_ref x = false)
                  /\ first_match by_name rows r
           | None =>
               forall x, x ∈ rows -> by_url x = false /\ by_ref x = false /\ by_name x = false
           end)
  /\ (forall chatId userInput,
      exists result,
        fst (resolve_input chatId userInput w) = Ok result
        /\ if Js.startsWith userInput "http://" || Js.startsWith userInput "https://" then
             match result with
             | Some (Some r) =>
                 first_match (fun x => String.eqb (File.url x) userInput
                                       && Js.opt_eqb (File.chat_id x) chatId) rows r
             | Some None =>
                 forall x, x ∈ rows ->
                   String.eqb (File.url x) userInput && Js.opt_eqb (File.chat_id x) chatId = false
             | None => False
             end
           else if Js.includes userInput "." then
             match result with
             | Some (Some r) =>
                 r ∈ rows /\ matches_name_of_chat userInput chatId r = true
                 /\ forall x, x ∈ rows -> matches_name_of_chat userInput chatId x = true ->
                      File.created_at x <= File.created_at r
             | Some None =>
                 forall x, x ∈ rows -> matches_name_of_chat userInput chatId x = false
             | None => False
             end
           else result = None)
  /\ (forall id fileId,
      let by_id r :=
        if Js.truthy id && Js.startsWith (default "" id) "http"
        then String.eqb (File.url r) (default "" id)
        else if Js.truthy id
        then match Z_of_string (default "" id) with
             | Some n => Z.eqb (File.id r) n
             | None => false
             end
        else false in
      let by_ref r := Js.truthy fileId && Js.opt_eqb (File.fileId r) (default "" fileId) in
      exists result,
        fst (lookup_for_delete id fileId w) = Ok result
        /\ match result with
           | Some r =>
               first_match by_id rows r
               \/ (forall x, x ∈ rows -> by_id x = false) /\ first_match by_ref rows r
           | None => forall x, x ∈ rows -> by_id x = false /\ by_ref x = false
           end)
  /\ (forall url,
      let by_url r := String.eqb (File.url r) url in
      let by_ref r := Js.opt_eqb (File.fileId r) (getFileName url) in
      exists result,
        fst (lookup_for_rename url w) = Ok result
        /\ match result with
           | Some r =>
               first_match by_url rows r
               \/ (forall x, x ∈ rows -> by_url x = false) /\ first_match by_ref rows r
           | None => forall x, x ∈ rows -> by_url x = false /\ by_ref x = false
           end).
Proof.
  intros rows. split; [|split; [|split]].
  - intros path by_url by_ref by_name.
    destruct (lookup_for_serving_run config path w) as (reads & Hrun & _).
    rewrite Hrun. eexists. split; [reflexivity|].
    unfold Query.find_file_by_url, Query.find_file_by_fileId, Query.find_file_by_file_name.
    fold rows. fold by_url by_ref by_name.
    pose proof (first_or_none by_url rows) as Hu.
    pose proof (first_or_none by_ref rows) as Hr.
    pose proof (first_or_none by_name rows) as Hn.
    destruct (find by_url rows); [left; exact Hu|].
    destruct (find by_ref rows); [right; left; auto|].
    destruct (find by_name rows); [right; right; auto|].
    intros x Hx. auto.
  - intros chatId userInput.
    destruct (resolve_input_run chatId userInput w) as (reads & Hrun & _).
    rewrite Hrun. eexists. split; [reflexivity|]. cbn [fst].
    destruct (Js.startsWith userInput "http://" || Js.startsWith userInput "https://").
    + unfold Query.find_file_by_url_of_chat. fold rows.
      apply (first_or_none (fun x => String.eqb (File.url x) userInput
                                     && Js.opt_eqb (File.chat_id x) chatId) rows).
    + destruct (Js.includes userInput "."); cbn [negb]; [|reflexivity].
      unfold Query.find_newest_by_name_of_chat. fold rows.
      change (filter _ rows) with (filter (matches_name_of_chat userInput chatId) rows).
      pose proof (newest_spec (filter (matches_name_of_chat userInput chatId) rows)) as Hn.
      destruct (Query.newest (filter (matches_name_of_chat userInput chatId) rows)) as [r|].
      * destruct Hn as [Hin Hmax]. apply list_elem_of_filter in Hin as [Hm Hin].
        apply Is_true_true in Hm. repeat split; [assumption..|].
        intros x Hx Hmx. apply Hmax, list_elem_of_filter. split; [apply Is_true_true, Hmx | exact Hx].
      * intros x Hx. destruct (matches_name_of_chat userInput chatId x) eqn:Hm; [|reflexivity].
        exfalso. assert (Hin : x ∈ filter (matches_name_of_chat userInput chatId) rows).
        { apply list_elem_of_filter. split; [apply Is_true_true, Hm | exact Hx]. }
        rewrite Hn in Hin. inversion Hin.
  - intros id fileId by_id by_ref.
    destruct (lookup_for_delete_run id fileId w) as (reads & Hrun & _).
    rewrite Hrun. eexists. split; [reflexivity|].
    unfold Query.find_file_by_url, Query.find_file_by_id, Query.find_file_by_fileId. fold rows.
    pose proof (first_or_none by_id rows) as Hi.
    pose proof (first_or_none by_ref rows) as Hr.
    assert (Hsame_id :
              (if Js.truthy id && Js.startsWith (default "" id) "http"
               then find (fun f => String.eqb (File.url f) (default "" id)) rows
               else if Js.truthy id
               then match Z_of_string (default "" id) with
                    | Some n => find (fun f => File.id f =? n) rows
                    | None => None
                    end
               else None) = find by_id rows).
    { unfold by_id.
      destruct (Js.truthy id && Js.startsWith (default "" id) "http"); [reflexivity|].
      destruct (Js.truthy id); [|symmetry; apply find_None_iff; reflexivity].
      destruct (Z_of_string (default "" id)); [reflexivity|].
      symmetry. apply find_None_iff. reflexivity. }
    assert (Hsame_ref :
              (if Js.truthy fileId
               then find (fun f => Js.opt_eqb (File.fileId f) (default "" fileId)) rows
               else None) = find by_ref rows).
    { unfold by_ref. destruct (Js.truthy fileId); [reflexivity|].
      symmetry. apply find_None_iff. reflexivity. }
    rewrite Hsame_id, Hsame_ref.
    destruct (find by_id rows); [left; exact Hi|].
    destruct (find by_ref rows); [right; auto|].
    intros x Hx. auto.
  - intros url by_url by_ref.
    destruct (lookup_for_rename_run url w) as (reads & Hrun & _).
    rewrite Hrun. eexists. split; [reflexivity|]. cbn [fst].
    unfold rename_target, Query.find_file_by_url, Query.find_file_by_fileId. fold rows.
    fold by_url by_ref.
    pose proof (first_or_none by_url rows) as Hu.
    pose proof (first_or_none by_ref rows) as Hr.
    destruct (find by_url rows); [left; exact Hu|].
    destruct (find by_ref rows); [right; auto|].
    intros x Hx. auto.
Qed.
Section SchemaFacts.
Import Schema.

Ltac srun :=
  cbv beta iota zeta delta [bind ret try_catch throw get modify on_table table_info];
  cbn [fst snd rows t_categories t_user_settings t_files].

Lemma table_of_set_table_same (t : Tbl) v s : table_of t (set_table t v s) = v.
Proof. destruct t; reflexivity. Qed.

Lemma table_of_set_table_other (t t' : Tbl) v s :
  t <> t' -> table_of t' (set_table t v s) = table_of t' s.
Proof. destruct t, t'; intros Hne; try reflexivity; contradiction. Qed.

Lemma rows_set_table (t : Tbl) v s : rows (set_table t v s) = rows s.
Proof. destruct t; reflexivity. Qed.

Lemma set_table_same (t : Tbl) cols s : table_of t s = Some cols -> set_table t (Some cols) s = s.
Proof. destruct t, s; simpl; intros ->; reflexivity. Qed.

Lemma set_table_set_table (t : Tbl) v v' s :
  set_table t v (set_table t v' s) = set_table t v s.
Proof. destruct t; reflexivity. Qed.

Lemma has_column_app (cols more : list Column) (name : string) :
  has_column cols name = true -> has_column (cols ++ more) name = true.
Proof.
  unfold has_column. rewrite existsb_app. intros ->. reflexivity.
Qed.

Lemma has_column_last (cols : list Column) (c : Column) :
  has_column (cols ++ [c]) (col_name c) = true.
Proof.
  unfold has_column. rewrite existsb_app. simpl.
  unfold same_name. rewrite String.eqb_refl. simpl. apply orb_true_r.
Qed.

Lemma found_has_column (cols : list Column) (e : Column) :
  found cols e = true -> has_column cols (col_name e) = true.
Proof.
  unfold found, has_column. intros Hf.
  apply existsb_exists in Hf as (c & Hin & Hc). apply andb_true_iff in Hc as [Hn _].
  apply existsb_exists. eauto.
Qed.

(** A column added by [ALTER TABLE] asks nothing of an [INSERT]. *)
Lemma unprovided_ok_last (provided : list string) (cols : list Column) (c : Column) :
  col_notnull c = false ->
  unprovided_ok provided (cols ++ [c]) = unprovided_ok provided cols.
Proof.
  intros Hc. unfold unprovided_ok. rewrite forallb_app. simpl. rewrite Hc. simpl.
  rewrite orb_true_r. simpl. apply andb_true_r.
Qed.

Lemma extends_refl (cols : list Column) : extends cols cols.
Proof. split; auto. Qed.

Lemma add_column_loop (t : Tbl) (actual expected : list Column) :
  Forall (fun e => col_notnull e = false) expected ->
  forall cols s,
    table_of t s = Some cols ->
    (forall e, found actual e = true -> has_column cols (col_name e) = true) ->
    exists cols',
      for_each expected (add_column_step t actual) s = (Ok tt, set_table t (Some cols') s)
      /\ extends cols cols'
      /\ (forall e, e ∈ expected -> has_column cols' (col_name e) = true)
      /\ ((forall e, e ∈ expected -> has_column cols (col_name e) = true) -> cols' = cols).
Proof.
  induction expected as [|e expected IH]; intros Hplain cols s Ht Hsnap.
  - exists cols. simpl. unfold ret. rewrite set_table_same by assumption.
    repeat split; auto. intros e He. inversion He.
  - apply Forall_cons in Hplain as [He Hplain].
    cbn [for_each]. unfold bind at 1, add_column_step at 1.
    destruct (found actual e) eqn:Hfound.
    + unfold ret at 1.
      destruct (IH Hplain cols s Ht Hsnap) as (cols' & Hrun & Hext & Hall & Hsame).
      exists cols'. rewrite Hrun. repeat split; try apply Hext; auto.
      * intros e' He'. apply elem_of_cons in He' as [-> | He']; [|auto].
        apply Hext, Hsnap, Hfound.
      * intros Hc. apply Hsame. intros e' He'. apply Hc. right. assumption.
    + unfold try_catch, alter_table_add_column. rewrite Ht.
      destruct (has_column cols (col_name e)) eqn:Hdup.
      * unfold ret at 1.
        destruct (IH Hplain cols s Ht Hsnap) as (cols' & Hrun & Hext & Hall & Hsame).
        exists cols'. rewrite Hrun. repeat split; try apply Hext; auto.
        -- intros e' He'. apply elem_of_cons in He' as [-> | He']; [|auto].
           apply Hext, Hdup.
        -- intros Hc. apply Hsame. intros e' He'. apply Hc. right. assumption.
      * destruct (IH Hplain (cols ++ [e]) (set_table t (Some (cols ++ [e])) s))
          as (cols' & Hrun & Hext & Hall & Hsame).
        { apply table_of_set_table_same. }
        { intros e' He'. apply has_column_app, Hsnap, He'. }
        exists cols'. rewrite Hrun, set_table_set_table. repeat split.
        -- intros n Hn. apply Hext, has_column_app, Hn.
        -- intros provided. destruct Hext as [_ Hop]. rewrite Hop.
           apply unprovided_ok_last, He.
        -- intros e' He'. apply elem_of_cons in He' as [-> | He']; [|auto].
           apply Hext, has_column_last.
        -- intros Hc. exfalso. rewrite Hc in Hdup; [discriminate | left].
Qed.

Lemma expected_nullable (t : Tbl) : Forall (fun e => col_notnull e = false) (expected_of t).
Proof. destruct t; vm_compute; repeat constructor. Qed.

Lemma add_missing_columns_run (t : Tbl) (s : Store) (cols : list Column) :
  table_of t s = Some cols ->
  exists cols',
    add_missing_columns t (expected_of t) s = (Ok tt, set_table t (Some cols') s)
    /\ extends cols cols'
    /\ (forall e, e ∈ expected_of t -> has_column cols' (col_name e) = true)
    /\ ((forall e, e ∈ expected_of t -> has_column cols (col_name e) = true) -> cols' = cols).
Proof.
  intros Ht. unfold add_missing_columns, bind at 1, table_info. rewrite Ht. cbn [default].
  destruct (add_column_loop t cols (expected_of t) (expected_nullable t) cols s Ht
              (found_has_column cols))
    as (cols' & Hrun & Hext & Hall & Hsame).
  exists cols'. split; [exact Hrun | auto].
Qed.

Lemma complete_present (s : Store) : complete s -> all_tables_present s.
Proof. intros Hc t. destruct (Hc t) as (cols & -> & _). eauto. Qed.

(** The pass over [tableStructures], on a store that has the three
    tables. *)
Lemma column_pass_run (s : Store) :
  all_tables_present s ->
  exists s',
    for_each tableStructures
      (fun '(table, expectedColumns) => add_missing_columns table expectedColumns) s
      = (Ok tt, s')
    /\ rows s' = rows s
    /\ complete s'
    /\ (forall t cols, table_of t s = Some cols ->
          exists cols', table_of t s' = Some cols' /\ extends cols cols')
    /\ (complete s -> s' = s).
Proof.
  intros Hall.
  destruct (Hall Categories) as [c0 Hc0].
  destruct (add_missing_columns_run Categories s c0 Hc0)
    as (c1 & Hrun1 & Hext1 & Hhas1 & Hsame1).
  set (s1 := set_table Categories (Some c1) s) in *.
  destruct (Hall UserSettings) as [u0 Hu0].
  assert (Hu1 : table_of UserSettings s1 = Some u0) by exact Hu0.
  destruct (add_missing_columns_run UserSettings s1 u0 Hu1)
    as (u1 & Hrun2 & Hext2 & Hhas2 & Hsame2).
  set (s2 := set_table UserSettings (Some u1) s1) in *.
  destruct (Hall Files) as [f0 Hf0].
  assert (Hf1 : table_of Files s2 = Some f0) by exact Hf0.
  destruct (add_missing_columns_run Files s2 f0 Hf1)
    as (f1 & Hrun3 & Hext3 & Hhas3 & Hsame3).
  set (s3 := set_table Files (Some f1) s2) in *.
  exists s3.
  split.
  { unfold tableStructures. cbn [for_each]. unfold bind.
    change (add_missing_columns Categories _ s) with
      (add_missing_columns Categories (expected_of Categories) s).
    rewrite Hrun1.
    change (add_missing_columns UserSettings _ s1) with
      (add_missing_columns UserSettings (expected_of UserSettings) s1).
    rewrite Hrun2.
    change (add_missing_columns Files _ s2) with
      (add_missing_columns Files (expected_of Files) s2).
    rewrite Hrun3. reflexivity. }
  split; [reflexivity|]. split; [|split].
  - intros [| |]; [exists c1 | exists u1 | exists f1]; split; auto.
  - intros [| |] cols Hcols.
    + exists c1. split; [reflexivity|]. rewrite Hc0 in Hcols. injection Hcols as <-. exact Hext1.
    + exists u1. split; [reflexivity|]. rewrite Hu0 in Hcols. injection Hcols as <-. exact Hext2.
    + exists f1. split; [reflexivity|]. rewrite Hf0 in Hcols. injection Hcols as <-. exact Hext3.
  - intros Hc.
    destruct (Hc Categories) as (c & Hc1 & Hc2). rewrite Hc0 in Hc1. injection Hc1 as <-.
    destruct (Hc UserSettings) as (u & Hc3 & Hc4). rewrite Hu0 in Hc3. injection Hc3 as <-.
    destruct (Hc Files) as (f & Hc5 & Hc6). rewrite Hf0 in Hc5. injection Hc5 as <-.
    pose proof (Hsame1 Hc2) as E1. pose proof (Hsame2 Hc4) as E2. pose proof (Hsame3 Hc6) as E3.
    subst s3 s2 s1 c1 u1 f1. clear -Hc0 Hu0 Hf0.
    destruct s as [a b c d]. simpl in *. subst. reflexivity.
Qed.

Lemma same_tables_present (s s' : Store) :
  (forall t, table_of t s' = table_of t s) -> all_tables_present s -> all_tables_present s'.
Proof. intros Heq Hall t. rewrite Heq. apply Hall. Qed.

Lemma same_tables_complete (s s' : Store) :
  (forall t, table_of t s' = table_of t s) -> complete s -> complete s'.
Proof. intros Heq Hc t. rewrite Heq. apply Hc. Qed.

Lemma find_category_app_new (name : string) (cats : list Category.t) (c : Category.t) :
  Category.name c = name ->
  exists cat, find (fun x => String.eqb (Category.name x) name) (cats ++ [c]) = Some cat.
Proof.
  intros Hn. apply (find_is_Some _ _ c).
  - apply elem_of_app. right. apply list_elem_of_singleton. reflexivity.
  - rewrite Hn. apply String.eqb_refl.
Qed.

Lemma find_category_None_not_in (name : string) (d : Db) :
  Query.find_category name d = None -> name ∉ map Category.name (categories d).
Proof.
  intros Hf Hin. apply list_elem_of_fmap in Hin as (c & Hn & Hc).
  pose proof (find_None_elem _ _ c Hf Hc) as Hp. simpl in Hp.
  rewrite <- Hn, String.eqb_refl in Hp. discriminate.
Qed.

Lemma unique_after_insert (name : string) (created : option Z) (d : Db) :
  NoDup (map Category.name (categories d)) ->
  Query.find_category name d = None ->
  NoDup (map Category.name (categories (snd (Query.insert_category_row name created d)))).
Proof.
  intros Hnd Hf. simpl. rewrite map_app. simpl.
  apply NoDup_app. split; [exact Hnd|]. split.
  - intros x Hx Hx'. apply list_elem_of_singleton in Hx'. subst x.
    exact (find_category_None_not_in name d Hf Hx).
  - apply NoDup_singleton.
Qed.

(** A statement finds the columns it names. *)
Lemma needs_ok (t : Tbl) (names : list string) (s : Store) (cols : list Column) :
  table_of t s = Some cols ->
  Forall (fun n => has_column cols n = true) names ->
  needs t names s = (Ok tt, s).
Proof.
  intros Ht Hn. unfold needs. rewrite Ht.
  replace (find (fun name => negb (has_column cols name)) names) with (@None string);
    [reflexivity|].
  symmetry. induction Hn as [|n names Hn _ IH]; [reflexivity|].
  simpl. rewrite Hn. exact IH.
Qed.

Lemma complete_needs (t : Tbl) (names : list string) (s : Store) :
  complete s ->
  Forall (fun n => n ∈ map col_name (expected_of t)) names ->
  needs t names s = (Ok tt, s).
Proof.
  intros Hc Hn. destruct (Hc t) as (cols & Ht & Hall).
  apply (needs_ok t names s cols Ht).
  eapply Forall_impl; [exact Hn|]. intros n Hin.
  apply list_elem_of_fmap in Hin as (e & -> & He). apply Hall, He.
Qed.

Ltac expected_names := repeat constructor; vm_compute; set_solver.

Lemma select_default_run (s : Store) :
  complete s ->
  select_default s = (Ok (Category.id <$> Query.find_category default_category_name (rows s)), s).
Proof.
  intros Hc. unfold select_default, bind.
  rewrite (complete_needs Categories) by (assumption || expected_names). reflexivity.
Qed.

Lemma same_tables_needs (t : Tbl) (names : list string) (s s' : Store) :
  (forall t', table_of t' s' = table_of t' s) ->
  needs t names s = (Ok tt, s) -> needs t names s' = (Ok tt, s').
Proof.
  intros Heq. unfold needs. rewrite Heq.
  destruct (table_of t s); [|discriminate].
  destruct (find _ names); [discriminate | reflexivity].
Qed.

Lemma adopt_orphan_files_run (id : Z) (s : Store) :
  complete s ->
  exists d,
    adopt_orphan_files id s = (Ok tt, set_rows d s)
    /\ categories d = categories (rows s).
Proof.
  intros Hc. destruct (complete_present s Hc Files) as [f0 Hf0].
  unfold adopt_orphan_files, bind at 1.
  rewrite (complete_needs Files) by (assumption || expected_names).
  unfold bind, on_table, modify, ret.
  match goal with
  | |- context [(0 <? ?n)%nat] => destruct (0 <? n)%nat
  end.
  - rewrite Hf0. eexists. split; reflexivity.
  - exists (rows s). split; [destruct s|]; reflexivity.
Qed.

Lemma adopt_orphan_settings_run (id : Z) (s : Store) :
  complete s ->
  exists d,
    adopt_orphan_settings id s = (Ok tt, set_rows d s)
    /\ categories d = categories (rows s).
Proof.
  intros Hc. destruct (complete_present s Hc UserSettings) as [f0 Hf0].
  unfold adopt_orphan_settings, bind at 1.
  rewrite (complete_needs UserSettings) by (assumption || expected_names).
  unfold bind, on_table, modify, ret.
  match goal with
  | |- context [(0 <? ?n)%nat] => destruct (0 <? n)%nat
  end.
  - rewrite Hf0. eexists. split; reflexivity.
  - exists (rows s). split; [destruct s|]; reflexivity.
Qed.

Lemma table_of_set_rows (t : Tbl) (d : Db) (s : Store) :
  table_of t (set_rows d s) = table_of t s.
Proof. destruct t; reflexivity. Qed.

Lemma set_rows_present (d : Db) (s : Store) :
  all_tables_present s -> all_tables_present (set_rows d s).
Proof. intros Hall t. rewrite table_of_set_rows. apply Hall. Qed.

Lemma set_rows_complete (d : Db) (s : Store) : complete s -> complete (set_rows d s).
Proof. apply same_tables_complete. intros t. apply table_of_set_rows. Qed.

Lemma ensure_default_run (now : Z) (s : Store) :
  complete s ->
  categories_take_rows s ->
  exists s',
    ensure_default_category now s = (Ok tt, s')
    /\ (forall t, table_of t s' = table_of t s)
    /\ has_default s'
    /\ (has_default s -> s' = s)
    /\ (unique_category_names s -> unique_category_names s').
Proof.
  intros Hc Htake.
  unfold ensure_default_category, bind at 1. rewrite select_default_run by assumption.
  destruct (Query.find_category default_category_name (rows s)) as [cat|] eqn:Hfind;
    cbn [fmap option_fmap option_map].
  - exists s. unfold has_default. rewrite Hfind. repeat split; eauto.
  - unfold try_catch, bind at 1, insert_category, bind at 1.
    rewrite (complete_needs Categories) by (assumption || expected_names).
    destruct (complete_present s Hc Categories) as [c0 Hc0].
    unfold categories_take_rows in Htake.
    change (t_categories s) with (table_of Categories s) in Htake.
    rewrite Hc0 in Htake. destruct Htake as [_ Hfits].
    rewrite Hc0. cbn [default from_option id]. rewrite Hfits.
    cbn [negb]. rewrite Hfind.
    cbn [Query.insert_category_row].
    set (new_id := Query.next_id (map Category.id (categories (rows s)))).
    set (d1 := set_categories _ (rows s)).
    assert (Hz : Z.eqb new_id 0 = false).
    { apply Z.eqb_neq.
      pose proof (next_id_positive (map Category.id (categories (rows s)))).
      subst new_id. lia. }
    rewrite Hz. cbn [negb]. unfold bind at 1.
    assert (Hc1 : complete (set_rows d1 s)) by (apply set_rows_complete, Hc).
    destruct (adopt_orphan_files_run new_id (set_rows d1 s) Hc1) as (d2 & Hrun2 & Hcat2).
    rewrite Hrun2.
    assert (Hc2 : complete (set_rows d2 (set_rows d1 s))) by (apply set_rows_complete, Hc1).
    destruct (adopt_orphan_settings_run new_id _ Hc2) as (d3 & Hrun3 & Hcat3).
    rewrite Hrun3.
    eexists. split; [reflexivity|].
    assert (Hcats : categories d3
                    = categories (rows s) ++ [Category.mk new_id default_category_name (Some now)]).
    { rewrite Hcat3. cbn [rows set_rows]. rewrite Hcat2. reflexivity. }
    split; [intros t; rewrite !table_of_set_rows; reflexivity|].
    split; [|split].
    + unfold has_default, Query.find_category. cbn [rows set_rows]. rewrite Hcats.
      apply find_category_app_new. reflexivity.
    + intros [cat Hcat]. congruence.
    + unfold unique_category_names. cbn [rows set_rows]. rewrite Hcats. intros Hnd.
      exact (unique_after_insert default_category_name (Some now) (rows s) Hnd Hfind).
Qed.

Lemma probe_tables_present (now : Z) (tables : list Tbl) (s : Store) :
  all_tables_present s -> probe_tables now tables s = (Ok false, s).
Proof.
  intros Hall. induction tables as [|t tables IH]; [reflexivity|].
  cbn [probe_tables]. unfold bind at 1, try_catch, on_table.
  destruct (Hall t) as [cols Ht]. rewrite Ht. unfold ret at 1. exact IH.
Qed.

Lemma categories_take_rows_extends (s s' : Store) :
  rows s' = rows s ->
  (forall t cols, table_of t s = Some cols ->
     exists cols', table_of t s' = Some cols' /\ extends cols cols') ->
  all_tables_present s ->
  categories_take_rows s -> categories_take_rows s'.
Proof.
  intros _ Hext Hall Htake. unfold categories_take_rows in *.
  destruct (Hall Categories) as [c0 Hc0].
  destruct (Hext Categories c0 Hc0) as (c1 & Hc1 & [Hhas Hop]).
  change (t_categories s) with (table_of Categories s) in Htake.
  change (t_categories s') with (table_of Categories s').
  rewrite Hc0 in Htake. rewrite Hc1. destruct Htake as [Hname Hfits].
  split; [apply Hhas, Hname | rewrite Hop; exact Hfits].
Qed.

(** A call of [validateDatabaseStructure] that finds the three tables. *)
Lemma validate_present (now : Z) (s : Store) :
  all_tables_present s ->
  categories_take_rows s ->
  exists s',
    validateDatabaseStructure now s = (Ok true, s')
    /\ complete s'
    /\ has_default s'
    /\ (complete s -> has_default s -> s' = s)
    /\ (unique_category_names s -> unique_category_names s').
Proof.
  intros Hall Htake.
  unfold validateDatabaseStructure, try_catch, bind at 1.
  rewrite probe_tables_present by assumption.
  unfold bind at 1.
  destruct (column_pass_run s Hall) as (s1 & Hrun1 & Hrows1 & Hc1 & Hext1 & Hsame1).
  rewrite Hrun1.
  unfold bind at 1.
  assert (Htake1 : categories_take_rows s1)
    by (apply (categories_take_rows_extends s); assumption).
  destruct (ensure_default_run now s1 Hc1 Htake1)
    as (s2 & Hrun2 & Htab2 & Hd2 & Hsame2 & Hu2).
  rewrite Hrun2.
  assert (Hc2 : complete s2) by (apply (same_tables_complete s1); assumption).
  unfold bind at 1. rewrite select_default_run by exact Hc2.
  destruct Hd2 as [cat Hcat]. rewrite Hcat. cbn [fmap option_fmap option_map].
  exists s2. split; [reflexivity|]. split; [exact Hc2|]. split; [exists cat; exact Hcat|].
  split.
  - intros Hc Hd. rewrite (Hsame1 Hc) in *. apply Hsame2, Hd.
  - intros Hu. apply Hu2. unfold unique_category_names in *. rewrite Hrows1. exact Hu.
Qed.

Lemma create_table_run (t : Tbl) (s : Store) :
  create_table_if_not_exists t s
    = (Ok tt,
       match table_of t s with
       | Some _ => s
       | None => set_rows (clear_rows t (rows s)) (set_table t (Some (created_columns t)) s)
       end).
Proof.
  unfold create_table_if_not_exists, modify. destruct (table_of t s); reflexivity.
Qed.

Lemma created_tables (s : Store) (t : Tbl) :
  table_of t (created s) = Some (default (created_columns t) (table_of t s)).
Proof.
  destruct s as [[c|] [u|] [f|] d], t; reflexivity.
Qed.

Lemma created_categories (s : Store) :
  categories (rows (created s))
  = match t_categories s with Some _ => categories (rows s) | None => [] end.
Proof. destruct s as [[c|] [u|] [f|] d]; reflexivity. Qed.

Lemma filter_default_app (cats : list Category.t) (c : Category.t) :
  Category.name c = default_category_name ->
  length (filter (fun x => String.eqb (Category.name x) default_category_name) (cats ++ [c]))
  = S (length (filter (fun x => String.eqb (Category.name x) default_category_name) cats)).
Proof.
  intros Hn. rewrite filter_app, length_app. rewrite filter_cons.
  rewrite decide_True by (rewrite Hn, String.eqb_refl; exact I).
  simpl. lia.
Qed.

Lemma default_count_none (s : Store) :
  Query.find_category default_category_name (rows s) = None -> default_count s = 0%nat.
Proof.
  unfold default_count, Query.find_category. intros Hf.
  induction (categories (rows s)) as [|c cats IH]; [reflexivity|].
  simpl in Hf. rewrite filter_cons.
  destruct (String.eqb (Category.name c) default_category_name) eqn:Hc; [discriminate|].
  rewrite decide_False by (intros H; exact H). apply IH, Hf.
Qed.

Lemma default_count_one (s : Store) :
  unique_category_names s -> has_default s -> default_count s = 1%nat.
Proof.
  unfold unique_category_names, has_default, default_count, Query.find_category.
  generalize (categories (rows s)) as cats. intros cats Hnd [cat Hf].
  induction cats as [|c cats IH]; [discriminate|].
  simpl in Hf, Hnd. apply NoDup_cons in Hnd as [Hnot Hnd].
  rewrite filter_cons.
  destruct (String.eqb_spec (Category.name c) default_category_name) as [Heq | Hne].
  - rewrite decide_True by exact I. simpl. f_equal.
    apply length_zero_iff_nil.
    destruct (filter _ cats) as [|x rest] eqn:Hfil; [reflexivity|].
    exfalso. assert (Hx : x ∈ filter (fun c0 => String.eqb (Category.name c0) default_category_name) cats).
    { rewrite Hfil. left. }
    apply list_elem_of_filter in Hx as [Hp Hin]. apply Is_true_true, String.eqb_eq in Hp.
    apply Hnot. rewrite Heq, <- Hp. apply list_elem_of_fmap. eauto.
  - rewrite decide_False by (intros H; exact H). apply IH; assumption.
Qed.

(** [recreateAllTables]: the missing tables are created as the statements
    lay them out, the others are left as they are, and the default
    category is inserted when it is not there and a row that gives only
    its name fits the table. *)
Lemma recreateAllTables_run (now : Z) (s : Store) :
  categories_take_rows s ->
  unique_category_names s ->
  exists s',
    recreateAllTables now s = (Ok true, s')
    /\ (forall t, table_of t s' = Some (default (created_columns t) (table_of t s)))
    /\ unique_category_names s'
    /\ categories_take_rows s'
    /\ default_count s'
       = (if (0 <? default_count (created s))%nat || named_row_fits s then 1 else 0)%nat.
Proof.
  intros Htake Hu.
  unfold recreateAllTables, try_catch, bind at 1. rewrite create_table_run.
  unfold bind at 1. rewrite create_table_run.
  unfold bind at 1. rewrite create_table_run.
  fold (created s).
  pose proof (created_tables s Categories) as Hc3.
  set (cols3 := default (created_columns Categories) (table_of Categories s)) in *.
  assert (Htake3 : has_column cols3 "name" = true
                   /\ unprovided_ok ["name"; "created_at"] cols3 = true).
  { subst cols3. unfold categories_take_rows in Htake.
    destruct s as [[c|] u f d]; cbn in *; auto. }
  assert (Hfits3 : unprovided_ok ["name"] cols3 = named_row_fits s).
  { subst cols3. unfold named_row_fits. destruct s as [[c|] u f d]; reflexivity. }
  assert (Htakes : forall d, categories_take_rows (set_rows d (created s))).
  { intros d. unfold categories_take_rows.
    change (t_categories (set_rows d (created s))) with (table_of Categories (created s)).
    rewrite Hc3. exact Htake3. }
  assert (Hsame : set_rows (rows (created s)) (created s) = created s)
    by (destruct (created s); reflexivity).
  assert (Hu3 : unique_category_names (created s)).
  { unfold unique_category_names in *. rewrite created_categories.
    destruct (t_categories s); [exact Hu | constructor]. }
  destruct Htake3 as [Hname Hboth].
  unfold bind at 1, insert_or_ignore_default, bind at 1.
  rewrite (needs_ok Categories ["name"] (created s) _ Hc3) by (repeat constructor; exact Hname).
  unfold modify. rewrite Hc3. cbn [default from_option id]. rewrite Hfits3.
  destruct (Query.find_category default_category_name (rows (created s))) as [cat|] eqn:Hfind.
  - exists (created s). split; [reflexivity|]. split; [apply created_tables|].
    split; [exact Hu3|]. split; [rewrite <- Hsame; apply Htakes|].
    rewrite (default_count_one (created s) Hu3) by (exists cat; exact Hfind).
    reflexivity.
  - rewrite (default_count_none (created s) Hfind). cbn [Nat.ltb Nat.leb orb].
    destruct (named_row_fits s).
    + eexists. split; [reflexivity|].
      split; [intros t; rewrite table_of_set_rows; apply created_tables|].
      split; [|split; [apply Htakes|]].
      * unfold unique_category_names. cbn [rows set_rows].
        apply unique_after_insert; [exact Hu3 | exact Hfind].
      * unfold default_count. cbn [rows set_rows Query.insert_category_row snd
                                     categories set_categories].
        rewrite filter_default_app by reflexivity.
        fold (default_count (created s)). rewrite (default_count_none _ Hfind). reflexivity.
    + exists (created s). split; [reflexivity|]. split; [apply created_tables|].
      split; [exact Hu3|]. split; [rewrite <- Hsame; apply Htakes|].
      apply default_count_none, Hfind.
Qed.

(** A call of [validateDatabaseStructure] that finds a table missing ends
    with [recreateAllTables]. *)
Lemma validate_missing (now : Z) (s : Store) :
  ~ all_tables_present s ->
  categories_take_rows s ->
  unique_category_names s ->
  validateDatabaseStructure now s = (Ok true, snd (recreateAllTables now s)).
Proof.
  intros Hmiss Htake Hu.
  destruct (recreateAllTables_run now s Htake Hu) as (s' & Hrun & _).
  unfold validateDatabaseStructure, try_catch, bind at 1.
  cbn [probe_tables]. unfold bind, try_catch, on_table, ret.
  destruct (table_of Categories s) eqn:Hc; [|rewrite Hrun; reflexivity].
  destruct (table_of UserSettings s) eqn:Hus; [|rewrite Hrun; reflexivity].
  destruct (table_of Files s) eqn:Hf; [|rewrite Hrun; reflexivity].
  exfalso. apply Hmiss. intros [| |]; [rewrite Hc | rewrite Hus | rewrite Hf]; eauto.
Qed.

Lemma initDatabase_of_validate (now : Z) (s s' : Store) :
  validateDatabaseStructure now s = (Ok true, s') -> initDatabase now s = (Ok true, s').
Proof.
  intros Hv. unfold initDatabase. cbn [initDatabase_attempts].
  unfold try_catch, bind at 1. rewrite Hv. reflexivity.
Qed.

Lemma present_dec (s : Store) : all_tables_present s \/ ~ all_tables_present s.
Proof.
  destruct (table_of Categories s) eqn:Hc, (table_of UserSettings s) eqn:Hu,
    (table_of Files s) eqn:Hf;
    try (left; intros [| |]; [rewrite Hc | rewrite Hu | rewrite Hf]; eauto; fail);
    right; intros Hall;
    [ destruct (Hall Files) as [x Hx] | destruct (Hall UserSettings) as [x Hx]
    | destruct (Hall UserSettings) as [x Hx] | destruct (Hall Categories) as [x Hx]
    | destruct (Hall Categories) as [x Hx] | destruct (Hall Categories) as [x Hx]
    | destruct (Hall Categories) as [x Hx] ]; congruence.
Qed.

(** A store that is complete and has its default category is left as it
    is. *)
Lemma settled_is_fixed (now : Z) (s : Store) :
  complete s -> has_default s -> initDatabase now s = (Ok true, s).
Proof.
  intros Hc Hd.
  apply initDatabase_of_validate.
  unfold validateDatabaseStructure, try_catch, bind at 1.
  rewrite probe_tables_present by (apply complete_present, Hc).
  unfold bind at 1.
  destruct (column_pass_run s (complete_present s Hc)) as (s1 & Hrun1 & _ & _ & _ & Hsame1).
  rewrite Hrun1, (Hsame1 Hc).
  unfold bind at 1, ensure_default_category, bind at 1.
  rewrite select_default_run by exact Hc.
  destruct Hd as [cat Hcat]. rewrite Hcat. cbn [fmap option_fmap option_map].
  unfold ret at 1. unfold bind at 1. rewrite select_default_run by exact Hc.
  rewrite Hcat. reflexivity.
Qed.

Lemma init_present (now : Z) (s : Store) :
  all_tables_present s ->
  categories_take_rows s ->
  exists s',
    initDatabase now s = (Ok true, s')
    /\ complete s' /\ has_default s'
    /\ (unique_category_names s -> unique_category_names s').
Proof.
  intros Hall Htake.
  destruct (validate_present now s Hall Htake) as (s' & Hrun & Hc & Hd & _ & Hu).
  exists s'. split; [apply initDatabase_of_validate, Hrun | auto].
Qed.

Lemma init_missing (now : Z) (s : Store) :
  ~ all_tables_present s ->
  categories_take_rows s ->
  unique_category_names s ->
  exists s',
    initDatabase now s = (Ok true, s')
    /\ (forall t, table_of t s' = Some (default (created_columns t) (table_of t s)))
    /\ unique_category_names s'
    /\ categories_take_rows s'
    /\ default_count s'
       = (if (0 <? default_count (created s))%nat || named_row_fits s then 1 else 0)%nat.
Proof.
  intros Hmiss Htake Hu.
  destruct (recreateAllTables_run now s Htake Hu) as (s' & Hrun & Hrest).
  exists s'. split; [|exact Hrest].
  apply initDatabase_of_validate. rewrite validate_missing by assumption.
  rewrite Hrun. reflexivity.
Qed.

Lemma after_calls_fixed (n : nat) (now : Z) (s : Store) :
  initDatabase now s = (Ok true, s) -> after_calls n now s = Some s.
Proof.
  intros Hfix. induction n as [|n IH]; [reflexivity|].
  simpl. rewrite IH, Hfix. reflexivity.
Qed.

End SchemaFacts.

Lemma default_count_at_most_one (s : Schema.Store) :
  unique_category_names s ->
  (if (0 <? Schema.default_count s)%nat then 1%nat else 0%nat) = Schema.default_count s.
Proof.
  intros Hu.
  destruct (Query.find_category default_category_name (Schema.rows s)) as [cat|] eqn:Hfind.
  - rewrite (default_count_one s Hu) by (exists cat; exact Hfind). reflexivity.
  - rewrite (default_count_none s Hfind). reflexivity.
Qed.

(** C5 (as amended). On a store whose category names are distinct and whose
    [categories] table, if there is one, takes the rows the worker
    inserts, the first two calls of the schema initialisation succeed.
    After the second call every expected column is there, exactly one
    category has the default name, and the store is settled: any number
    of further calls leaves the structure of the three tables, and every
    row, unchanged.  When the three tables existed before the first call
    the store is settled after that call already.  When one was missing,
    the first call creates the missing tables as the [CREATE TABLE]
    statements lay them out and leaves the columns of the others as they
    are, and it ends with one default category when a row that gives only
    its name fits the [categories] table, and with as many as before (one
    or none) when it does not. *)
Theorem C5_schema_settles_by_the_second_call (s : Schema.Store) (t1 t2 : Z) :
  unique_category_names s ->
  categories_take_rows s ->
  exists s1 s2,
    Schema.initDatabase t1 s = (Ok true, s1)
    /\ Schema.initDatabase t2 s1 = (Ok true, s2)
    /\ Schema.complete s2
    /\ Schema.default_count s2 = 1%nat
    /\ (all_tables_present s -> s2 = s1)
    /\ (~ all_tables_present s ->
          (forall t, Schema.table_of t s1
                     = Some (default (Schema.created_columns t) (Schema.table_of t s)))
          /\ Schema.default_count s1
             = if named_row_fits s then 1%nat else Schema.default_count s)
    /\ (forall t, Schema.initDatabase t s2 = (Ok true, s2))
    /\ (forall n t, Schema.after_calls n t s2 = Some s2).
Proof.
  intros Hu Htake.
  assert (Hsettle : forall s0 t,
            all_tables_present s0 -> categories_take_rows s0 ->
            unique_category_names s0 ->
            exists s', Schema.initDatabase t s0 = (Ok true, s')
                       /\ Schema.complete s' /\ Schema.has_default s'
                       /\ unique_category_names s').
  { intros s0 t Hall Htake0 Hu0.
    destruct (init_present t s0 Hall Htake0) as (s' & Hrun & Hc & Hd & Hu').
    exists s'. auto. }
  destruct (present_dec s) as [Hall | Hmiss].
  - destruct (Hsettle s t1 Hall Htake Hu) as (s1 & Hrun1 & Hc1 & Hd1 & Hu1).
    exists s1, s1. split; [exact Hrun1|].
    split; [apply settled_is_fixed; assumption|].
    split; [exact Hc1|].
    split; [apply default_count_one; assumption|].
    split; [reflexivity|]. split; [intros Hmiss; contradiction|]. split.
    + intros t. apply settled_is_fixed; assumption.
    + intros n t. apply after_calls_fixed, settled_is_fixed; assumption.
  - destruct (init_missing t1 s Hmiss Htake Hu) as (s1 & Hrun1 & Htab1 & Hu1 & Htake1 & Hn1).
    assert (Hall1 : all_tables_present s1) by (intros t; rewrite Htab1; eauto).
    destruct (Hsettle s1 t2 Hall1 Htake1 Hu1) as (s2 & Hrun2 & Hc2 & Hd2 & Hu2).
    exists s1, s2. split; [exact Hrun1|].
    split; [exact Hrun2|].
    split; [exact Hc2|].
    split; [apply default_count_one; assumption|].
    split; [intros Hall; contradiction|]. split; [|split].
    + intros _. split; [exact Htab1|]. rewrite Hn1.
      destruct (named_row_fits s) eqn:Hfits; [rewrite orb_true_r; reflexivity|].
      rewrite orb_false_r.
      assert (Hsame : Schema.default_count (created s) = Schema.default_count s).
      { unfold Schema.default_count. rewrite created_categories.
        unfold named_row_fits in Hfits. destruct (Schema.t_categories s); [reflexivity|discriminate]. }
      rewrite Hsame. apply default_count_at_most_one, Hu.
    + intros t. apply settled_is_fixed; assumption.
    + intros n t. apply after_calls_fixed, settled_is_fixed; assumption.
Qed.

Lemma sendPanel_run (ext : Ext) (config : Config) (chatId : string)
    (userSetting : UserSetting.t) (w : World) :
  exists w' menu,
    sendPanel ext config chatId userSetting w = (Ok tt, w')
    /\ db w' = db w
    /\ bucket w' = bucket w
    /\ chat_store w' = chat_store w
    /\ fileCache w' = fileCache w
    /\ last (trace w') = Some (SendMenu chatId menu).
Proof.
  unfold sendPanel, generateMainMenu. run.
  destruct (menuCache w !! _) as [[menuData timestamp]|]; run.
  1: destruct (now ext - timestamp <? menuCacheTTL config); run.
  1: destruct (tg_menu_ok ext); run.
  all: destruct (Js.truthyZ (UserSetting.current_category_id userSetting)); run.
  all: eexists _, _; split; [reflexivity|]; wsimpl;
    repeat (split; [reflexivity|]); apply last_snoc.
Qed.

(** What [sendPanel] adds to the trace comes after what was there. *)
Lemma sendPanel_trace (ext : Ext) (config : Config) (chatId : string)
    (userSetting : UserSetting.t) (w : World) :
  exists evs, trace (snd (sendPanel ext config chatId userSetting w)) = trace w ++ evs.
Proof.
  unfold sendPanel, generateMainMenu. run.
  destruct (menuCache w !! _) as [[menuData timestamp]|]; run.
  1: destruct (now ext - timestamp <? menuCacheTTL config); run.
  1: destruct (tg_menu_ok ext); run.
  all: destruct (Js.truthyZ (UserSetting.current_category_id userSetting)); run.
  all: rewrite <- ?app_assoc; eexists; reflexivity.
Qed.

Lemma try_catch_notice (m : Handler unit) (chatId : string) (notice : Err -> Notice) (w : World) :
  exists w', try_catch m (fun error => sendMessage chatId (notice error)) w = (Ok tt, w').
Proof.
  unfold try_catch. destruct (m w) as [[[]|e] w1]; [eauto|].
  unfold sendMessage, emit, modify. eauto.
Qed.

Lemma find_app_None_l {A} (p : A -> bool) (l : list A) (x : A) :
  find p l = None -> p x = true -> find p (l ++ [x]) = Some x.
Proof.
  induction l as [|y l IH]; simpl; intros Hf Hp.
  - rewrite Hp. reflexivity.
  - destruct (p y); [discriminate | auto].
Qed.

Lemma category_exists_new (id : Z) (name : string) (created : option Z) (d : Db) :
  Query.category_exists id
    (set_categories (categories d ++ [Category.mk id name created]) d) = true.
Proof.
  unfold Query.category_exists. cbn [categories set_categories].
  rewrite existsb_app. simpl. rewrite Z.eqb_refl. simpl. apply orb_true_r.
Qed.

Lemma find_category_elem (name : string) (d : Db) (c : Category.t) :
  Query.find_category name d = Some c -> Query.category_exists (Category.id c) d = true.
Proof.
  intros Hf. apply find_Some_elem in Hf as [Hin _].
  apply existsb_exists. exists c. split; [apply list_elem_of_In, Hin | apply Z.eqb_refl].
Qed.

(** The settings of a chat: the stored row, or the row made at the first
    contact, which is idle. *)
Lemma settings_of_run (ext : Ext) (chatId : string) (w : World) :
  exists userSetting w1,
    settings_of ext chatId w = (Ok userSetting, w1)
    /\ match Query.find_user_setting chatId (db w) with
       | Some u =>
           userSetting = u /\ db w1 = db w
           /\ trace w1 = trace w ++ [DbRead "user_settings"]
       | None =>
           UserSetting.waiting_for userSetting = None
           /\ UserSetting.editing_file_id userSetting = None
           /\ Query.find_user_setting chatId (db w1) = Some userSetting
       end.
Proof.
  unfold settings_of. run.
  destruct (Query.find_user_setting chatId (db w)) as [u|] eqn:Hu; run.
  { eexists _, _. split; [reflexivity|]. repeat split; reflexivity. }
  assert (Hins : forall d cat,
            user_settings d = user_settings (db w) ->
            Query.refers_to_category cat d = true ->
            Query.insert_user_setting chatId "r2" cat d
            = (Ok tt, set_user_settings
                        (user_settings d ++ [UserSetting.mk chatId (Some "r2") cat None None]) d)).
  { intros d cat Hd Hcat. unfold Query.insert_user_setting, Query.find_user_setting in *.
    rewrite Hd, Hu, Hcat. reflexivity. }
  assert (Hfound : forall d cat,
            user_settings d = user_settings (db w) ->
            Query.find_user_setting chatId
              (set_user_settings
                 (user_settings d ++ [UserSetting.mk chatId (Some "r2") cat None None]) d)
            = Some (UserSetting.mk chatId (Some "r2") cat None None)).
  { intros d cat Hd. unfold Query.find_user_setting in *. cbn [user_settings set_user_settings].
    rewrite Hd. apply find_app_None_l; [exact Hu|]. simpl. apply String.eqb_refl. }
  destruct (Query.find_category default_category_name (db w)) as [c|] eqn:Hc; run.
  - rewrite (Hins (db w) _ eq_refl) by (apply (find_category_elem _ _ _ Hc)). run.
    eexists _, _. split; [reflexivity|]. wsimpl. repeat split. apply Hfound. reflexivity.
  - unfold Query.insert_category. rewrite Hc. cbn [Query.insert_category_row]. run.
    match goal with
    | |- context [Query.insert_user_setting chatId "r2" ?cat ?d] =>
        rewrite (Hins d cat eq_refl) by apply category_exists_new
    end.
    run.
    eexists _, _. split; [reflexivity|]. wsimpl. repeat split. apply Hfound. reflexivity.
Qed.

Lemma start_trimmed : Js.trim "/start" = "/start".
Proof. reflexivity. Qed.

Lemma find_user_setting_update (chatId : string) (f : UserSetting.t -> UserSetting.t) (d : Db) :
  (forall u, UserSetting.chat_id (f u) = UserSetting.chat_id u) ->
  Query.find_user_setting chatId (Query.update_user_setting chatId f d)
  = f <$> Query.find_user_setting chatId d.
Proof.
  intros Hf. unfold Query.find_user_setting, Query.update_user_setting.
  cbn [user_settings set_user_settings].
  induction (user_settings d) as [|u us IH]; [reflexivity|].
  simpl. destruct (String.eqb (UserSetting.chat_id u) chatId) eqn:Hu.
  - rewrite Hf, Hu. reflexivity.
  - rewrite Hu. exact IH.
Qed.

Lemma has_setting (chatId : string) (d : Db) (u : UserSetting.t) :
  Query.find_user_setting chatId d = Some u ->
  existsb (fun u0 => String.eqb (UserSetting.chat_id u0) chatId) (user_settings d) = true.
Proof.
  intros Hf. apply find_Some_elem in Hf as [Hin Hp].
  apply existsb_exists. exists u. split; [apply list_elem_of_In, Hin | exact Hp].
Qed.

(** Ending a reply: the menu is sent, no row is touched, and the trace
    grows at its end. *)
Lemma panel_end (ext : Ext) (config : Config) (chatId : string)
    (userSetting : UserSetting.t) (w : World) :
  exists w' menu evs,
    sendPanel ext config chatId userSetting w = (Ok tt, w')
    /\ db w' = db w
    /\ last (trace w') = Some (SendMenu chatId menu)
    /\ trace w' = trace w ++ evs.
Proof.
  destruct (sendPanel_run ext config chatId userSetting w)
    as (w' & menu & Hp & Hdb & _ & _ & _ & Hlast).
  destruct (sendPanel_trace ext config chatId userSetting w) as [evs Hevs].
  rewrite Hp in Hevs. exists w', menu, evs. auto.
Qed.

Ltac panel_step :=
  match goal with
  | |- context [sendPanel ?e ?c ?ch ?us ?w0] =>
      let w2 := fresh "w" in
      let menu := fresh "menu" in
      let evs := fresh "evs" in
      let Hp := fresh "Hp" in
      let Hdb := fresh "Hdb" in
      let Hlast := fresh "Hlast" in
      let Htr := fresh "Htr" in
      destruct (panel_end e c ch us w0) as (w2 & menu & evs & Hp & Hdb & Hlast & Htr);
      rewrite Hp; wsimpl;
      cbn [db trace set_db set_bucket set_chat_store set_fileCache set_menuCache set_trace]
        in Hdb, Htr;
      exists w2, menu; split; [reflexivity | split; [exact Hlast|]]
  end.

Lemma told_intro (chatId : string) (notice : Notice) (w w' : World) (evs : list Event) :
  trace w' = trace w ++ evs ->
  In (SendMessage chatId notice) evs ->
  told chatId notice w w'.
Proof.
  intros Htr Hin. apply in_split in Hin as (before & after & ->).
  exists before, after. exact Htr.
Qed.

(** Finding the notice among the events added. *)
Ltac told_here :=
  match goal with
  | Htr : trace ?w2 = _ |- told _ _ _ ?w2 =>
      eapply told_intro;
      [ rewrite Htr, <- ?app_assoc; reflexivity
      | cbn [app In]; repeat first [left; reflexivity | right] ]
  end.

(** [/start], taken as the name of a new category. *)
Lemma on_new_category_start (ext : Ext) (config : Config) (chatId : string)
    (u : UserSetting.t) (w : World) :
  Query.find_user_setting chatId (db w) = Some u ->
  exists w' menu,
    on_new_category ext config chatId "/start" u w = (Ok OK, w')
    /\ last (trace w') = Some (SendMenu chatId menu)
    /\ files (db w') = files (db w)
    /\ match Query.find_category "/start" (db w) with
       | Some _ =>
           categories (db w') = categories (db w)
           /\ Query.find_user_setting chatId (db w')
              = Some (UserSetting.with_waiting_for None u)
           /\ told chatId (CategoryExists "/start") w w'
       | None =>
           exists newId,
             (newId ∉ map Category.id (categories (db w)))
             /\ categories (db w')
                = categories (db w) ++ [Category.mk newId "/start" (Some (now ext))]
             /\ Query.find_user_setting chatId (db w')
                = Some (UserSetting.with_waiting_for None
                          (UserSetting.with_current_category_id (Some newId) u))
             /\ told chatId (CategoryCreated "/start") w w'
       end.
Proof.
  intros Hu. unfold on_new_category. rewrite start_trimmed.
  change (negb (String.eqb "/start" "")) with true. run.
  destruct (Query.find_category "/start" (db w)) as [c|] eqn:Hc; run.
  - change (Query.find_category "/start" (Query.update_user_setting chatId
              (UserSetting.with_waiting_for None) (db w)))
      with (Query.find_category "/start" (db w)).
    rewrite Hc. run. panel_step.
    rewrite Hdb. split; [reflexivity|]. split; [reflexivity|]. split.
    + rewrite find_user_setting_update by (intros []; reflexivity). rewrite Hu. reflexivity.
    + told_here.
  - unfold Query.insert_category. rewrite Hc. cbn [Query.insert_category_row]. run.
    set (id := Query.next_id (map Category.id (categories (db w)))).
    set (d1 := set_categories _ (db w)).
    assert (Hnew : Query.find_category "/start" d1 = Some (Category.mk id "/start" (Some (now ext)))).
    { unfold Query.find_category, d1. cbn [categories set_categories].
      apply find_app_None_l; [exact Hc | reflexivity]. }
    rewrite Hnew. run.
    unfold Query.point_user_setting. cbn [Query.refers_to_category Category.id].
    unfold d1 at 2. rewrite category_exists_new. cbn [negb]. rewrite andb_false_r. run.
    match goal with
    | |- context [Query.find_category "/start" (Query.update_user_setting ?c ?f (Query.update_user_setting ?c' ?f' d1))] =>
        change (Query.find_category "/start" (Query.update_user_setting c f (Query.update_user_setting c' f' d1)))
          with (Query.find_category "/start" d1)
    end.
    rewrite Hnew. run. panel_step.
    rewrite Hdb. split; [reflexivity|].
    exists id. split; [|split; [reflexivity|split]].
    + intros Hin. apply next_id_above in Hin. subst id. lia.
    + rewrite !find_user_setting_update by (intros []; reflexivity).
      change (user_settings d1) with (user_settings (db w)).
      change (Query.find_user_setting chatId d1) with (Query.find_user_setting chatId (db w)).
      rewrite Hu. destruct u; reflexivity.
    + told_here.
Qed.

(** [/start], taken as the file to delete: it has no dot. *)
Lemma on_delete_file_input_start (ext : Ext) (config : Config) (chatId : string)
    (u : UserSetting.t) (w : World) :
  Query.find_user_setting chatId (db w) = Some u ->
  exists w' menu,
    on_delete_file_input ext config chatId "/start" u w = (Ok OK, w')
    /\ last (trace w') = Some (SendMenu chatId menu)
    /\ files (db w') = files (db w)
    /\ categories (db w') = categories (db w)
    /\ Query.find_user_setting chatId (db w') = Some (UserSetting.with_waiting_for None u)
    /\ told chatId NeedFullName w w'.
Proof.
  intros Hu. unfold on_delete_file_input. rewrite start_trimmed.
  change (resolve_input chatId "/start") with (ret (S := World) (@None (option File.t))).
  run. panel_step.
  rewrite Hdb. split; [reflexivity|]. split; [reflexivity|]. split.
  - rewrite find_user_setting_update by (intros []; reflexivity). rewrite Hu. reflexivity.
  - told_here.
Qed.

Lemma renamed_rows (fileId : Z) (fileUrl : string) (change : File.t -> File.t)
    (rows : list File.t) :
  (forall r, File.id (change r) = File.id r
             /\ File.url (change r) = fileUrl
             /\ File.file_name (change r) = File.file_name r) ->
  Forall2 (renamed_in_place fileId fileUrl) rows
    (map (fun r => if Z.eqb (File.id r) fileId then change r else r) rows).
Proof.
  intros Hchange. induction rows as [|r rows IH]; [constructor|].
  simpl. constructor; [|exact IH].
  unfold renamed_in_place. destruct (Z.eqb_spec (File.id r) fileId) as [Hid|]; [|reflexivity].
  destruct (Hchange r) as (H1 & H2 & H3). rewrite H1. auto.
Qed.

Ltac split_ifs :=
  repeat match goal with
         | |- context [sendPanel] =>
             match goal with
             | |- context [if ?b then _ else _] => destruct b eqn:?; run
             | |- context [match ?x with Some _ => _ | None => _ end] => destruct x eqn:?; run
             end
         end.

(** [/start], taken as the new name of the file being edited. *)
Lemma rename_by_reply_start (ext : Ext) (config : Config) (chatId : string)
    (u : UserSetting.t) (fileId : Z) (w : World) :
  Query.find_user_setting chatId (db w) = Some u ->
  UserSetting.editing_file_id u = Some fileId ->
  exists w' menu,
    rename_by_reply false ext config chatId "/start" u w = (Ok OK, w')
    /\ last (trace w') = Some (SendMenu chatId menu)
    /\ categories (db w') = categories (db w)
    /\ Query.find_user_setting chatId (db w') = Some (forget u)
    /\ match Query.find_file_by_id fileId (db w) with
       | Some file =>
           let fileUrl := url_of config (new_name "/start" (getFileName (File.url file))) in
           Forall2 (renamed_in_place fileId fileUrl) (files (db w)) (files (db w'))
           /\ told chatId (Renamed fileUrl) w w'
       | None => files (db w') = files (db w) /\ told chatId FileGone w w'
       end.
Proof.
  intros Hu Hedit. unfold rename_by_reply. rewrite start_trimmed, Hedit.
  cbn [default from_option id]. unfold clear_waiting. run.
  destruct (Query.find_file_by_id fileId (db w)) as [file|] eqn:Hfile; run.
  - apply find_Some_elem in Hfile as [_ Hid]. apply Z.eqb_eq in Hid. subst fileId.
    unfold storeFile, storeFileInTelegram, tg_upload, getTelegramFileUrl, deleteFile,
      bucket_get, bucket_put, bucket_delete.
    run. split_ifs.
    all: panel_step.
    all: rewrite Hdb.
    all: split; [reflexivity|].
    all: split;
      [ rewrite find_user_setting_update by (intros []; reflexivity);
        match goal with
        | Hu : Query.find_user_setting ?c ?d = Some _
          |- context [Query.find_user_setting ?c (Query.update_file ?i ?f ?d)] =>
            change (Query.find_user_setting c (Query.update_file i f d))
              with (Query.find_user_setting c d);
            rewrite Hu; reflexivity
        end | ].
    all: split; [apply renamed_rows; intros []; auto | told_here].
  - panel_step. rewrite Hdb. split; [reflexivity|]. split.
    + rewrite find_user_setting_update by (intros []; reflexivity). rewrite Hu. reflexivity.
    + split; [reflexivity | told_here].
Qed.

Lemma told_later (chatId : string) (notice : Notice) (w w1 w' : World) (evs : list Event) :
  trace w1 = trace w ++ evs -> told chatId notice w1 w' -> told chatId notice w w'.
Proof.
  intros Htr (before & after & Hw'). exists (evs ++ before), after.
  rewrite Hw', Htr, <- !app_assoc. reflexivity.
Qed.

Lemma allowed_gate (config : Config) (chatId : string) :
  tgChatId config = [] \/ chatId ∈ tgChatId config ->
  negb (bool_decide (tgChatId config = []))
  && negb (existsb (String.eqb chatId) (tgChatId config)) = false.
Proof.
  intros [Hnil | Hin].
  - rewrite Hnil. reflexivity.
  - assert (Hex : existsb (String.eqb chatId) (tgChatId config) = true).
    { apply existsb_exists. exists chatId. split; [apply list_elem_of_In, Hin|].
      apply String.eqb_refl. }
    rewrite Hex. apply andb_false_r.
Qed.

Lemma opt_eqb_Some (o : option string) (s : string) :
  Js.opt_eqb o s = true <-> o = Some s.
Proof.
  destruct o as [x|]; simpl; split; intros H; try discriminate.
  - apply String.eqb_eq in H. congruence.
  - injection H as ->. apply String.eqb_refl.
Qed.

(** C2 (as amended). [/start] from an allowed chat that is not a group
    always ends with the main menu sent to the chat and the answer OK.
    In the three states that take the next text as their input, [/start]
    is taken as that input and the stored state is then reset
    ([waiting_for] is [NULL]): after [new_category] a category named
    [/start] is created and made the current one of the chat, or
    reported as existing; after [new_suffix] with a file being edited
    that file gets the URL of the name [/start] with its old extension
    (and [editing_file_id] is [NULL] too), or is reported gone; after
    [delete_file_input] the chat is told that a full name is needed and
    no file is touched.  In every other state the text is not taken as
    input and no row is changed: an idle chat stays idle, and a pending
    prompt of another kind stays pending.  A chat seen for the first time
    gets its settings row, in the idle state. *)
Theorem C2_start_always_ends_with_the_menu
    (handleCallbackQuery : Ext -> Config -> string -> string -> UserSetting.t -> Handler unit)
    (ext : Ext) (config : Config) (message : Message.t) (w : World) :
  Message.text message = Some "/start" ->
  Message.chat_type message <> "group" ->
  Message.chat_type message <> "supergroup" ->
  tgChatId config = [] \/ Message.chat_id message ∈ tgChatId config ->
  let chatId := Message.chat_id message in
  exists w' menu,
    handleTelegramWebhook handleCallbackQuery ext config (UMessage message) w = (Ok OK, w')
    /\ last (trace w') = Some (SendMenu chatId menu)
    /\ match Query.find_user_setting chatId (db w) with
       | None => dialogue_state chatId w' = Some (None, None)
       | Some u =>
           (consumes_text u = false -> db w' = db w)
           /\ (consumes_text u = true ->
                 exists editing, dialogue_state chatId w' = Some (None, editing))
           /\ (UserSetting.waiting_for u = Some "new_category" ->
                 files (db w') = files (db w)
                 /\ match Query.find_category "/start" (db w) with
                    | Some _ =>
                        categories (db w') = categories (db w)
                        /\ Query.find_user_setting chatId (db w')
                           = Some (UserSetting.with_waiting_for None u)
                        /\ told chatId (CategoryExists "/start") w w'
                    | None =>
                        exists newId,
                          (newId ∉ map Category.id (categories (db w)))
                          /\ categories (db w')
                             = categories (db w)
                               ++ [Category.mk newId "/start" (Some (now ext))]
                          /\ Query.find_user_setting chatId (db w')
                             = Some (UserSetting.with_waiting_for None
                                       (UserSetting.with_current_category_id (Some newId) u))
                          /\ told chatId (CategoryCreated "/start") w w'
                    end)
           /\ (UserSetting.waiting_for u = Some "new_suffix" ->
               forall fileId, UserSetting.editing_file_id u = Some fileId ->
                 categories (db w') = categories (db w)
                 /\ dialogue_state chatId w' = Some (None, None)
                 /\ match Query.find_file_by_id fileId (db w) with
                    | Some file =>
                        let fileUrl :=
                          url_of config (new_name "/start" (getFileName (File.url file))) in
                        Forall2 (renamed_in_place fileId fileUrl) (files (db w)) (files (db w'))
                        /\ told chatId (Renamed fileUrl) w w'
                    | None => files (db w') = files (db w) /\ told chatId FileGone w w'
                    end)
           /\ (UserSetting.waiting_for u = Some "delete_file_input" ->
                 files (db w') = files (db w)
                 /\ categories (db w') = categories (db w)
                 /\ Query.find_user_setting chatId (db w')
                    = Some (UserSetting.with_waiting_for None u)
                 /\ told chatId NeedFullName w w')
       end.
Proof.
  intros Htext Hgroup Hsuper Hallowed chatId. subst chatId.
  unfold handleTelegramWebhook.
  apply String.eqb_neq in Hgroup, Hsuper. rewrite Hgroup, Hsuper. cbn [orb].
  rewrite (allowed_gate config _ Hallowed).
  set (chatId := Message.chat_id message) in *.
  unfold try_catch at 1, bind at 1.
  destruct (settings_of_run ext chatId w) as (userSetting & w1 & Hset & Hstate).
  rewrite Hset.
  unfold on_message. rewrite Htext.
  change (Js.truthy (Some "/start")) with true.
  change (default "" (Some "/start")) with "/start".
  change (Js.opt_eqb (Some "/start") "/start") with true.
  rewrite !andb_true_r.
  destruct (Query.find_user_setting chatId (db w)) as [u|] eqn:Hu.
  - destruct Hstate as (-> & Hdb1 & Htr1).
    assert (Hu1 : Query.find_user_setting chatId (db w1) = Some u) by (rewrite Hdb1; exact Hu).
    destruct (Js.opt_eqb (UserSetting.waiting_for u) "new_category") eqn:Hcat.
    { destruct (on_new_category_start ext config chatId u w1 Hu1)
        as (w' & menu & Hrun & Hlast & Hfiles & Hout).
      rewrite Hrun. exists w', menu. split; [reflexivity|]. split; [exact Hlast|].
      rewrite Hdb1 in Hfiles, Hout.
      assert (Hout' :
                match Query.find_category "/start" (db w) with
                | Some _ =>
                    categories (db w') = categories (db w)
                    /\ Query.find_user_setting chatId (db w')
                       = Some (UserSetting.with_waiting_for None u)
                    /\ told chatId (CategoryExists "/start") w w'
                | None =>
                    exists newId,
                      (newId ∉ map Category.id (categories (db w)))
                      /\ categories (db w')
                         = categories (db w)
                           ++ [Category.mk newId "/start" (Some (now ext))]
                      /\ Query.find_user_setting chatId (db w')
                         = Some (UserSetting.with_waiting_for None
                                   (UserSetting.with_current_category_id (Some newId) u))
                      /\ told chatId (CategoryCreated "/start") w w'
                end).
      { destruct (Query.find_category "/start" (db w)).
        - destruct Hout as (H1 & H2 & H3). repeat split; try assumption.
          exact (told_later _ _ _ _ _ _ Htr1 H3).
        - destruct Hout as (newId & H0 & H1 & H2 & H3). exists newId.
          repeat split; try assumption. exact (told_later _ _ _ _ _ _ Htr1 H3). }
      split; [|split; [|split; [|split]]].
      - unfold consumes_text. rewrite Hcat. discriminate.
      - intros _. unfold dialogue_state.
        destruct (Query.find_category "/start" (db w)).
        + destruct Hout' as (_ & -> & _). eexists. reflexivity.
        + destruct Hout' as (newId & _ & _ & -> & _). eexists. reflexivity.
      - intros _. split; assumption.
      - intros Hw. rewrite Hw in Hcat. discriminate.
      - intros Hw. rewrite Hw in Hcat. discriminate. }
    destruct (Js.opt_eqb (UserSetting.waiting_for u) "new_suffix"
              && bool_decide (is_Some (UserSetting.editing_file_id u))) eqn:Hsuf.
    { apply andb_true_iff in Hsuf as [Hsuf Hed].
      apply bool_decide_eq_true in Hed as [fileId Hed].
      destruct (rename_by_reply_start ext config chatId u fileId w1 Hu1 Hed)
        as (w' & menu & Hrun & Hlast & Hcats & Hus & Hout).
      rewrite Hrun. exists w', menu. split; [reflexivity|]. split; [exact Hlast|].
      rewrite Hdb1 in Hcats, Hout.
      assert (Hstate : dialogue_state chatId w' = Some (None, None)).
      { unfold dialogue_state. rewrite Hus. reflexivity. }
      split; [|split; [|split; [|split]]].
      - unfold consumes_text. rewrite Hcat, Hsuf, Hed. discriminate.
      - intros _. eexists. exact Hstate.
      - intros Hw. rewrite Hw in Hsuf. discriminate.
      - intros _ fileId' Hed'. rewrite Hed in Hed'. injection Hed' as <-.
        split; [exact Hcats|]. split; [exact Hstate|].
        destruct (Query.find_file_by_id fileId (db w)).
        + destruct Hout as [H1 H2]. split; [exact H1|].
          exact (told_later _ _ _ _ _ _ Htr1 H2).
        + destruct Hout as [H1 H2]. split; [exact H1|].
          exact (told_later _ _ _ _ _ _ Htr1 H2).
      - intros Hw. rewrite Hw in Hsuf. discriminate. }
    destruct (Js.opt_eqb (UserSetting.waiting_for u) "delete_file_input") eqn:Hdel.
    { destruct (on_delete_file_input_start ext config chatId u w1 Hu1)
        as (w' & menu & Hrun & Hlast & Hfiles & Hcats & Hus & Htold).
      rewrite Hrun. exists w', menu. split; [reflexivity|]. split; [exact Hlast|].
      rewrite Hdb1 in Hfiles, Hcats.
      split; [|split; [|split; [|split]]].
      - unfold consumes_text. rewrite Hcat, Hsuf, Hdel. discriminate.
      - intros _. unfold dialogue_state. rewrite Hus. eexists. reflexivity.
      - intros Hw. rewrite Hw in Hcat. discriminate.
      - intros Hw. rewrite Hw in Hdel. discriminate.
      - intros _. repeat split; try assumption.
        exact (told_later _ _ _ _ _ _ Htr1 Htold). }
    unfold bind.
    destruct (sendPanel_run ext config chatId u w1)
      as (w2 & menu & Hp & Hdb & _ & _ & _ & Hlast).
    rewrite Hp. exists w2, menu. split; [reflexivity|]. split; [exact Hlast|].
    split; [|split; [|split; [|split]]].
    + intros _. rewrite Hdb. exact Hdb1.
    + unfold consumes_text. rewrite Hcat, Hsuf, Hdel. discriminate.
    + intros Hw. rewrite Hw in Hcat. discriminate.
    + intros Hw fileId Hed. rewrite Hw, Hed in Hsuf. discriminate.
    + intros Hw. rewrite Hw in Hdel. discriminate.
  - destruct Hstate as (Hw & He & Hfound).
    unfold Js.opt_eqb. rewrite Hw. cbn [andb].
    unfold bind.
    destruct (sendPanel_run ext config chatId userSetting w1)
      as (w2 & menu & Hp & Hdb & _ & _ & _ & Hlast).
    rewrite Hp. exists w2, menu. split; [reflexivity|]. split; [exact Hlast|].
    unfold dialogue_state. rewrite Hdb, Hfound. simpl. rewrite Hw, He. reflexivity.
Qed.

Section Leaves.

Context {S X : Type} (obs : S -> X).

Lemma leaves_ret {A} (a : A) : leaves obs (ret (S := S) a).
Proof. intros s. reflexivity. Qed.

Lemma leaves_throw {A} (e : Err) : leaves obs (throw (S := S) (A := A) e).
Proof. intros s. reflexivity. Qed.

Lemma leaves_bind {A B} (m : M S A) (k : A -> M S B) :
  leaves obs m -> (forall a, leaves obs (k a)) -> leaves obs (bind m k).
Proof.
  intros Hm Hk s. unfold bind. specialize (Hm s).
  destruct (m s) as [[a|e] s1]; simpl in *; [rewrite Hk|]; exact Hm.
Qed.

Lemma leaves_try_catch {A} (m : M S A) (h : Err -> M S A) :
  leaves obs m -> (forall e, leaves obs (h e)) -> leaves obs (try_catch m h).
Proof.
  intros Hm Hh s. unfold try_catch. specialize (Hm s).
  destruct (m s) as [[a|e] s1]; simpl in *; [|rewrite Hh]; exact Hm.
Qed.

End Leaves.

(** The admin delete, the bulk delete and the admin rename do not touch
    the file cache, and neither does [setWebhook]. *)
Lemma handleDeleteRequest_leaves_fileCache (ext : Ext) (config : Config) (token : Token)
    (id fileId : option string) :
  leaves fileCache (handleDeleteRequest ext config token id fileId).
Proof.
  intros w. unfold handleDeleteRequest, lookup_for_delete, deleteFile, bucket_delete.
  run. repeat (branch; run). all: reflexivity.
Qed.

Lemma handleUpdateSuffixRequest_leaves_fileCache (ext : Ext) (config : Config)
    (url suffix : option string) :
  leaves fileCache (handleUpdateSuffixRequest ext config url suffix).
Proof.
  intros w.
  unfold handleUpdateSuffixRequest, lookup_for_rename, deleteFile, storeFile,
    storeFileInTelegram, tg_upload, getTelegramFileUrl, bucket_get, bucket_put, bucket_delete.
  run. repeat (branch; run). all: reflexivity.
Qed.

Lemma delete_one_leaves_fileCache (ext : Ext) (config : Config) (url : string) :
  leaves fileCache (delete_one ext config url).
Proof.
  intros w. unfold delete_one, tg_delete_message, bucket_delete.
  run. repeat (branch; run). all: reflexivity.
Qed.

Lemma delete_each_leaves_fileCache (ext : Ext) (config : Config) (urls : list string) :
  forall success failed, leaves fileCache (delete_each ext config urls success failed).
Proof.
  induction urls as [|url urls IH]; intros success failed; cbn [delete_each].
  - apply leaves_ret.
  - apply leaves_bind; [apply delete_one_leaves_fileCache|].
    intros [reason|]; apply IH.
Qed.

Lemma handleDeleteMultipleRequest_leaves_fileCache (ext : Ext) (config : Config)
    (token : Token) (urls : option (list string)) :
  leaves fileCache (handleDeleteMultipleRequest ext config token urls).
Proof.
  unfold handleDeleteMultipleRequest.
  destruct (enableAuth config && negb (authenticate token ext config)); [apply leaves_ret|].
  apply leaves_try_catch; [|intros e; apply leaves_ret].
  destruct urls as [[|url urls]|]; try apply leaves_ret.
  apply leaves_bind; [apply delete_each_leaves_fileCache | intros r; apply leaves_ret].
Qed.

Lemma setWebhook_leaves_fileCache (answers : nat -> HookAnswer) (webhookUrl botToken : string) :
  leaves fileCache (setWebhook answers webhookUrl botToken).
Proof.
  intros w. unfold setWebhook. cbn [setWebhook_attempts].
  run. repeat (branch; run). all: reflexivity.
Qed.

Lemma in_world_leaves {A} (m : Handler A) :
  leaves fileCache m -> leaves (fun site => fileCache (world site)) (in_world m).
Proof.
  intros Hm site. unfold in_world. specialize (Hm (world site)).
  destruct (m (world site)) as [r w]. exact Hm.
Qed.

Lemma in_store_leaves {A} (m : M Schema.Store A) :
  leaves (fun site => fileCache (world site)) (in_store m).
Proof.
  intros site. unfold in_store. destruct (m (store_of site)) as [r store]. reflexivity.
Qed.

Ltac leaves_step :=
  first
    [ apply setWebhook_leaves_fileCache
    | apply handleDeleteRequest_leaves_fileCache
    | apply handleDeleteMultipleRequest_leaves_fileCache
    | apply handleUpdateSuffixRequest_leaves_fileCache
    | apply in_store_leaves
    | apply in_world_leaves
    | apply leaves_ret
    | apply leaves_throw
    | apply leaves_bind; [|intros ?]
    | apply leaves_try_catch; [|intros ?]
    | match goal with
      | |- leaves _ (if ?b then _ else _) => destruct b
      | |- leaves _ (match ?x with _ => _ end) => destruct x
      end ].

(** After a request for [/delete], [/delete-multiple] or [/update-suffix]
    the file cache holds nothing. *)
Lemma fetch_of_delete_or_rename_leaves_no_memo
    (page : string -> Request -> Config -> Handler Response)
    (handleCallbackQuery : Ext -> Config -> string -> string -> UserSetting.t -> Handler unit)
    (encodeURIComponent : string -> string) (decodeURIComponent : string -> option string)
    (ext : Ext) (hook : nat -> HookAnswer) (env : Env) (request : Request) (site : Site) :
  DATABASE env = true ->
  pathname request ∈ ["/delete"; "/delete-multiple"; "/update-suffix"] ->
  fileCache
    (world (snd (fetch page handleCallbackQuery encodeURIComponent decodeURIComponent ext hook
                   env request site)))
  = ∅.
Proof.
  intros Hdb Hpath. unfold fetch. rewrite Hdb. cbn [negb].
  unfold bind at 1, in_world at 1, modify.
  set (site0 := put_world (new_maps (world site)) site).
  transitivity (fileCache (world site0)); [|reflexivity].
  match goal with
  | |- fileCache (world (snd (?rest site0))) = _ =>
      assert (Hrest : leaves (fun s => fileCache (world s)) rest); [|exact (Hrest site0)]
  end.
  assert (Hroute : forall config,
            match routes page handleCallbackQuery ext config request with
            | Some handler => leaves fileCache handler
            | None => False
            end).
  { intros config. unfold routes.
    apply elem_of_cons in Hpath as [-> | Hpath];
      [|apply elem_of_cons in Hpath as [-> | Hpath];
        [|apply list_elem_of_singleton in Hpath as ->]].
    all: cbn [String.eqb Ascii.eqb Bool.eqb]; leaves_step. }
  repeat first
    [ assumption
    | match goal with
      | |- leaves _ (match routes ?p ?h ?e ?c ?r with _ => _ end) =>
          specialize (Hroute c); destruct (routes p h e c r); [|contradiction]
      end
    | leaves_step ].
Qed.

(** C8. No request is answered from an entry that an earlier request has
    memoized: [fetch] gives every request new, empty maps, so what a
    request is answered, and the store it leaves, are the same whatever
    the caches held when it came in.  And a request for [/delete],
    [/delete-multiple] or [/update-suffix] leaves the file cache empty:
    no entry for the deleted or renamed file is left for a later request.
    On the sample deployment: a picture is requested and memoized; it is
    then deleted, or renamed; the next request for its path is answered
    from the rows and the backends (not found), and after the rename the
    new path serves the bytes. *)
Theorem C8_no_request_is_answered_from_an_earlier_memo
    (page : string -> Request -> Config -> Handler Response)
    (handleCallbackQuery : Ext -> Config -> string -> string -> UserSetting.t -> Handler unit)
    (encodeURIComponent : string -> string) (decodeURIComponent : string -> option string)
    (ext : Ext) (hook : nat -> HookAnswer) (env : Env) (request : Request) (site : Site)
    (fileCache0 : gmap string CacheEntry) (menuCache0 : gmap string (Menu * Z)) :
  let answer :=
    fetch page handleCallbackQuery encodeURIComponent decodeURIComponent ext hook env
      request in
  let remembering :=
    put_world (set_fileCache fileCache0 (set_menuCache menuCache0 (world site))) site in
  let url := File.url Sample.photo in
  let first := Sample.serve (Sample.get_path "/1700_a.png") (Sample.site_of Sample.world) in
  let deleted := Sample.serve (Sample.post_delete url) (snd first) in
  let renamed := Sample.serve (Sample.post_update_suffix url "b") (snd first) in
  fst (answer remembering) = fst (answer site)
  /\ (DATABASE env = true -> snd (answer remembering) = snd (answer site))
  /\ (DATABASE env = true ->
      pathname request ∈ ["/delete"; "/delete-multiple"; "/update-suffix"] ->
      fileCache (world (snd (answer remembering))) = ∅)
  /\ fst first = Ok (mkResponse 200 (Stream "photo-bytes" "image/png"))
  /\ is_Some (fileCache (world (snd first)) !! "file:1700_a.png")
  /\ fst deleted = Ok (json 1 MDeleted)
  /\ fileCache (world (snd deleted)) !! "file:1700_a.png" = None
  /\ fst (Sample.serve (Sample.get_path "/1700_a.png") (snd deleted))
     = Ok (mkResponse 404 (Text "File not found"))
  /\ fst renamed = Ok (mkResponse 200 (JsonUrl 1 MRenamed "https://img.example/b.png"))
  /\ fileCache (world (snd renamed)) !! "file:1700_a.png" = None
  /\ fst (Sample.serve (Sample.get_path "/1700_a.png") (snd renamed))
     = Ok (mkResponse 404 (Text "File not found"))
  /\ fst (Sample.serve (Sample.get_path "/b.png") (snd renamed))
     = Ok (mkResponse 200 (Stream "photo-bytes" "image/png")).
Proof.
  cbv zeta.
  assert (Hsame : DATABASE env = true ->
                  fetch page handleCallbackQuery encodeURIComponent decodeURIComponent ext hook
                    env request
                    (put_world (set_fileCache fileCache0 (set_menuCache menuCache0 (world site)))
                       site)
                  = fetch page handleCallbackQuery encodeURIComponent decodeURIComponent ext
                      hook env request site).
  { intros Hdb. unfold fetch. rewrite Hdb. cbn [negb].
    unfold bind at 1. unfold bind at 2. unfold in_world at 1. unfold in_world at 7.
    reflexivity. }
  split; [|split; [intros Hdb; rewrite (Hsame Hdb); reflexivity|split]].
  - destruct (DATABASE env) eqn:Hdb; [rewrite (Hsame eq_refl); reflexivity|].
    unfold fetch. rewrite Hdb. reflexivity.
  - intros Hdb Hpath. apply fetch_of_delete_or_rename_leaves_no_memo; assumption.
  - repeat apply conj; vm_compute; try reflexivity. eexists; reflexivity.
Qed.


Lemma map_string_length (f : ascii -> ascii) (s : string) :
  String.length (Js.map_string f s) = String.length s.
Proof. induction s as [|c s IH]; simpl; congruence. Qed.

(** X1. The name a bot upload is stored under: [sanitize] keeps the length
    of the name, leaves only letters, digits, [-], [_] and [.] in it, and
    changes nothing in a name that is already made of these. *)
Theorem sanitize_yields_plain_name (fileName : string) :
  plain_name (sanitize fileName)
  /\ String.length (sanitize fileName) = String.length fileName
  /\ (plain_name fileName -> sanitize fileName = fileName)
  /\ sanitize (sanitize fileName) = sanitize fileName.
Proof.
  assert (Hplain : forall s, plain_name (sanitize s)).
  { induction s as [|c s IH]; [reflexivity|].
    unfold plain_name, sanitize in *. simpl.
    destruct (keeps c) eqn:Hc; [rewrite Hc | ]; simpl; exact IH. }
  assert (Hfix : forall s, plain_name s -> sanitize s = s).
  { induction s as [|c s IH]; [reflexivity|].
    unfold plain_name, sanitize in *. simpl. intros H.
    apply andb_true_iff in H as [Hc Hs]. rewrite Hc, IH by exact Hs. reflexivity. }
  repeat split.
  - apply Hplain.
  - apply map_string_length.
  - apply Hfix.
  - apply Hfix, Hplain.
Qed.

Lemma substring_all (s : string) : String.substring 0 (String.length s) s = s.
Proof. induction s as [|c s IH]; simpl; congruence. Qed.

Lemma keeps_not (c d : ascii) : keeps d = false -> keeps c = true -> Ascii.eqb c d = false.
Proof.
  intros Hd Hc. destruct (Ascii.eqb_spec c d) as [->|]; [congruence | reflexivity].
Qed.

Lemma until_query_plain (s rest : string) :
  plain_name s -> Js.until_query (s +:+ rest) = s +:+ Js.until_query rest.
Proof.
  unfold plain_name. induction s as [|c s IH]; simpl; intros H; [reflexivity|].
  apply andb_true_iff in H as [Hc Hs].
  rewrite (keeps_not c "?"), (keeps_not c "#") by (reflexivity || exact Hc).
  simpl. rewrite IH by exact Hs. reflexivity.
Qed.

Lemma until_query_plain_end (s : string) : plain_name s -> Js.until_query s = s.
Proof.
  unfold plain_name. induction s as [|c s IH]; simpl; intros H; [reflexivity|].
  apply andb_true_iff in H as [Hc Hs].
  rewrite (keeps_not c "?"), (keeps_not c "#") by (reflexivity || exact Hc).
  simpl. rewrite IH by exact Hs. reflexivity.
Qed.

Lemma from_slash_plain (s rest : string) :
  plain_name s -> Js.from_slash (s +:+ String "/" rest) = String "/" rest.
Proof.
  unfold plain_name. induction s as [|c s IH]; simpl; intros H; [reflexivity|].
  apply andb_true_iff in H as [Hc Hs].
  rewrite (keeps_not c "/") by (reflexivity || exact Hc). apply IH, Hs.
Qed.

Lemma split_plain (sep : ascii) (s : string) :
  keeps sep = false -> plain_name s -> Js.split sep s = [s].
Proof.
  intros Hsep. unfold plain_name. induction s as [|c s IH]; simpl; intros H; [reflexivity|].
  apply andb_true_iff in H as [Hc Hs].
  rewrite (keeps_not c sep) by assumption. rewrite IH by exact Hs. reflexivity.
Qed.

Lemma plain_name_app (a b : string) : plain_name a -> plain_name b -> plain_name (a +:+ b).
Proof.
  unfold plain_name. induction a as [|c a IH]; simpl; intros Ha Hb; [exact Hb|].
  apply andb_true_iff in Ha as [Hc Ha]. rewrite Hc. simpl. auto.
Qed.

Lemma after_scheme_https (rest : string) :
  Js.after_scheme ("https://" +:+ rest) = Some rest.
Proof.
  unfold Js.after_scheme. simpl. rewrite Nat.sub_0_r, substring_all.
  destruct rest; reflexivity.
Qed.

(** X2. The file name read from a URL the worker has built is the name it
    was built from: for a domain and a name made of letters, digits, [-],
    [_] and [.] (the name being neither empty nor [.] nor [..]),
    [getFileName] undoes [`https://${config.domain}/${fileName}`]. *)
Theorem getFileName_of_built_url (config : Config) (fileName : string) :
  plain_name (domain config) ->
  domain config <> "" ->
  plain_name fileName ->
  fileName <> "" ->
  fileName <> "." ->
  fileName <> ".." ->
  getFileName (url_of config fileName) = fileName.
Proof.
  intros Hd _ Hn _ _ _.
  unfold getFileName, url_of, Js.url_pathname.
  rewrite after_scheme_https.
  rewrite (until_query_plain _ _ Hd).
  change (Js.until_query ("/" +:+ fileName)) with (String "/" (Js.until_query fileName)).
  rewrite (until_query_plain_end _ Hn).
  rewrite (from_slash_plain _ _ Hd).
  change (Js.split "/" (String "/" fileName)) with ("" :: Js.split "/" fileName).
  rewrite (split_plain "/" fileName eq_refl Hn). reflexivity.
Qed.








(** X3. A request for a file that is not memoized never raises, and when
    it is answered with status 200 the response has been memoized under
    the path, with the time of the request. *)
Lemma served_200_is_cached (ext : Ext) (config : Config) (path : string) (w : World) :
  fileCache w !! ("file:" +:+ path) = None ->
  match handleFileRequest ext config path w with
  | (Ok response, w1) =>
      http_status response = 200 ->
      fileCache w1 !! ("file:" +:+ path) = Some (mkCacheEntry response (now ext))
  | (Throw _, _) => False
  end.
Proof.
  intros Hcache.
  unfold handleFileRequest, lookup_for_serving, tg_fetch, bucket_get, cacheAndReturnResponse.
  destruct (String.eqb path ""); run; [cbn [http_status]; intros; discriminate|].
  rewrite Hcache. run.
  repeat (branch; run);
    try (cbn [http_status]; intros; discriminate);
    try (intros _; apply lookup_insert_eq).
Qed.




Lemma set_trace_nil (w : World) : set_trace (trace w ++ []) w = w.
Proof. rewrite app_nil_r. destruct w; reflexivity. Qed.

Lemma admin_delete_lookup (id fileId : option string) (w : World) :
  exists reads,
    lookup_for_delete id fileId w
      = (Ok (admin_delete_target id fileId (db w)), set_trace (trace w ++ reads) w)
    /\ Forall (fun e => is_db_read e = true) reads.
Proof. apply lookup_for_delete_run. Qed.

Ltac exists_trace reads evs :=
  eexists _, (reads ++ evs); split; [reflexivity|]; wsimpl;
  repeat (split; [first [reflexivity | rewrite <- ?app_assoc; reflexivity]|]).

(** X5. [/delete] on a row it finds answers success, deletes that row and
    no other, and deletes the object under the row's [fileId] when the
    row is kept in the bucket (unless the bucket rejects the call).  It
    leaves the file cache as it is and sends nothing to the storage
    chat: the message of a file kept there is not deleted. *)
Lemma admin_delete_run (ext : Ext) (config : Config) (token : Token)
    (id fileId : option string) (r : File.t) (w : World) :
  enableAuth config && negb (authenticate token ext config) = false ->
  admin_delete_target id fileId (db w) = Some r ->
  exists w' evs,
    handleDeleteRequest ext config token id fileId w = (Ok (json 1 MDeleted), w')
    /\ db w' = Query.delete_file (File.id r) (db w)
    /\ chat_store w' = chat_store w
    /\ fileCache w' = fileCache w
    /\ bucket w'
       = (if Js.opt_eqb (File.storage_type r) "r2" && has_bucket config
             && negb (r2_delete_fails ext)
          then match File.fileId r with
               | Some key => delete key (bucket w)
               | None => bucket w
               end
          else bucket w)
    /\ trace w' = trace w ++ evs
    /\ Forall (fun e => is_chat_delete e = false) evs.
Proof.
  intros Hauth Htarget.
  unfold handleDeleteRequest. rewrite Hauth.
  assert (Hgiven : negb (Js.truthy id) && negb (Js.truthy fileId) = false).
  { unfold admin_delete_target in Htarget.
    destruct (Js.truthy id), (Js.truthy fileId); try reflexivity. discriminate. }
  rewrite Hgiven. unfold try_catch at 1. unfold bind at 1.
  destruct (admin_delete_lookup id fileId w) as (reads & Hlook & Hreads).
  rewrite Hlook, Htarget. unfold deleteFile, bucket_delete.
  assert (Hsafe : Forall (fun e => is_chat_delete e = false) reads).
  { eapply Forall_impl; [exact Hreads|]. intros [] He; try discriminate; reflexivity. }
  assert (Hfin : forall evs0, Forall (fun e => is_chat_delete e = false) evs0 ->
                   Forall (fun e => is_chat_delete e = false) (reads ++ evs0)).
  { intros evs0 H0. apply Forall_app. split; assumption. }
  destruct (Js.opt_eqb (File.storage_type r) "r2" && has_bucket config) eqn:Hr2; run.
  - apply andb_true_iff in Hr2 as [_ Hb]. rewrite Hb.
    destruct (File.fileId r) as [key|]; run.
    + destruct (r2_delete_fails ext); run.
      * exists_trace reads [R2Delete key; DbWrite "files"]. apply Hfin; repeat constructor.
      * exists_trace reads [R2Delete key; DbWrite "files"]. apply Hfin; repeat constructor.
    + exists_trace reads [DbWrite "files"].
      split; [destruct (r2_delete_fails ext); reflexivity|].
      split; [rewrite <- app_assoc; reflexivity|]. apply Hfin; repeat constructor.
  - exists_trace reads [DbWrite "files"]. apply Hfin; repeat constructor.
Qed.

(** X6. With a bot token, [setWebhook] calls the platform at least once
    and at most three times, each time for the same URL, and stops at
    the first call that is answered ok or refused; it answers [true]
    exactly when its last call was answered ok.  It does nothing else. *)
Theorem setWebhook_calls_at_most_three_times (answers : nat -> HookAnswer)
    (webhookUrl botToken : string) (w : World) :
  botToken <> "" ->
  exists calls,
    (1 <= calls <= 3)%nat
    /\ setWebhook answers webhookUrl botToken w
       = (Ok match answers (calls - 1)%nat with HookSet => true | _ => false end,
          set_trace (trace w ++ repeat (TgSetWebhook webhookUrl) calls) w)
    /\ (forall earlier, (earlier < calls - 1)%nat ->
          answers earlier <> HookSet /\ answers earlier <> HookRefused)
    /\ ((calls < 3)%nat ->
          answers (calls - 1)%nat = HookSet \/ answers (calls - 1)%nat = HookRefused).
Proof.
  intros Htoken. unfold setWebhook.
  destruct (String.eqb_spec botToken ""); [contradiction|].
  cbn [setWebhook_attempts]. run.
  assert (Hlt1 : forall i, (i < 1)%nat -> i = 0%nat) by lia.
  assert (Hlt2 : forall i, (i < 2)%nat -> i = 0%nat \/ i = 1%nat) by lia.
  destruct (answers 0%nat) eqn:H0.
  1, 4: exists 1%nat; cbn [Nat.sub repeat]; rewrite H0;
    (split; [lia|]); (split; [wopen; reflexivity|]); (split; [intros i Hi; lia|]); auto.
  all: destruct (answers 1%nat) eqn:H1.
  all: try (exists 2%nat; cbn [Nat.sub repeat]; rewrite H1;
            (split; [lia|]); (split; [wopen; rewrite <- ?app_assoc; reflexivity|]);
            (split; [intros i Hi; rewrite (Hlt1 i Hi), H0; split; discriminate|]); auto; fail).
  all: exists 3%nat; cbn [Nat.sub repeat];
    (split; [lia|]);
    (split; [destruct (answers 2%nat); wopen; rewrite <- ?app_assoc; reflexivity|]);
    (split; [intros i Hi; destruct (Hlt2 i Hi) as [-> | ->];
             [rewrite H0 | rewrite H1]; split; discriminate|]);
    intros Hc; lia.
Qed.

Lemma in_protected_paths (path : string) :
  path ∈ protectedPaths ->
  existsb (String.eqb path) protectedPaths = true
  /\ String.eqb path "/favicon.ico" = false
  /\ String.eqb path "/login" = false.
Proof.
  unfold protectedPaths. intros Hin.
  repeat (apply elem_of_cons in Hin as [-> | Hin]; [repeat split; reflexivity|]).
  inversion Hin.
Qed.

(** X7. With authentication enabled and configured, a request for a
    protected path that carries no valid token is turned away before the
    store is looked at: it is answered 401 with the address of the login
    page when it is a [POST] or accepts JSON, and redirected to the login
    page otherwise.  Nothing is changed but the caches, which are new. *)
Theorem fetch_turns_away_without_token
    (page : string -> Request -> Config -> Handler Response)
    (handleCallbackQuery : Ext -> Config -> string -> string -> UserSetting.t -> Handler unit)
    (encodeURIComponent : string -> string) (decodeURIComponent : string -> option string)
    (ext : Ext) (hook : nat -> HookAnswer) (env : Env) (request : Request) (site : Site) :
  DATABASE env = true ->
  ENABLE_AUTH env = Some "true" ->
  Js.truthy (USERNAME env) = true ->
  Js.truthy (PASSWORD env) = true ->
  pathname request ∈ protectedPaths ->
  authenticate (token request) ext (config_of_env env request) = false ->
  let wants_json :=
    String.eqb (method request) "POST"
    || match accept request with
       | Some a => Js.includes a "application/json"
       | None => false
       end in
  fetch page handleCallbackQuery encodeURIComponent decodeURIComponent ext hook env request
    site
  = (Ok (if wants_json
         then mkResponse 401
                (JsonUrl 0 MUnauthorizedAccess (origin request +:+ "/login"))
         else mkResponse 302
                (Redirect (origin request +:+ "/login?redirect=" +:+
                           encodeURIComponent (pathname request +:+ search request)))),
     put_world (new_maps (world site)) site).
Proof.
  intros Hdb Hauth Huser Hpass Hpath Htoken wants_json.
  destruct (in_protected_paths _ Hpath) as (Hprot & Hfav & Hlogin).
  assert (Hname : forall o, Js.truthy o = true -> String.eqb (Js.or_else o "") "" = false).
  { intros [s|]; simpl; [|discriminate].
    destruct (String.eqb s "") eqn:Hs; [discriminate|]. intros _. exact Hs. }
  unfold fetch. rewrite Hdb. cbn [negb].
  unfold bind at 1, in_world at 1, modify.
  rewrite Htoken, Hfav, Hlogin, Hprot.
  unfold config_of_env at 1 2 3 4 5. cbn [enableAuth username password].
  rewrite Hauth, (Hname _ Huser), (Hname _ Hpass).
  change (Js.opt_eqb (Some "true") "true") with true.
  cbn [andb orb negb]. fold wants_json.
  destruct wants_json; reflexivity.
Qed.

(** C1. A rename that answers success can leave the row with a [fileId]
    that names nothing.  Renaming the document in the bucket to the name
    it already has puts the object under its key and then deletes that
    key: the row is as before, the object is gone, and the file is no
    longer served.  The same reply to the bot's rename prompt does the
    same.  And when the bucket rejects the [put], the bytes go to the
    storage chat, the old object is deleted all the same, and the row
    gets the new name as [fileId], a key the bucket does not have. *)
Theorem C1_successful_rename_leaves_fileId_without_object :
  let url := File.url Sample.manual in
  let same :=
    handleUpdateSuffixRequest Sample.ext Sample.config (Some url) (Some "manual")
      Sample.world in
  let by_bot :=
    handleTelegramWebhook Sample.no_buttons Sample.ext Sample.config
      (Sample.text_from "1001" "manual")
      (Sample.renaming "edit_suffix_input_new" Sample.manual) in
  let moved :=
    handleUpdateSuffixRequest Sample.put_rejected Sample.config (Some url) (Some "guide")
      Sample.world in
  let served path w := fst (handleFileRequest Sample.ext Sample.config path w) in
  File.fileId Sample.manual = Some "manual.pdf"
  /\ bucket Sample.world !! "manual.pdf" = Some (mkR2 "manual-bytes" (Some "application/pdf"))
  /\ served "manual.pdf" Sample.world
     = Ok (mkResponse 200 (Stream "manual-bytes" "application/pdf"))
  /\ fst same = Ok (mkResponse 200 (JsonUrl 1 MRenamed url))
  /\ Query.find_file_by_id 3 (db (snd same)) = Some Sample.manual
  /\ bucket (snd same) !! "manual.pdf" = None
  /\ served "manual.pdf" (snd same) = Ok (mkResponse 404 (Text "File not available"))
  /\ fst by_bot = Ok OK
  /\ In (SendMessage "1001" (Renamed url)) (trace (snd by_bot))
  /\ Query.find_file_by_id 3 (db (snd by_bot)) = Some Sample.manual
  /\ bucket (snd by_bot) !! "manual.pdf" = None
  /\ fst moved = Ok (mkResponse 200 (JsonUrl 1 MRenamed "https://img.example/guide.pdf"))
  /\ (File.fileId <$> Query.find_file_by_id 3 (db (snd moved))) = Some (Some "guide.pdf")
  /\ bucket (snd moved) !! "guide.pdf" = None
  /\ bucket (snd moved) !! "manual.pdf" = None
  /\ served "guide.pdf" (snd moved) = Ok (mkResponse 404 (Text "File not available")).
Proof.
  cbv zeta. repeat apply conj; vm_compute; try reflexivity. tauto.
Qed.

(** C2, against the claim as stated: in the state [new_category] the text
    [/start] is taken as the name of a new category, which is created and
    made current; and in the state [edit_suffix_input_file] the menu is
    sent but the state is not reset. *)
Lemma C2_start_taken_as_category_name_or_state_kept :
  let got state :=
    snd (handleTelegramWebhook Sample.no_buttons Sample.ext Sample.config
           (Sample.text_from "1001" "/start")
           (Sample.world_with (Some state) None [Sample.photo])) in
  Query.find_category "/start" (db (Sample.world_with (Some "new_category") None [Sample.photo]))
    = None
  /\ Query.find_category "/start" (db (got "new_category"))
     = Some (Category.mk 3 "/start" (Some (now Sample.ext)))
  /\ (UserSetting.current_category_id <$> Query.find_user_setting "1001" (db (got "new_category")))
     = Some (Some 3)
  /\ dialogue_state "1001" (got "edit_suffix_input_file")
     = Some (Some "edit_suffix_input_file", None).
Proof. cbv zeta. repeat apply conj; vm_compute; reflexivity. Qed.

(** C3, against the claim as stated: the admin delete does not resolve a
    file name (the picture named [a.png] is not found), and file serving
    takes the first row of that name, not the most recently created one. *)
Lemma C3_file_name_not_resolved_or_oldest_served :
  let rows := [Sample.photo; Sample.report; Sample.photo_again] in
  let w := Sample.world_with None None rows in
  Query.find_file_by_file_name "a.png" (db w) = Some Sample.photo
  /\ fst (handleDeleteRequest Sample.ext Sample.config None (Some "a.png") None w)
     = Ok (json 0 MNoFile)
  /\ fst (lookup_for_serving Sample.config "a.png" w) = Ok (Some Sample.photo)
  /\ File.created_at Sample.photo < File.created_at Sample.photo_again
  /\ File.file_name Sample.photo_again = Some "a.png".
Proof. cbv zeta. repeat apply conj; vm_compute; reflexivity. Qed.

(** C5, against the claim as stated.  On a store with one table missing
    and one column missing the first call succeeds, and the second call
    still changes the structure: it adds [current_category_id] to
    [user_settings].  And on a store whose [categories] table has
    [created_at] declared [NOT NULL] without a default, and where a table
    is missing, the first call succeeds and leaves no default category;
    the second call makes it. *)
Lemma C5_second_call_adds_a_column_or_the_default :
  (exists s1 s2,
     Schema.initDatabase 1 Sample.legacy_store = (Ok true, s1)
     /\ Schema.initDatabase 2 s1 = (Ok true, s2)
     /\ Schema.structure s2 <> Schema.structure s1
     /\ Schema.has_column (default [] (Schema.t_user_settings s1)) "current_category_id" = false
     /\ Schema.has_column (default [] (Schema.t_user_settings s2)) "current_category_id" = true)
  /\ (exists s1 s2,
        Schema.initDatabase 1 Sample.bare_store = (Ok true, s1)
        /\ Schema.initDatabase 2 s1 = (Ok true, s2)
        /\ Schema.default_count s1 = 0%nat
        /\ Schema.default_count s2 = 1%nat).
Proof.
  split.
  - eexists _, _. split; [vm_compute; reflexivity|]. split; [vm_compute; reflexivity|].
    split; [vm_compute; discriminate|]. split; vm_compute; reflexivity.
  - eexists _, _. split; [vm_compute; reflexivity|]. split; [vm_compute; reflexivity|].
    split; vm_compute; reflexivity.
Qed.


(** *** The theorems at the sample data *)

Lemma C2_witness :
  let asked := Sample.world_with (Some "new_category") None [Sample.photo] in
  exists w' menu editing,
    handleTelegramWebhook Sample.no_buttons Sample.ext Sample.config
      (Sample.text_from "1001" "/start") asked = (Ok OK, w')
    /\ last (trace w') = Some (SendMenu "1001" menu)
    /\ dialogue_state "1001" w' = Some (None, editing).
Proof.
  cbv zeta.
  destruct (C2_start_always_ends_with_the_menu Sample.no_buttons Sample.ext Sample.config
              (Message.mk "1001" "private" (Some "/start") None None None None None None None)
              (Sample.world_with (Some "new_category") None [Sample.photo])
              eq_refl ltac:(discriminate) ltac:(discriminate)
              (or_intror (list_elem_of_here "1001" [])))
    as (w' & menu & Hrun & Hlast & Hstate).
  change (Query.find_user_setting _ (db (Sample.world_with _ _ _)))
    with (Some (UserSetting.mk "1001" (Some "telegram") (Some 1) (Some "new_category") None))
    in Hstate.
  destruct Hstate as (_ & Hreset & _).
  destruct (Hreset eq_refl) as [editing Hed].
  exists w', menu, editing. auto.
Defined.

Lemma C4_witness :
  handleUploadRequest Sample.ext Sample.config None
    (Some (mkUploadForm (Some (mkUploadedFile "big.bin" (25 * 1024 * 1024) None "bytes"))
             None (Some "r2")))
    Sample.world
  = (Ok (mkResponse 400 (Json 0 (MUploadFailed (ETooLarge 20)))), Sample.world).
Proof.
  apply (proj1 (C4_oversize_upload_refused_before_any_write Sample.ext Sample.config Sample.world)
           None _ (mkUploadedFile "big.bin" (25 * 1024 * 1024) None "bytes")).
  - reflexivity.
  - reflexivity.
  - simpl. lia.
Defined.

Lemma C5_witness :
  unique_category_names Sample.bare_store
  /\ categories_take_rows Sample.bare_store
  /\ exists s1 s2,
      Schema.initDatabase 1 Sample.bare_store = (Ok true, s1)
      /\ Schema.initDatabase 2 s1 = (Ok true, s2)
      /\ Schema.complete s2
      /\ Schema.default_count s2 = 1%nat.
Proof.
  assert (Hu : unique_category_names Sample.bare_store) by constructor.
  assert (Ht : categories_take_rows Sample.bare_store) by (split; reflexivity).
  split; [exact Hu|]. split; [exact Ht|].
  destruct (C5_schema_settles_by_the_second_call Sample.bare_store 1 2 Hu Ht)
    as (s1 & s2 & H1 & H2 & H3 & H4 & _).
  exists s1, s2. auto.
Defined.

Lemma C6_witness :
  exists response w',
    handleDeleteCategoryRequest Sample.ext Sample.config None (Some 2) Sample.world
      = (Ok response, w')
    /\ (forall cat, cat ∈ categories (db Sample.world) ->
          Category.name cat = default_category_name -> cat ∈ categories (db w'))
    /\ (no_dangling (db Sample.world) -> no_dangling (db w')).
Proof.
  destruct (C6_delete_category_spares_default_and_reparents Sample.ext Sample.config None 2
              Sample.world eq_refl)
    as (response & w' & Hrun & _ & Hkept & _ & Hsound).
  - simpl. repeat constructor.
  - exists response, w'. auto.
Defined.


Lemma C9_witness :
  handleTelegramWebhook Sample.no_buttons Sample.ext Sample.config
    (Sample.text_from "9999" "/start") Sample.world
  = (Ok OK,
     set_trace
       (trace Sample.world
        ++ refusal Sample.config (Sample.text_from "9999" "/start") "9999")
       Sample.world)
  /\ refusal Sample.config (Sample.text_from "9999" "/start") "9999"
     = [SendMessage "9999" Unauthorized].
Proof.
  destruct (C9_unlisted_chat_reaches_no_table Sample.no_buttons Sample.ext Sample.config
              (Sample.text_from "9999" "/start") "9999" Sample.world eq_refl)
    as (Hrun & Hsent & _ & _).
  - discriminate.
  - simpl. intros Hin. apply list_elem_of_singleton in Hin. discriminate.
  - split; [exact Hrun|]. apply Hsent; [reflexivity | discriminate].
Defined.

Lemma C10_witness :
  exists msg reads,
    handleUpdateSuffixRequest Sample.ext Sample.config
      (Some (File.url Sample.report)) (Some "manual") Sample.world
    = (Ok (json 0 msg), set_trace (trace Sample.world ++ reads) Sample.world)
    /\ (msg = MNameTaken \/ msg = MUrlTaken)
    /\ Forall (fun e => is_db_read e = true) reads.
Proof.
  apply (C10_taken_name_rejects_rename Sample.ext Sample.config
           (File.url Sample.report) "manual" Sample.world Sample.report Sample.manual).
  - discriminate.
  - discriminate.
  - reflexivity.
  - simpl. right. right. left.
  - simpl. lia.
  - left. reflexivity.
Defined.

Lemma getFileName_of_built_url_witness :
  getFileName (url_of Sample.config "1700_a.png") = "1700_a.png".
Proof.
  apply (getFileName_of_built_url Sample.config "1700_a.png");
    first [reflexivity | discriminate].
Defined.


Lemma served_200_is_cached_witness :
  match handleFileRequest Sample.ext Sample.config "manual.pdf" Sample.world with
  | (Ok response, w1) =>
      http_status response = 200 ->
      fileCache w1 !! ("file:" +:+ "manual.pdf")
      = Some (mkCacheEntry response (now Sample.ext))
  | (Throw _, _) => False
  end.
Proof.
  apply (served_200_is_cached Sample.ext Sample.config "manual.pdf" Sample.world).
  reflexivity.
Defined.

Lemma admin_delete_run_witness :
  exists w' evs,
    handleDeleteRequest Sample.ext Sample.config None (Some (File.url Sample.report)) None
      Sample.world = (Ok (json 1 MDeleted), w')
    /\ db w' = Query.delete_file 2 (db Sample.world)
    /\ bucket w' = delete "1701_report.pdf" (bucket Sample.world)
    /\ trace w' = trace Sample.world ++ evs.
Proof.
  destruct (admin_delete_run Sample.ext Sample.config None (Some (File.url Sample.report)) None
              Sample.report Sample.world eq_refl eq_refl)
    as (w' & evs & Hrun & Hdb & _ & _ & Hbucket & Htrace & _).
  exists w', evs. auto.
Defined.

Lemma setWebhook_calls_at_most_three_times_witness :
  exists calls,
    (1 <= calls <= 3)%nat
    /\ setWebhook (fun attempt => if (attempt <? 1)%nat then HookRateLimited else HookSet)
         "https://img.example/webhook" "bot-token" Sample.world
       = (Ok match (if (calls - 1 <? 1)%nat then HookRateLimited else HookSet) with
             | HookSet => true
             | _ => false
             end,
          set_trace
            (trace Sample.world ++ repeat (TgSetWebhook "https://img.example/webhook") calls)
            Sample.world).
Proof.
  destruct (setWebhook_calls_at_most_three_times
              (fun attempt => if (attempt <? 1)%nat then HookRateLimited else HookSet)
              "https://img.example/webhook" "bot-token" Sample.world ltac:(discriminate))
    as (calls & Hcalls & Hrun & _).
  exists calls. auto.
Defined.

Lemma fetch_turns_away_without_token_witness :
  fetch Sample.no_page Sample.no_buttons (fun s => s) Some Sample.ext (fun _ => HookSet)
    (mkEnv true (Some "img.example") (Some "admin") (Some "secret") (Some "true")
       (Some "bot-token") (Some "1001") (Some "-100200") (Some 20) true)
    (Sample.get_path "/admin") (Sample.site_of Sample.world)
  = (Ok (mkResponse 302 (Redirect "https://img.example/login?redirect=/admin")),
     put_world (new_maps Sample.world) (Sample.site_of Sample.world)).
Proof.
  apply (fetch_turns_away_without_token Sample.no_page Sample.no_buttons (fun s => s) Some
           Sample.ext (fun _ => HookSet)
           (mkEnv true (Some "img.example") (Some "admin") (Some "secret") (Some "true")
              (Some "bot-token") (Some "1001") (Some "-100200") (Some 20) true)
           (Sample.get_path "/admin") (Sample.site_of Sample.world));
    first [reflexivity | (right; right; left)].
Defined.
